(** * Hospital management system: the visit store and its role-scoped queries

    A shallow embedding of the [DB] class of the two [HMS.py] files of the
    repository, and the properties of the visit lifecycle proved about it.

    - [Root] embeds [src/HMS.py];
    - [Sub]  embeds [src/HospitalManagementSystem-Python/HMS.py]
      (the variant whose pharmacy completion also closes the visit).

    The functions that are textually the same in both files are embedded once,
    before the two modules.

    Modelling conventions.
    - A table with an [INTEGER PRIMARY KEY] is a [gmap Z row]: the key is the
      rowid, so [WHERE id = ?] is a lookup and at most one row matches.
    - A nullable column is an [option]; [None] is SQL [NULL].
    - [TEXT] values are byte strings compared with SQLite's default [BINARY]
      collation, which is [String.compare].
    - An operation that writes takes the database and returns the new one;
      an operation that reads the clock takes the clock reading [now].
    - A Python exception is the [Raise] outcome; nothing is committed then. *)

From Stdlib Require Import ZArith String Ascii Lia.
From stdpp Require Import base option list sorting gmap fin_maps strings.

Open Scope Z_scope.

(** ** Text: fixed-width decimals and the BINARY collation *)

Definition digit_char (d : Z) : ascii := ascii_of_N (48 + Z.to_N d).

(** [zero_pad w n] is Python's ["%0wd" % n] for [0 <= n < 10^w]. *)
Fixpoint zero_pad (width : nat) (n : Z) : string :=
  match width with
  | O => EmptyString
  | S w => String (digit_char (n / 10 ^ Z.of_nat w))
                  (zero_pad w (n mod 10 ^ Z.of_nat w))
  end.

(** [x = 'literal'] on a nullable TEXT column: NULL never compares equal. *)
Definition sql_eq (col : option string) (lit : string) : bool :=
  match col with
  | Some t => String.eqb t lit
  | None => false
  end.

(** [lo <= x AND x <= hi], which is what [x BETWEEN lo AND hi] means. *)
Definition sql_between (x lo hi : string) : bool :=
  String.leb lo x && String.leb x hi.

(** Ascending order of a nullable TEXT column: NULL sorts before any text. *)
Definition sql_text_leb (a b : option string) : bool :=
  match a, b with
  | None, _ => true
  | Some _, None => false
  | Some x, Some y => String.leb x y
  end.

(** The sort key of [ORDER BY v.date DESC, v.time_in DESC]. *)
Definition order_key : Type := string * option string.

(** [key_desc k1 k2]: a row with key [k1] may come before a row with key
    [k2] under [ORDER BY date DESC, time_in DESC]. *)
Definition key_descb (k1 k2 : order_key) : bool :=
  match String.compare k2.1 k1.1 with
  | Lt => true
  | Eq => sql_text_leb k2.2 k1.2
  | Gt => false
  end.

Definition key_desc (k1 k2 : order_key) : Prop := Is_true (key_descb k1 k2).

(** The sorter of [ORDER BY v.date DESC, v.time_in DESC], for rows whose
    sort key is read by [key]. *)
Definition order_by_desc {A : Type} (key : A → order_key) : list A → list A :=
  merge_sort (λ x y, key_desc (key x) (key y)).

(** ** The calendar of Python's [datetime] module

    A [date] is represented by its proleptic Gregorian ordinal
    ([date.toordinal()]), day 1 being 0001-01-01. *)

Definition MAXORDINAL : Z := 3652059. (* date(9999, 12, 31).toordinal() *)

Definition is_leap (year : Z) : bool :=
  (year mod 4 =? 0) && (negb (year mod 100 =? 0) || (year mod 400 =? 0)).

Definition days_before_year (year : Z) : Z :=
  let y := year - 1 in y * 365 + y / 4 - y / 100 + y / 400.

Definition days_in_month (year month : Z) : Z :=
  if month =? 2 then (if is_leap year then 29 else 28)
  else if (month =? 4) || (month =? 6) || (month =? 9) || (month =? 11)
       then 30 else 31.

(** The table [_DAYS_BEFORE_MONTH], for a non-leap year. *)
Definition DAYS_BEFORE_MONTH (month : Z) : Z :=
  match month with
  | 1 => 0 | 2 => 31 | 3 => 59 | 4 => 90 | 5 => 120 | 6 => 151
  | 7 => 181 | 8 => 212 | 9 => 243 | 10 => 273 | 11 => 304 | 12 => 334
  | _ => 0
  end.

(** The table [_DAYS_IN_MONTH], for a non-leap year. *)
Definition DAYS_IN_MONTH (month : Z) : Z :=
  match month with
  | 2 => 28
  | 4 | 6 | 9 | 11 => 30
  | _ => 31
  end.

Definition days_before_month (year month : Z) : Z :=
  DAYS_BEFORE_MONTH month + (if (2 <? month) && is_leap year then 1 else 0).

Definition ymd2ord (year month day : Z) : Z :=
  days_before_year year + days_before_month year month + day.

Definition DI400Y : Z := 146097.
Definition DI100Y : Z := 36524.
Definition DI4Y : Z := 1461.

(** [_ord2ymd]: ordinal to (year, month, day). *)
Definition ord2ymd (ordinal : Z) : Z * Z * Z :=
  let n := ordinal - 1 in
  let n400 := n / DI400Y in
  let n := n mod DI400Y in
  let n100 := n / DI100Y in
  let n := n mod DI100Y in
  let n4 := n / DI4Y in
  let n := n mod DI4Y in
  let n1 := n / 365 in
  let n := n mod 365 in
  let year := n400 * 400 + 1 + (n100 * 100 + n4 * 4 + n1) in
  if (n1 =? 4) || (n100 =? 4) then (year - 1, 12, 31)
  else
    let leapyear := (n1 =? 3) && (negb (n4 =? 24) || (n100 =? 3)) in
    let month := Z.shiftr (n + 50) 5 in
    let preceding :=
      DAYS_BEFORE_MONTH month + (if (2 <? month) && leapyear then 1 else 0) in
    if n <? preceding then
      let month := month - 1 in
      let preceding :=
        preceding
        - (DAYS_IN_MONTH month + (if (month =? 2) && leapyear then 1 else 0)) in
      (year, month, n - preceding + 1)
    else (year, month, n - preceding + 1).

(** [date.isoformat()]: ["%04d-%02d-%02d" % (year, month, day)]. *)
Definition date_isoformat (ordinal : Z) : string :=
  let '(y, m, d) := ord2ymd ordinal in
  String.append (zero_pad 4 y)
    (String "-" (String.append (zero_pad 2 m) (String "-" (zero_pad 2 d)))).

(** A reading of the clock, as [datetime.now()] returns it. *)
Record datetime : Type := mk_datetime {
  dt_date : Z;          (* the ordinal of the date part *)
  dt_hour : Z;
  dt_minute : Z;
  dt_second : Z;
  dt_microsecond : Z
}.

(** [date.today()] read from the same clock. *)
Definition today (now : datetime) : Z := dt_date now.

(** [now.strftime("%H:%M")]. *)
Definition strftime_HM (now : datetime) : string :=
  String.append (zero_pad 2 (dt_hour now)) (String ":" (zero_pad 2 (dt_minute now))).

(** [datetime.isoformat()]: the microseconds are printed only when nonzero. *)
Definition datetime_isoformat (now : datetime) : string :=
  String.append (date_isoformat (dt_date now))
    (String "T"
       (String.append (zero_pad 2 (dt_hour now))
          (String ":"
             (String.append (zero_pad 2 (dt_minute now))
                (String ":"
                   (String.append (zero_pad 2 (dt_second now))
                      (if dt_microsecond now =? 0 then EmptyString
                       else String "." (zero_pad 6 (dt_microsecond now))))))))).

(** ** Outcomes of a call *)

Inductive exn : Type :=
  | IntegrityError   (* sqlite3.IntegrityError: a NOT NULL column got NULL *)
  | OverflowError.   (* a date or an integer out of its range *)

Inductive outcome (A : Type) : Type :=
  | Ok (a : A)
  | Raise (e : exn).
Arguments Ok {A} a.
Arguments Raise {A} e.

(** ** The vitals dictionary

    [vitals_json] holds [json.dumps(vitals_dict)] and every reader applies
    [json.loads] to it; the two are inverse on these dictionaries, so the
    column is modelled as holding the dictionary itself. *)

Inductive json_value : Type :=
  | JText (s : string)
  | JInt (n : Z)
  | JFloat (repr : string).

Abbreviation vitals_dict := (gmap string json_value).

(** Python truth value of a dictionary: false when empty. *)
Definition dict_truthy (d : vitals_dict) : bool :=
  match map_to_list d with
  | [] => false
  | _ :: _ => true
  end.

(** Python truth value of a [str] or [None]: false for [None] and for the
    empty string. *)
Definition str_truthy (s : option string) : bool :=
  match s with
  | Some (String _ _) => true
  | _ => false
  end.

(** [s or ''] for a [str] or [None]. *)
Definition or_empty (s : option string) : string :=
  match s with
  | Some t => t
  | None => EmptyString
  end.

(** [json.dumps(vitals_dict) if vitals_dict else None]. *)
Definition dumps_or_null (d : vitals_dict) : option vitals_dict :=
  if dict_truthy d then Some d else None.

(** [json.loads(vitals_json) if vitals_json else {}]. *)
Definition loads_or_empty (vitals_json : option vitals_dict) : vitals_dict :=
  match vitals_json with
  | Some d => d
  | None => ∅
  end.

(** ** The schema created by [ensure_db] *)

Record user_row : Type := mk_user {
  u_name : string;
  u_mobile : string;
  u_password_hash : string;
  u_role : string
}.

Record patient_row : Type := mk_patient {
  p_full_name : string;              (* TEXT NOT NULL *)
  p_address : option string;
  p_dob : option string;
  p_created_at : string              (* TEXT NOT NULL *)
}.

Record visit_row : Type := mk_visit {
  v_patient_id : Z;                  (* INTEGER NOT NULL *)
  v_assigned_doctor_id : option Z;
  v_date : string;                   (* TEXT NOT NULL *)
  v_time_in : option string;
  v_time_out : option string;
  v_service : option string;
  v_status : option string;
  v_vitals_json : option vitals_dict;
  v_doctor_notes : option string;
  v_pharmacy_instructions : option string;
  v_pharmacy_status : option string
}.

(** The three tables, keyed by their [id INTEGER PRIMARY KEY AUTOINCREMENT],
    and the [sqlite_sequence] counters of the two tables the store inserts
    into. Neither file turns [PRAGMA foreign_keys] on, so the [FOREIGN KEY]
    clauses of the second file are not enforced and put no constraint on the
    state. *)
Record database : Type := mk_database {
  users : gmap Z user_row;
  patients : gmap Z patient_row;
  visits : gmap Z visit_row;
  patients_seq : Z;
  visits_seq : Z
}.

(** The rowid an AUTOINCREMENT table gives to a new row: one more than the
    largest rowid the table has ever held. *)
Definition next_rowid {A : Type} (seq : Z) (table : gmap Z A) : Z :=
  1 + map_fold (λ k _ acc, Z.max k acc) seq table.

Definition with_visits (db : database) (vs : gmap Z visit_row) : database :=
  {| users := users db; patients := patients db; visits := vs;
     patients_seq := patients_seq db; visits_seq := visits_seq db |}.

(** [SET column = value] on one row, a function for each column that an
    UPDATE of the store assigns on its own. *)
Definition set_time_out (x : option string) (v : visit_row) : visit_row :=
  {| v_patient_id := v_patient_id v;
     v_assigned_doctor_id := v_assigned_doctor_id v;
     v_date := v_date v;
     v_time_in := v_time_in v;
     v_time_out := x;
     v_service := v_service v;
     v_status := v_status v;
     v_vitals_json := v_vitals_json v;
     v_doctor_notes := v_doctor_notes v;
     v_pharmacy_instructions := v_pharmacy_instructions v;
     v_pharmacy_status := v_pharmacy_status v |}.

Definition set_status (x : option string) (v : visit_row) : visit_row :=
  {| v_patient_id := v_patient_id v;
     v_assigned_doctor_id := v_assigned_doctor_id v;
     v_date := v_date v;
     v_time_in := v_time_in v;
     v_time_out := v_time_out v;
     v_service := v_service v;
     v_status := x;
     v_vitals_json := v_vitals_json v;
     v_doctor_notes := v_doctor_notes v;
     v_pharmacy_instructions := v_pharmacy_instructions v;
     v_pharmacy_status := v_pharmacy_status v |}.

Definition set_vitals_json (x : option vitals_dict) (v : visit_row) : visit_row :=
  {| v_patient_id := v_patient_id v;
     v_assigned_doctor_id := v_assigned_doctor_id v;
     v_date := v_date v;
     v_time_in := v_time_in v;
     v_time_out := v_time_out v;
     v_service := v_service v;
     v_status := v_status v;
     v_vitals_json := x;
     v_doctor_notes := v_doctor_notes v;
     v_pharmacy_instructions := v_pharmacy_instructions v;
     v_pharmacy_status := v_pharmacy_status v |}.

Definition set_doctor_notes (x : option string) (v : visit_row) : visit_row :=
  {| v_patient_id := v_patient_id v;
     v_assigned_doctor_id := v_assigned_doctor_id v;
     v_date := v_date v;
     v_time_in := v_time_in v;
     v_time_out := v_time_out v;
     v_service := v_service v;
     v_status := v_status v;
     v_vitals_json := v_vitals_json v;
     v_doctor_notes := x;
     v_pharmacy_instructions := v_pharmacy_instructions v;
     v_pharmacy_status := v_pharmacy_status v |}.

Definition set_pharmacy_instructions (x : option string) (v : visit_row) : visit_row :=
  {| v_patient_id := v_patient_id v;
     v_assigned_doctor_id := v_assigned_doctor_id v;
     v_date := v_date v;
     v_time_in := v_time_in v;
     v_time_out := v_time_out v;
     v_service := v_service v;
     v_status := v_status v;
     v_vitals_json := v_vitals_json v;
     v_doctor_notes := v_doctor_notes v;
     v_pharmacy_instructions := x;
     v_pharmacy_status := v_pharmacy_status v |}.

Definition set_pharmacy_status (x : option string) (v : visit_row) : visit_row :=
  {| v_patient_id := v_patient_id v;
     v_assigned_doctor_id := v_assigned_doctor_id v;
     v_date := v_date v;
     v_time_in := v_time_in v;
     v_time_out := v_time_out v;
     v_service := v_service v;
     v_status := v_status v;
     v_vitals_json := v_vitals_json v;
     v_doctor_notes := v_doctor_notes v;
     v_pharmacy_instructions := v_pharmacy_instructions v;
     v_pharmacy_status := x |}.

(** [UPDATE visits SET ... WHERE id = ?]: [set] is applied to the row with
    that id, if there is one. *)
Definition update_visits_where_id (db : database) (visit_id : Z)
    (set : visit_row → visit_row) : database :=
  with_visits db (alter set visit_id (visits db)).

(** [FROM visits v], in the order of the scan. *)
Definition scan_visits (db : database) : list (Z * visit_row) :=
  map_to_list (visits db).

(** [LEFT JOIN users u ON v.assigned_doctor_id = u.id]. *)
Definition left_join_users (db : database) (v : visit_row) : option (Z * user_row) :=
  did ← v_assigned_doctor_id v; u ← users db !! did; Some (did, u).

(** [v.pharmacy_status = 'Pending' OR v.status = 'Visit Pharmacy']. *)
Definition pharmacy_filter (v : visit_row) : bool :=
  sql_eq (v_pharmacy_status v) "Pending" || sql_eq (v_status v) "Visit Pharmacy".

(** ** The dictionaries the queries return, one record per set of keys *)

Module VisitDetail. (* get_visit *)
Record t : Type := mk {
  visit_id : Z; patient_id : Z; patient_name : string;
  assigned_doctor_id : option Z; doctor_name : option string;
  date : string; time_in : option string; time_out : option string;
  service : option string; status : option string; vitals : vitals_dict;
  notes : option string; pharmacy_instructions : option string;
  pharmacy_status : option string
}.
End VisitDetail.

Module DoctorVisit. (* get_visits_for_doctor *)
Record t : Type := mk {
  visit_id : Z; patient_id : Z; patient_name : string;
  date : string; time_in : option string; time_out : option string;
  service : option string; status : option string; vitals : vitals_dict;
  notes : option string; pharmacy_instructions : option string;
  pharmacy_status : option string
}.
End DoctorVisit.

Module PharmacyVisit. (* get_visits_for_pharmacy and search_visits *)
Record t : Type := mk {
  visit_id : Z; patient_id : Z; patient_name : string;
  date : string; time_in : option string; time_out : option string;
  service : option string; status : option string; vitals : vitals_dict;
  notes : option string; pharmacy_instructions : option string;
  pharmacy_status : option string; doctor_name : option string
}.
End PharmacyVisit.

Module HistoryVisit. (* get_patient_visit_history and get_visits_for_patient *)
Record t : Type := mk {
  id : Z;
  date : string; time_in : option string; time_out : option string;
  service : option string; status : option string; vitals : vitals_dict;
  notes : option string; pharmacy_instructions : option string;
  pharmacy_status : option string;
  doctor_id : option Z; doctor_name : option string
}.
End HistoryVisit.

(** ** The operations that are the same in both files *)

(** [DB.add_patient]. The only check is the schema's [NOT NULL] on
    [full_name]; [created_at] is read from the clock. *)
Definition add_patient (now : datetime) (db : database)
    (full_name address dob : option string) : outcome (database * Z) :=
  match full_name with
  | None => Raise IntegrityError
  | Some name =>
      let pid := next_rowid (patients_seq db) (patients db) in
      let row := {| p_full_name := name;
                    p_address := address;
                    p_dob := Some (or_empty dob);
                    p_created_at := datetime_isoformat now |} in
      Ok ({| users := users db;
             patients := <[pid := row]> (patients db);
             visits := visits db;
             patients_seq := pid;
             visits_seq := visits_seq db |}, pid)
  end.

(** [DB.get_patient]. *)
Definition get_patient (db : database) (patient_id : Z) : option patient_row :=
  patients db !! patient_id.

(** [DB.update_visit]: every column but [patient_id] and [pharmacy_status]
    is assigned. The [NOT NULL] on [date] is checked on the row that is
    updated, if there is one. *)
Definition update_visit (db : database) (visit_id : Z)
    (assigned_doctor_id : option Z) (visit_date : option string)
    (time_in time_out service status : option string) (vitals : vitals_dict)
    (doctor_notes pharmacy_instructions : option string) : outcome database :=
  match visits db !! visit_id with
  | None => Ok db
  | Some v =>
      match visit_date with
      | None => Raise IntegrityError
      | Some d =>
          Ok (with_visits db
                (<[visit_id :=
                     {| v_patient_id := v_patient_id v;
                        v_assigned_doctor_id := assigned_doctor_id;
                        v_date := d;
                        v_time_in := time_in;
                        v_time_out := time_out;
                        v_service := service;
                        v_status := status;
                        v_vitals_json := dumps_or_null vitals;
                        v_doctor_notes := doctor_notes;
                        v_pharmacy_instructions := pharmacy_instructions;
                        v_pharmacy_status := v_pharmacy_status v |}]>
                   (visits db)))
      end
  end.

(** [DB.get_visit]: the visit joined with its patient (inner join) and its
    doctor (left join); [fetchone()] of the at most one row. *)
Definition get_visit (db : database) (visit_id : Z) : option VisitDetail.t :=
  v ← visits db !! visit_id;
  p ← patients db !! v_patient_id v;
  Some {| VisitDetail.visit_id := visit_id;
          VisitDetail.patient_id := v_patient_id v;
          VisitDetail.patient_name := p_full_name p;
          VisitDetail.assigned_doctor_id := v_assigned_doctor_id v;
          VisitDetail.doctor_name := (u_name ∘ snd) <$> left_join_users db v;
          VisitDetail.date := v_date v;
          VisitDetail.time_in := v_time_in v;
          VisitDetail.time_out := v_time_out v;
          VisitDetail.service := v_service v;
          VisitDetail.status := v_status v;
          VisitDetail.vitals := loads_or_empty (v_vitals_json v);
          VisitDetail.notes := v_doctor_notes v;
          VisitDetail.pharmacy_instructions := v_pharmacy_instructions v;
          VisitDetail.pharmacy_status := v_pharmacy_status v |}.

(** The rows of [get_visits_for_doctor], before they are sorted:
    [FROM visits v JOIN patients p ON v.patient_id = p.id
     WHERE v.assigned_doctor_id = ?]. *)
Definition doctor_rows (db : database) (doctor_id : Z)
    : list (Z * visit_row * patient_row) :=
  omap (λ r : Z * visit_row,
          p ← patients db !! v_patient_id r.2;
          if bool_decide (v_assigned_doctor_id r.2 = Some doctor_id)
          then Some (r.1, r.2, p) else None)
       (scan_visits db).

Definition doctor_dict (r : Z * visit_row * patient_row) : DoctorVisit.t :=
  let '(vid, v, p) := r in
  {| DoctorVisit.visit_id := vid;
     DoctorVisit.patient_id := v_patient_id v;
     DoctorVisit.patient_name := p_full_name p;
     DoctorVisit.date := v_date v;
     DoctorVisit.time_in := v_time_in v;
     DoctorVisit.time_out := v_time_out v;
     DoctorVisit.service := v_service v;
     DoctorVisit.status := v_status v;
     DoctorVisit.vitals := loads_or_empty (v_vitals_json v);
     DoctorVisit.notes := v_doctor_notes v;
     DoctorVisit.pharmacy_instructions := v_pharmacy_instructions v;
     DoctorVisit.pharmacy_status := v_pharmacy_status v |}.

(** [DB.get_visits_for_doctor]. *)
Definition get_visits_for_doctor (db : database) (doctor_id : Z)
    : list DoctorVisit.t :=
  doctor_dict <$>
    order_by_desc (λ r : Z * visit_row * patient_row,
                     (v_date r.1.2, v_time_in r.1.2))
                  (doctor_rows db doctor_id).

(** A row of the four-way select of the pharmacy queue and of the search. *)
Definition joined_row : Type := Z * visit_row * patient_row * option user_row.

Definition joined_key (r : joined_row) : order_key :=
  (v_date r.1.1.2, v_time_in r.1.1.2).

Definition pharmacy_dict (r : joined_row) : PharmacyVisit.t :=
  let '(vid, v, p, u) := r in
  {| PharmacyVisit.visit_id := vid;
     PharmacyVisit.patient_id := v_patient_id v;
     PharmacyVisit.patient_name := p_full_name p;
     PharmacyVisit.date := v_date v;
     PharmacyVisit.time_in := v_time_in v;
     PharmacyVisit.time_out := v_time_out v;
     PharmacyVisit.service := v_service v;
     PharmacyVisit.status := v_status v;
     PharmacyVisit.vitals := loads_or_empty (v_vitals_json v);
     PharmacyVisit.notes := v_doctor_notes v;
     PharmacyVisit.pharmacy_instructions := v_pharmacy_instructions v;
     PharmacyVisit.pharmacy_status := v_pharmacy_status v;
     PharmacyVisit.doctor_name := u_name <$> u |}.

(** [FROM visits v JOIN patients p ON v.patient_id = p.id
     LEFT JOIN users u ON v.assigned_doctor_id = u.id WHERE cond]. *)
Definition select_join_patients_left_users (db : database)
    (cond : Z → visit_row → patient_row → bool) : list joined_row :=
  omap (λ r : Z * visit_row,
          p ← patients db !! v_patient_id r.2;
          if cond r.1 r.2 p
          then Some (r.1, r.2, p, snd <$> left_join_users db r.2) else None)
       (scan_visits db).

(** [DB.get_visits_for_pharmacy]. *)
Definition get_visits_for_pharmacy (db : database) : list PharmacyVisit.t :=
  pharmacy_dict <$>
    order_by_desc joined_key
      (select_join_patients_left_users db (λ _ v _, pharmacy_filter v)).

(** [date.today() - timedelta(days=n)]: [date.__sub__] raises
    [OverflowError] when the result leaves [date.min .. date.max]. *)
Definition date_sub_days (d n : Z) : outcome Z :=
  let o := d - n in
  if (0 <? o) && (o <=? MAXORDINAL) then Ok o else Raise OverflowError.

(** The rows of [get_patient_visit_history], before they are sorted:
    [FROM visits v LEFT JOIN users u ON v.assigned_doctor_id = u.id
     WHERE v.patient_id = ? AND v.date BETWEEN ? AND ?]. *)
Definition history_rows (db : database) (patient_id : Z)
    (start_date end_date : string)
    : list (Z * visit_row * option (Z * user_row)) :=
  omap (λ r : Z * visit_row,
          if (v_patient_id r.2 =? patient_id)
             && sql_between (v_date r.2) start_date end_date
          then Some (r.1, r.2, left_join_users db r.2) else None)
       (scan_visits db).

Definition history_dict (r : Z * visit_row * option (Z * user_row))
    : HistoryVisit.t :=
  let '(vid, v, u) := r in
  {| HistoryVisit.id := vid;
     HistoryVisit.date := v_date v;
     HistoryVisit.time_in := v_time_in v;
     HistoryVisit.time_out := v_time_out v;
     HistoryVisit.service := v_service v;
     HistoryVisit.status := v_status v;
     HistoryVisit.vitals := loads_or_empty (v_vitals_json v);
     HistoryVisit.notes := v_doctor_notes v;
     HistoryVisit.pharmacy_instructions := v_pharmacy_instructions v;
     HistoryVisit.pharmacy_status := v_pharmacy_status v;
     HistoryVisit.doctor_id := fst <$> u;
     HistoryVisit.doctor_name := (u_name ∘ snd) <$> u |}.

(** [DB.get_patient_visit_history]. *)
Definition get_patient_visit_history (now : datetime) (db : database)
    (patient_id : Z) (days : Z) : outcome (list HistoryVisit.t) :=
  let end_date := date_isoformat (today now) in
  match date_sub_days (today now) (days - 1) with
  | Raise e => Raise e
  | Ok start =>
      let start_date := date_isoformat start in
      Ok (history_dict <$>
            order_by_desc (λ r : Z * visit_row * option (Z * user_row),
                             (v_date r.1.2, v_time_in r.1.2))
                          (history_rows db patient_id start_date end_date))
  end.

(** ** What the store takes from Python and SQLite

    The conversions of a search term are builtins of the two runtimes, not
    code of the store; the queries are embedded over them.
    - [py_int s] is Python's [int(s)]; [None] stands for [ValueError].
    - [py_strip s] is [s.strip()].
    - [sql_like text pattern] is SQLite's [text LIKE pattern].
    - [sql_integer_of_text s] is the integer that SQLite's numeric affinity
      gives a TEXT operand compared with an INTEGER column, [None] when the
      text equals no integer. *)
Class Builtins : Type := {
  py_int : string → option Z;
  py_strip : string → string;
  sql_like : string → string → bool;
  sql_integer_of_text : string → option Z
}.

(** [col LIKE pattern] on a nullable column. *)
Definition sql_like_col `{Builtins} (col : option string) (pattern : string) : bool :=
  match col with
  | Some t => sql_like t pattern
  | None => false
  end.

(** [col = ?] for an INTEGER column and a TEXT parameter. *)
Definition sql_eq_integer_text `{Builtins} (col : Z) (param : string) : bool :=
  match sql_integer_of_text param with
  | Some n => col =? n
  | None => false
  end.

(** The f-string ["%{search_term}%"]. *)
Definition like_pattern (search_term : string) : string :=
  String "%" (String.append search_term (String "%" EmptyString)).

(** The integers [sqlite3] binds as SQLite INTEGER; a larger Python [int]
    raises [OverflowError] when the statement is executed. *)
Definition int64 (n : Z) : bool := (- 2 ^ 63 <=? n) && (n <? 2 ^ 63).

(** An id given to [execute] as a parameter: [None] is bound as NULL, an
    [int] as an INTEGER when it has 64 bits. *)
Definition binds (x : option Z) : bool :=
  match x with
  | Some n => int64 n
  | None => true
  end.

(** ** [src/HMS.py] *)

Module Root.

(** [DB.add_visit]: [pharmacy_status] is the literal ["Pending"]. The
    parameters are bound before the INSERT runs, so an id beyond 64 bits
    raises [OverflowError] first; the NOT NULL constraints on [patient_id]
    and [date] then raise [sqlite3.IntegrityError]. *)
Definition add_visit (db : database) (patient_id assigned_doctor_id : option Z)
    (visit_date time_in time_out service status : option string)
    (vitals : vitals_dict)
    (doctor_notes pharmacy_instructions : option string)
    : outcome (database * Z) :=
  if binds patient_id && binds assigned_doctor_id then
    match patient_id, visit_date with
    | Some pid, Some d =>
        let vid := next_rowid (visits_seq db) (visits db) in
        let row := {| v_patient_id := pid;
                      v_assigned_doctor_id := assigned_doctor_id;
                      v_date := d;
                      v_time_in := time_in;
                      v_time_out := time_out;
                      v_service := service;
                      v_status := status;
                      v_vitals_json := dumps_or_null vitals;
                      v_doctor_notes := doctor_notes;
                      v_pharmacy_instructions := pharmacy_instructions;
                      v_pharmacy_status := Some "Pending" |} in
        Ok ({| users := users db;
               patients := patients db;
               visits := <[vid := row]> (visits db);
               patients_seq := patients_seq db;
               visits_seq := vid |}, vid)
    | _, _ => Raise IntegrityError
    end
  else Raise OverflowError.

(** [DB.update_visit_status]: [status] and [doctor_notes] are always
    assigned; [pharmacy_instructions] only when it is a non-empty text. *)
Definition update_visit_status (db : database) (visit_id : Z)
    (new_status : string) (doctor_notes pharmacy_instructions : option string)
    : database :=
  if str_truthy pharmacy_instructions then
    update_visits_where_id db visit_id
      (λ v, set_pharmacy_instructions pharmacy_instructions
              (set_doctor_notes doctor_notes
                 (set_status (Some new_status) v)))
  else
    update_visits_where_id db visit_id
      (λ v, set_doctor_notes doctor_notes (set_status (Some new_status) v)).

(** [DB.update_pharmacy_status_and_timeout]: on ["Completed"] the
    pharmacy status and [time_out] are assigned, nothing else. *)
Definition update_pharmacy_status_and_timeout (now : datetime)
    (db : database) (visit_id : Z) (new_status : string) : database :=
  if String.eqb new_status "Completed" then
    let time_out := strftime_HM now in
    update_visits_where_id db visit_id
      (λ v, set_time_out (Some time_out)
              (set_pharmacy_status (Some new_status) v))
  else
    update_visits_where_id db visit_id
      (set_pharmacy_status (Some new_status)).

Section search.
Context `{Builtins}.

(** [FROM visits v JOIN patients p ON v.patient_id = p.id
     JOIN users u ON v.assigned_doctor_id = u.id WHERE cond]:
    both joins are inner joins. *)
Definition select_join_patients_users (db : database)
    (cond : Z → visit_row → patient_row → bool) : list joined_row :=
  omap (λ r : Z * visit_row,
          p ← patients db !! v_patient_id r.2;
          u ← left_join_users db r.2;
          if cond r.1 r.2 p then Some (r.1, r.2, p, Some u.2) else None)
       (scan_visits db).

(** The text part of the four WHERE clauses. *)
Definition text_match_all (pattern : string) (v : visit_row) (p : patient_row) : bool :=
  sql_like (p_full_name p) pattern
  || sql_like_col (v_service v) pattern
  || sql_like_col (v_doctor_notes v) pattern
  || sql_like_col (v_pharmacy_instructions v) pattern.

Definition text_match_pharmacy (pattern : string) (v : visit_row) (p : patient_row) : bool :=
  sql_like (p_full_name p) pattern
  || sql_like_col (v_service v) pattern
  || sql_like_col (v_pharmacy_instructions v) pattern.

(** The WHERE clause [search_visits] picks. *)
Definition search_where (search_id : option Z) (search_term role : string)
    (vid : Z) (v : visit_row) (p : patient_row) : bool :=
  let pattern := like_pattern search_term in
  match search_id with
  | Some n =>
      if String.eqb role "pharmacy"
      then ((vid =? n) || text_match_pharmacy pattern v p) && pharmacy_filter v
      else (vid =? n) || text_match_all pattern v p
  | None =>
      if String.eqb role "pharmacy"
      then text_match_pharmacy pattern v p && pharmacy_filter v
      else text_match_all pattern v p
  end.

(** [DB.search_visits]. [int(search_term)] decides between the queries
    with and without [v.id = ?]; only [ValueError] is caught. *)
Definition search_visits (db : database) (search_term role : string)
    : outcome (list PharmacyVisit.t) :=
  match py_int search_term with
  | Some search_id =>
      if int64 search_id then
        Ok (pharmacy_dict <$>
              order_by_desc joined_key
                (select_join_patients_users db
                   (search_where (Some search_id) search_term role)))
      else Raise OverflowError
  | None =>
      Ok (pharmacy_dict <$>
            order_by_desc joined_key
              (select_join_patients_users db
                 (search_where None search_term role)))
  end.
End search.

End Root.

(** ** [src/HospitalManagementSystem-Python/HMS.py] *)

Module Sub.

(** [DB.add_visit]: [pharmacy_status] is
    ["Pending" if status == "Visit Pharmacy" else "Not Applicable"]. Binding
    and the NOT NULL constraints are as in [src/HMS.py]. *)
Definition add_visit (db : database) (patient_id assigned_doctor_id : option Z)
    (visit_date time_in time_out service status : option string)
    (vitals : vitals_dict)
    (doctor_notes pharmacy_instructions : option string)
    : outcome (database * Z) :=
  if binds patient_id && binds assigned_doctor_id then
    match patient_id, visit_date with
    | Some pid, Some d =>
        let vid := next_rowid (visits_seq db) (visits db) in
        let row := {| v_patient_id := pid;
                      v_assigned_doctor_id := assigned_doctor_id;
                      v_date := d;
                      v_time_in := time_in;
                      v_time_out := time_out;
                      v_service := service;
                      v_status := status;
                      v_vitals_json := dumps_or_null vitals;
                      v_doctor_notes := doctor_notes;
                      v_pharmacy_instructions := pharmacy_instructions;
                      v_pharmacy_status :=
                        Some (if bool_decide (status = Some "Visit Pharmacy")
                              then "Pending" else "Not Applicable") |} in
        Ok ({| users := users db;
               patients := patients db;
               visits := <[vid := row]> (visits db);
               patients_seq := patients_seq db;
               visits_seq := vid |}, vid)
    | _, _ => Raise IntegrityError
    end
  else Raise OverflowError.

(** [DB.update_visit_status]: the SET list is built from [status] and the
    arguments that are not [None]. *)
Definition update_visit_status (db : database) (visit_id : Z)
    (new_status : string) (doctor_notes pharmacy_instructions : option string)
    (vitals : option vitals_dict) : database :=
  let updates : list (visit_row → visit_row) :=
    [set_status (Some new_status)]
    ++ (if doctor_notes is Some _ then [set_doctor_notes doctor_notes] else [])
    ++ (if pharmacy_instructions is Some _
        then [set_pharmacy_instructions pharmacy_instructions] else [])
    ++ (if vitals is Some d then [set_vitals_json (Some d)] else []) in
  update_visits_where_id db visit_id
    (λ v, foldl (λ row set, set row) v updates).

(** [DB.update_pharmacy_status_and_timeout]: on ["Completed"] the visit
    status becomes ['Done'] as well. *)
Definition update_pharmacy_status_and_timeout (now : datetime)
    (db : database) (visit_id : Z) (new_status : string) : database :=
  if String.eqb new_status "Completed" then
    let time_out := strftime_HM now in
    update_visits_where_id db visit_id
      (λ v, set_time_out (Some time_out)
              (set_status (Some "Done")
                 (set_pharmacy_status (Some new_status) v)))
  else
    update_visits_where_id db visit_id
      (set_pharmacy_status (Some new_status)).

Section search.
Context `{Builtins}.

(** [(p.full_name LIKE ? OR v.patient_id = ? OR v.id = ?)], then
    [AND (v.pharmacy_status = 'Pending' OR v.status = 'Visit Pharmacy')]
    for the pharmacy role. The two ids are compared with the stripped
    term, bound as text. *)
Definition search_where (search_term role : string)
    (vid : Z) (v : visit_row) (p : patient_row) : bool :=
  let base :=
    sql_like (p_full_name p) (like_pattern search_term)
    || sql_eq_integer_text (v_patient_id v) (py_strip search_term)
    || sql_eq_integer_text vid (py_strip search_term) in
  if String.eqb role "pharmacy" then base && pharmacy_filter v else base.

(** [DB.search_visits]. *)
Definition search_visits (db : database) (search_term role : string)
    : list PharmacyVisit.t :=
  pharmacy_dict <$>
    order_by_desc joined_key
      (select_join_patients_left_users db (search_where search_term role)).
End search.

End Sub.

(** ** The builtins on plain ASCII text

    An executable instance of [Builtins], used to run the operations on
    concrete databases. It agrees with Python and SQLite on ASCII text whose
    numbers are written as an optional sign and decimal digits. *)

Definition is_digit (c : ascii) : bool :=
  (48 <=? nat_of_ascii c)%nat && (nat_of_ascii c <=? 57)%nat.

Fixpoint digits_value (acc : Z) (s : string) : option Z :=
  match s with
  | EmptyString => Some acc
  | String c s' =>
      if is_digit c
      then digits_value (10 * acc + Z.of_nat (nat_of_ascii c - 48)) s'
      else None
  end.

Fixpoint strip_left (s : string) : string :=
  match s with
  | String c s' => if Ascii.is_space c then strip_left s' else s
  | EmptyString => EmptyString
  end.

Definition ascii_strip (s : string) : string :=
  String.rev (strip_left (String.rev (strip_left s))).

Definition decimal_literal (s : string) : option Z :=
  match ascii_strip s with
  | String "-" (String c r) => Z.opp <$> digits_value 0 (String c r)
  | String "+" (String c r) => digits_value 0 (String c r)
  | String c r => digits_value 0 (String c r)
  | EmptyString => None
  end.

Definition lower (c : ascii) : ascii :=
  let n := nat_of_ascii c in
  if (65 <=? n)%nat && (n <=? 90)%nat then ascii_of_nat (n + 32) else c.

(** [LIKE]: [%] matches any run of characters, [_] any one character, a
    letter matches itself in either case. *)
Fixpoint like_match (pattern text : string) {struct pattern} : bool :=
  match pattern with
  | EmptyString => match text with EmptyString => true | _ => false end
  | String "%" pattern' =>
      (fix any (t : string) : bool :=
         like_match pattern' t
         || match t with
            | EmptyString => false
            | String _ t' => any t'
            end) text
  | String "_" pattern' =>
      match text with
      | EmptyString => false
      | String _ text' => like_match pattern' text'
      end
  | String c pattern' =>
      match text with
      | EmptyString => false
      | String d text' => Ascii.eqb (lower c) (lower d) && like_match pattern' text'
      end
  end.

Definition ascii_builtins : Builtins := {|
  py_int := decimal_literal;
  py_strip := ascii_strip;
  sql_like text pattern := like_match pattern text;
  sql_integer_of_text := decimal_literal
|}.

(** ** Notions used to state the properties *)

(** (year, month, day) is a date of the calendar. *)
Definition valid_ymd (y m d : Z) : Prop :=
  1 <= y /\ 1 <= m <= 12 /\ 1 <= d <= days_in_month y m.

(** The order of dates as the lexicographic order of (year, month, day). *)
Definition ymd_compare (a b : Z * Z * Z) : comparison :=
  match a, b with
  | (y1, m1, d1), (y2, m2, d2) =>
      match y1 ?= y2 with
      | Eq => match m1 ?= m2 with Eq => d1 ?= d2 | c => c end
      | c => c
      end
  end.

(** A list of dictionaries is in the order of the query when every
    dictionary may come before all those after it under
    [ORDER BY date DESC, time_in DESC]. *)
Definition sorted_desc {D : Type} (key : D → order_key) (l : list D) : Prop :=
  StronglySorted (λ x y, key_desc (key x) (key y)) l.

(** ** A small clinic, to run the operations on

    One doctor, one patient with four visits, the oldest of them (visit 5)
    without a doctor, and visit 42, whose [patient_id] 7 is not the id of
    any patient. The clock reads 2025-11-03 14:30:00. *)

Definition clock : datetime :=
  {| dt_date := 739558; dt_hour := 14; dt_minute := 30; dt_second := 0;
     dt_microsecond := 0 |}.

Definition visit_today : visit_row :=
  {| v_patient_id := 1; v_assigned_doctor_id := Some 3;
     v_date := "2025-11-03"; v_time_in := Some "09:30"; v_time_out := None;
     v_service := Some "General Consultation";
     v_status := Some "Visit Pharmacy"; v_vitals_json := None;
     v_doctor_notes := Some "Needs medication review.";
     v_pharmacy_instructions := Some "Dispense antibiotics";
     v_pharmacy_status := Some "Pending" |}.

Definition visit_four_days_ago : visit_row :=
  {| v_patient_id := 1; v_assigned_doctor_id := Some 3;
     v_date := "2025-10-30"; v_time_in := Some "10:00"; v_time_out := Some "10:40";
     v_service := Some "General Consultation";
     v_status := Some "Done"; v_vitals_json := None;
     v_doctor_notes := Some "Patient recovering well.";
     v_pharmacy_instructions := None;
     v_pharmacy_status := Some "Completed" |}.

Definition visit_five_days_ago : visit_row :=
  {| v_patient_id := 1; v_assigned_doctor_id := Some 3;
     v_date := "2025-10-29"; v_time_in := Some "11:15"; v_time_out := Some "11:50";
     v_service := Some "Follow-up";
     v_status := Some "Done"; v_vitals_json := None;
     v_doctor_notes := None;
     v_pharmacy_instructions := None;
     v_pharmacy_status := Some "Completed" |}.

Definition visit_unassigned : visit_row :=
  {| v_patient_id := 1; v_assigned_doctor_id := None;
     v_date := "2025-10-20"; v_time_in := None; v_time_out := None;
     v_service := Some "Vaccination";
     v_status := Some "Scheduled"; v_vitals_json := None;
     v_doctor_notes := None;
     v_pharmacy_instructions := None;
     v_pharmacy_status := Some "Not Applicable" |}.

Definition visit_dangling : visit_row :=
  {| v_patient_id := 7; v_assigned_doctor_id := Some 3;
     v_date := "2025-11-02"; v_time_in := Some "08:00"; v_time_out := None;
     v_service := Some "General Consultation";
     v_status := Some "Visit Pharmacy"; v_vitals_json := None;
     v_doctor_notes := None;
     v_pharmacy_instructions := Some "Dispense ibuprofen";
     v_pharmacy_status := Some "Pending" |}.

Definition clinic : database :=
  {| users :=
       {[ 3 := {| u_name := "Mohammed Aminu"; u_mobile := "7681969865";
                  u_password_hash := "x"; u_role := "doctor" |} ]};
     patients :=
       {[ 1 := {| p_full_name := "John Doe"; p_address := Some "123 Main St";
                  p_dob := Some "1990-01-01";
                  p_created_at := "2025-10-29T11:00:00" |} ]};
     visits :=
       <[ 1 := visit_today ]>
         (<[ 2 := visit_four_days_ago ]>
            (<[ 3 := visit_five_days_ago ]>
               (<[ 5 := visit_unassigned ]>
                  (<[ 42 := visit_dangling ]> ∅))));
     patients_seq := 1;
     visits_seq := 42 |}.
(** ** The rest of the store: staff, patients, the dashboard *)

(** [sha256(text)], the hex digest of the UTF-8 bytes: a function of
    [hashlib], taken as it is. *)
Class Sha256 : Type := sha256 : string → string.

Module UserDict. (* authenticate_user *)
Record t : Type := mk {
  id : Z; name : string; mobile : string; role : string
}.
End UserDict.

Module StaffDict. (* get_doctors and get_pharmacists *)
Record t : Type := mk {
  id : Z; name : string; mobile : string
}.
End StaffDict.

Module PatientDict. (* list_patients and search_patients *)
Record t : Type := mk {
  id : Z; full_name : string; address : option string;
  dob : option string; created_at : string
}.
End PatientDict.

(** [FROM users] and [FROM patients], in the order of the scan. *)
Definition scan_users (db : database) : list (Z * user_row) :=
  map_to_list (users db).

Definition scan_patients (db : database) : list (Z * patient_row) :=
  map_to_list (patients db).

(** [DB.authenticate_user]: [fetchone()] of the users with that mobile,
    then the comparison of the hashes. Both failures return [None]. *)
Definition authenticate_user `{Sha256} (db : database)
    (mobile password_plain : string) : option UserDict.t :=
  match filter (λ r : Z * user_row, u_mobile r.2 = mobile) (scan_users db) with
  | [] => None
  | (uid, u) :: _ =>
      if String.eqb (sha256 password_plain) (u_password_hash u)
      then Some {| UserDict.id := uid;
                   UserDict.name := u_name u;
                   UserDict.mobile := u_mobile u;
                   UserDict.role := u_role u |}
      else None
  end.

Definition staff_dict (r : Z * user_row) : StaffDict.t :=
  {| StaffDict.id := r.1;
     StaffDict.name := u_name r.2;
     StaffDict.mobile := u_mobile r.2 |}.

(** [DB.get_doctors]. *)
Definition get_doctors (db : database) : list StaffDict.t :=
  staff_dict <$> filter (λ r : Z * user_row, u_role r.2 = "doctor") (scan_users db).

(** [DB.get_pharmacists]. *)
Definition get_pharmacists (db : database) : list StaffDict.t :=
  staff_dict
    <$> filter (λ r : Z * user_row, u_role r.2 = "pharmacist") (scan_users db).

(** [DB.update_patient]: name, address and date of birth are assigned on the
    row with that id, if there is one; the call returns [True] either way.
    The NOT NULL on [full_name] is checked on the row that is updated. *)
Definition update_patient (db : database) (patient_id : Z)
    (full_name address dob : option string) : outcome database :=
  match patients db !! patient_id with
  | None => Ok db
  | Some p =>
      match full_name with
      | None => Raise IntegrityError
      | Some name =>
          Ok {| users := users db;
                patients :=
                  <[patient_id := {| p_full_name := name;
                                     p_address := address;
                                     p_dob := Some (or_empty dob);
                                     p_created_at := p_created_at p |}]>
                    (patients db);
                visits := visits db;
                patients_seq := patients_seq db;
                visits_seq := visits_seq db |}
      end
  end.

Definition patient_dict (r : Z * patient_row) : PatientDict.t :=
  {| PatientDict.id := r.1;
     PatientDict.full_name := p_full_name r.2;
     PatientDict.address := p_address r.2;
     PatientDict.dob := p_dob r.2;
     PatientDict.created_at := p_created_at r.2 |}.

(** The sorter of [ORDER BY id DESC]. *)
Definition order_by_id_desc {A : Type} : list (Z * A) → list (Z * A) :=
  merge_sort (λ x y : Z * A, Is_true (y.1 <=? x.1)).

(** [DB.list_patients]. *)
Definition list_patients (db : database) : list PatientDict.t :=
  patient_dict <$> order_by_id_desc (scan_patients db).

(** The rows of [get_visits_for_patient], before they are sorted:
    [FROM visits v LEFT JOIN users u ON v.assigned_doctor_id = u.id
     WHERE v.patient_id = ?]. *)
Definition patient_rows (db : database) (patient_id : Z)
    : list (Z * visit_row * option (Z * user_row)) :=
  omap (λ r : Z * visit_row,
          if v_patient_id r.2 =? patient_id
          then Some (r.1, r.2, left_join_users db r.2) else None)
       (scan_visits db).

(** [DB.get_visits_for_patient]. *)
Definition get_visits_for_patient (db : database) (patient_id : Z)
    : list HistoryVisit.t :=
  history_dict <$>
    order_by_desc (λ r : Z * visit_row * option (Z * user_row),
                     (v_date r.1.2, v_time_in r.1.2))
                  (patient_rows db patient_id).

(** More of [src/HMS.py]: the patient search and the dashboard counters. *)
Module RootExtra.

Section search.
Context `{Builtins}.

(** [full_name LIKE ? OR address LIKE ? OR dob LIKE ?]. *)
Definition patient_text_match (pattern : string) (p : patient_row) : bool :=
  sql_like (p_full_name p) pattern
  || sql_like_col (p_address p) pattern
  || sql_like_col (p_dob p) pattern.

(** [DB.search_patients]: with [id = ?] when [int(search_term)] succeeds,
    on the text columns only after a [ValueError]. *)
Definition search_patients (db : database) (search_term : string)
    : outcome (list PatientDict.t) :=
  let pattern := like_pattern search_term in
  match py_int search_term with
  | Some search_id =>
      if int64 search_id then
        Ok (patient_dict <$>
              order_by_id_desc
                (filter (λ r : Z * patient_row,
                           Is_true ((r.1 =? search_id)
                                    || patient_text_match pattern r.2))
                        (scan_patients db)))
      else Raise OverflowError
  | None =>
      Ok (patient_dict <$>
            order_by_id_desc
              (filter (λ r : Z * patient_row,
                         Is_true (patient_text_match pattern r.2))
                      (scan_patients db)))
  end.
End search.

(** [DB.visits_on_date]: the (id, status) rows of the visits of that date. *)
Definition visits_on_date (db : database) (date_str : string)
    : list (Z * option string) :=
  (λ r : Z * visit_row, (r.1, v_status r.2))
    <$> filter (λ r : Z * visit_row, v_date r.2 = date_str) (scan_visits db).

(** [DB.get_todays_visits_count]. *)
Definition get_todays_visits_count (now : datetime) (db : database) : Z :=
  Z.of_nat
    (length (filter (λ r : Z * visit_row, v_date r.2 = date_isoformat (today now))
                    (scan_visits db))).

(** [DB.get_total_patients_count]. *)
Definition get_total_patients_count (db : database) : Z :=
  Z.of_nat (length (scan_patients db)).

(** [DB.get_pending_pharmacy_count]: [COUNT] over [visits] alone, without a
    join. *)
Definition get_pending_pharmacy_count (db : database) : Z :=
  Z.of_nat
    (length (filter (λ r : Z * visit_row, v_pharmacy_status r.2 = Some "Pending")
                    (scan_visits db))).

End RootExtra.

(** More of [src/HospitalManagementSystem-Python/HMS.py]: the patient
    search. *)
Module SubExtra.

Section search.
Context `{Builtins}.

(** [DB.search_patients]:
    [full_name LIKE ? OR address LIKE ? OR dob LIKE ? OR id = ?], the id
    compared with the stripped term, bound as text. *)
Definition search_patients (db : database) (search_term : string)
    : list PatientDict.t :=
  let pattern := like_pattern search_term in
  patient_dict <$>
    order_by_id_desc
      (filter (λ r : Z * patient_row,
                 Is_true (sql_like (p_full_name r.2) pattern
                          || sql_like_col (p_address r.2) pattern
                          || sql_like_col (p_dob r.2) pattern
                          || sql_eq_integer_text r.1 (py_strip search_term)))
              (scan_patients db)).
End search.

End SubExtra.

(** [db'] has the visits of [db], each for the patient it was for, and the
    same patients and users. *)
Definition keeps_visit_identity (db db' : database) : Prop :=
  patients db' = patients db
  ∧ users db' = users db
  ∧ ∀ vid, v_patient_id <$> visits db' !! vid = v_patient_id <$> visits db !! vid.

(** * Properties *)

(** ** The order of [ORDER BY date DESC, time_in DESC] *)

Lemma string_compare_refl s : String.compare s s = Eq.
Proof.
  induction s as [| c s IH]; simpl; [done |].
  unfold Ascii.compare. by rewrite N.compare_refl.
Qed.

Lemma string_leb_compare x y :
  String.leb x y = true ↔ String.compare x y ≠ Gt.
Proof. unfold String.leb. destruct (String.compare x y); naive_solver. Qed.

Lemma string_compare_Lt_le x y z :
  String.compare x y = Lt → String.compare y z ≠ Gt → String.compare x z = Lt.
Proof.
  intros Hxy Hyz.
  assert (String.le x y) as Lxy by (unfold String.le, String.leb; by rewrite Hxy).
  assert (String.le y z) as Lyz.
  { unfold String.le, String.leb. by destruct (String.compare y z). }
  assert (String.le x z) as Lxz by (by etrans).
  destruct (String.compare x z) eqn:E.
  - apply String.compare_eq_iff in E as ->.
    assert (z = y) as -> by (by apply (anti_symm String.le)).
    by rewrite string_compare_refl in Hxy.
  - done.
  - unfold String.le, String.leb in Lxz. by rewrite E in Lxz.
Qed.

Lemma string_compare_le_Lt x y z :
  String.compare x y ≠ Gt → String.compare y z = Lt → String.compare x z = Lt.
Proof.
  intros Hxy Hyz.
  destruct (String.compare x y) eqn:E; [| | done].
  - by apply String.compare_eq_iff in E as ->.
  - apply (string_compare_Lt_le x y z); [done | by rewrite Hyz].
Qed.

Lemma sql_text_leb_total a b : sql_text_leb a b = true ∨ sql_text_leb b a = true.
Proof.
  destruct a as [x |], b as [y |]; simpl; auto. apply String.leb_total.
Qed.

Lemma sql_text_leb_trans a b c :
  sql_text_leb a b = true → sql_text_leb b c = true → sql_text_leb a c = true.
Proof.
  destruct a as [x |], b as [y |], c as [z |]; simpl; try done.
  intros Hxy Hyz. apply Is_true_true.
  change (String.le x z). etrans; apply Is_true_true; eassumption.
Qed.

#[export] Instance key_desc_total : Total key_desc.
Proof.
  intros [d1 t1] [d2 t2]. unfold key_desc, key_descb. simpl.
  rewrite (String.compare_antisym d1 d2).
  destruct (String.compare d2 d1); simpl; auto.
  destruct (sql_text_leb_total t1 t2) as [-> | ->]; auto.
Qed.

#[export] Instance key_desc_trans : Transitive key_desc.
Proof.
  intros [d1 t1] [d2 t2] [d3 t3]. unfold key_desc, key_descb. simpl.
  intros H12 H23.
  destruct (String.compare d2 d1) eqn:E21; [| | done].
  - apply String.compare_eq_iff in E21 as ->.
    destruct (String.compare d3 d1) eqn:E31; [| done | done].
    apply Is_true_true. apply Is_true_true in H12, H23.
    by apply (sql_text_leb_trans t3 t2 t1).
  - destruct (String.compare d3 d2) eqn:E32; [| | done].
    + apply String.compare_eq_iff in E32 as ->. by rewrite E21.
    + by rewrite (string_compare_Lt_le d3 d2 d1) by (by rewrite ?E21).
Qed.

Section order_by.
Context {A : Type} (key : A → order_key).

Let R : relation A := λ x y, key_desc (key x) (key y).

#[local] Instance order_rel_total : Total R.
Proof. intros x y. apply key_desc_total. Qed.

#[local] Instance order_rel_trans : Transitive R.
Proof. intros x y z. apply key_desc_trans. Qed.

Lemma order_by_desc_perm l : order_by_desc key l ≡ₚ l.
Proof. apply merge_sort_Permutation. Qed.

Lemma elem_of_order_by_desc x l : x ∈ order_by_desc key l ↔ x ∈ l.
Proof. by rewrite order_by_desc_perm. Qed.

Lemma order_by_desc_sorted l : StronglySorted R (order_by_desc key l).
Proof. apply (StronglySorted_merge_sort R). Qed.
End order_by.

Lemma sorted_desc_fmap {A D : Type} (f : A → D) (key : D → order_key)
    (key' : A → order_key) l :
  (∀ x, key (f x) = key' x) →
  sorted_desc key (f <$> order_by_desc key' l).
Proof.
  intros Hkey. unfold sorted_desc.
  apply (StronglySorted_fmap f (λ x y, key_desc (key' x) (key' y))).
  - intros x y. by rewrite !Hkey.
  - apply order_by_desc_sorted.
Qed.

(** ** Tables *)

Lemma next_rowid_above {A : Type} (seq : Z) (table : gmap Z A) k :
  is_Some (table !! k) → k < next_rowid seq table.
Proof.
  unfold next_rowid.
  set (f := λ (k : Z) (_ : A) (acc : Z), Z.max k acc).
  assert (∀ k, is_Some (table !! k) → k ≤ map_fold f seq table) as Hle.
  { apply (map_fold_weak_ind (λ r m, ∀ k, is_Some (m !! k) → k ≤ r)).
    - intros k' [x Hx]. by rewrite lookup_empty in Hx.
    - intros i x m r Hi IH k' Hk'. unfold f.
      destruct (decide (i = k')) as [-> | Hne]; [lia |].
      rewrite lookup_insert_ne in Hk' by done. specialize (IH k' Hk'). lia. }
  intros Hk. specialize (Hle k Hk). lia.
Qed.

Lemma next_rowid_fresh {A : Type} (seq : Z) (table : gmap Z A) :
  table !! next_rowid seq table = None.
Proof.
  apply eq_None_not_Some. intros Hk.
  apply (next_rowid_above seq) in Hk. lia.
Qed.

Lemma NoDup_omap_key {A B : Type} (f : Z * A → option B) (key : B → Z)
    (l : list (Z * A)) :
  (∀ x y, f x = Some y → key y = x.1) →
  NoDup l.*1 → NoDup (key <$> omap f l).
Proof.
  intros Hkey. induction l as [| x l IH]; simpl; [constructor |].
  intros [Hx Hl]%NoDup_cons. specialize (IH Hl).
  destruct (f x) as [y |] eqn:E; simpl; [| done].
  apply NoDup_cons. split; [| done].
  rewrite (Hkey _ _ E). intros Hin. apply Hx.
  apply list_elem_of_fmap in Hin as (y' & Hy' & Hin).
  apply list_elem_of_omap in Hin as (x' & Hx' & E').
  apply list_elem_of_fmap. exists x'. split; [| done].
  rewrite Hy'. by apply Hkey.
Qed.

(** ** The calendar *)

Lemma is_leap_decomp n400 n100 n4 n1 :
  0 <= n100 <= 3 -> 0 <= n4 <= 24 -> 0 <= n1 <= 3 ->
  is_leap (n400 * 400 + 1 + (n100 * 100 + n4 * 4 + n1))
  = (n1 =? 3) && (negb (n4 =? 24) || (n100 =? 3)).
Proof.
  intros H100 H4 H1. unfold is_leap.
  set (y := n400 * 400 + 1 + (n100 * 100 + n4 * 4 + n1)).
  assert (y mod 4 = (n1 + 1) mod 4) as E4.
  { unfold y. replace (n400 * 400 + 1 + (n100 * 100 + n4 * 4 + n1))
      with ((n1 + 1) + (n400 * 100 + n100 * 25 + n4) * 4) by lia.
    apply Z_mod_plus_full. }
  assert (y mod 100 = (n4 * 4 + n1 + 1) mod 100) as E100.
  { unfold y. replace (n400 * 400 + 1 + (n100 * 100 + n4 * 4 + n1))
      with ((n4 * 4 + n1 + 1) + (n400 * 4 + n100) * 100) by lia.
    apply Z_mod_plus_full. }
  assert (y mod 400 = (n100 * 100 + n4 * 4 + n1 + 1) mod 400) as E400.
  { unfold y. replace (n400 * 400 + 1 + (n100 * 100 + n4 * 4 + n1))
      with ((n100 * 100 + n4 * 4 + n1 + 1) + n400 * 400) by lia.
    apply Z_mod_plus_full. }
  rewrite E4, E100, E400. clear E4 E100 E400 y.
  destruct (Z.eqb_spec n1 3) as [-> | Hn1].
  - destruct (Z.eqb_spec n4 24) as [-> | Hn4].
    + destruct (Z.eqb_spec n100 3) as [-> | Hn100]; [reflexivity |].
      assert (n100 = 0 \/ n100 = 1 \/ n100 = 2) as [-> | [-> | ->]] by lia;
        reflexivity.
    + simpl.
      assert (((n4 * 4 + 3 + 1) mod 100 =? 0) = false) as ->.
      { apply Z.eqb_neq. intros E. apply Z.mod_divide in E; [| lia].
        destruct E as [k E]. lia. }
      replace ((3 + 1) mod 4) with 0 by reflexivity. reflexivity.
  - assert (((n1 + 1) mod 4 =? 0) = false) as ->; [| reflexivity].
    apply Z.eqb_neq. intros E. apply Z.mod_divide in E; [| lia].
    destruct E as [k E]. lia.
Qed.

Lemma days_before_year_decomp n400 n100 n4 n1 :
  0 <= n100 <= 3 -> 0 <= n4 <= 24 -> 0 <= n1 <= 3 ->
  days_before_year (n400 * 400 + 1 + (n100 * 100 + n4 * 4 + n1))
  = n400 * 146097 + n100 * 36524 + n4 * 1461 + n1 * 365.
Proof.
  intros H100 H4 H1. unfold days_before_year.
  replace (n400 * 400 + 1 + (n100 * 100 + n4 * 4 + n1) - 1)
    with (n400 * 400 + n100 * 100 + n4 * 4 + n1) by lia.
  set (y := n400 * 400 + n100 * 100 + n4 * 4 + n1).
  assert (y / 4 = n400 * 100 + n100 * 25 + n4) as ->.
  { symmetry. apply (Z.div_unique y 4 _ n1); lia. }
  assert (y / 100 = n400 * 4 + n100) as ->.
  { symmetry. apply (Z.div_unique y 100 _ (n4 * 4 + n1)); lia. }
  assert (y / 400 = n400) as ->.
  { symmetry. apply (Z.div_unique y 400 _ (n100 * 100 + n4 * 4 + n1)); lia. }
  lia.
Qed.


Lemma ord2ymd_spec n :
  1 <= n ->
  match ord2ymd n with
  | (y, m, d) => valid_ymd y m d /\ ymd2ord y m d = n
  end.
Proof.
  intros Hn. unfold ord2ymd, DI400Y, DI100Y, DI4Y.
  pose proof (Z.div_mod (n - 1) 146097 ltac:(lia)) as E1.
  pose proof (Z.mod_pos_bound (n - 1) 146097 ltac:(lia)) as B1.
  assert (0 <= (n - 1) / 146097) as P1 by (apply Z.div_pos; lia).
  set (n400 := (n - 1) / 146097) in *. set (r1 := (n - 1) mod 146097) in *.
  pose proof (Z.div_mod r1 36524 ltac:(lia)) as E2.
  pose proof (Z.mod_pos_bound r1 36524 ltac:(lia)) as B2.
  assert (0 <= r1 / 36524) as P2 by (apply Z.div_pos; lia).
  set (n100 := r1 / 36524) in *. set (r2 := r1 mod 36524) in *.
  pose proof (Z.div_mod r2 1461 ltac:(lia)) as E3.
  pose proof (Z.mod_pos_bound r2 1461 ltac:(lia)) as B3.
  assert (0 <= r2 / 1461) as P3 by (apply Z.div_pos; lia).
  set (n4 := r2 / 1461) in *. set (r3 := r2 mod 1461) in *.
  pose proof (Z.div_mod r3 365 ltac:(lia)) as E4.
  pose proof (Z.mod_pos_bound r3 365 ltac:(lia)) as B4.
  assert (0 <= r3 / 365) as P4 by (apply Z.div_pos; lia).
  set (n1 := r3 / 365) in *. set (r4 := r3 mod 365) in *.
  clearbody n400 r1 n100 r2 n4 r3 n1 r4.
  assert (n100 <= 4) by lia. assert (n4 <= 24) by lia. assert (n1 <= 4) by lia.
  destruct (Z.eqb_spec n1 4) as [-> | Hn1]; simpl orb; cbv iota.
  { (* the last day of a leap year inside a four-year cycle *)
    assert (n100 <= 3) by lia. assert (n4 <= 23) by lia.
    replace (n400 * 400 + 1 + (n100 * 100 + n4 * 4 + 4) - 1)
      with (n400 * 400 + 1 + (n100 * 100 + n4 * 4 + 3)) by lia.
    unfold valid_ymd, ymd2ord, days_before_month, days_in_month.
    rewrite is_leap_decomp, days_before_year_decomp by lia.
    assert ((n4 =? 24) = false) as -> by (apply Z.eqb_neq; lia).
    simpl. lia. }
  destruct (Z.eqb_spec n100 4) as [-> | Hn100]; cbv iota.
  { (* the last day of a 400-year cycle *)
    assert (n4 = 0) as -> by lia. assert (n1 = 0) as -> by lia.
    replace (n400 * 400 + 1 + (4 * 100 + 0 * 4 + 0) - 1)
      with (n400 * 400 + 1 + (3 * 100 + 24 * 4 + 3)) by lia.
    unfold valid_ymd, ymd2ord, days_before_month, days_in_month.
    rewrite is_leap_decomp, days_before_year_decomp by lia.
    simpl. lia. }
  assert (n100 <= 3) by lia. assert (n1 <= 3) by lia.
  rewrite Z.shiftr_div_pow2 by lia. change (2 ^ 5) with 32.
  pose proof (Z.div_mod (r4 + 50) 32 ltac:(lia)) as E5.
  pose proof (Z.mod_pos_bound (r4 + 50) 32 ltac:(lia)) as B5.
  set (m0 := (r4 + 50) / 32) in *. set (r5 := (r4 + 50) mod 32) in *.
  clearbody m0 r5.
  set (leapyear := (n1 =? 3) && (negb (n4 =? 24) || (n100 =? 3))).
  assert (is_leap (n400 * 400 + 1 + (n100 * 100 + n4 * 4 + n1)) = leapyear)
    as Hleap by (apply is_leap_decomp; lia).
  pose proof (days_before_year_decomp n400 n100 n4 n1
                ltac:(lia) ltac:(lia) ltac:(lia)) as Hdby.
  set (year := n400 * 400 + 1 + (n100 * 100 + n4 * 4 + n1)) in *.
  assert (1 <= year) by (unfold year; lia).
  clearbody year leapyear.
  assert (m0 = 1 \/ m0 = 2 \/ m0 = 3 \/ m0 = 4 \/ m0 = 5 \/ m0 = 6 \/ m0 = 7
          \/ m0 = 8 \/ m0 = 9 \/ m0 = 10 \/ m0 = 11 \/ m0 = 12) as Hm by lia.
  unfold valid_ymd, ymd2ord, days_before_month, days_in_month.
  destruct Hm as [-> | [-> | [-> | [-> | [-> | [-> | [-> | [-> | [-> | [-> | [-> | ->]]]]]]]]]]];
    destruct leapyear; simpl;
    match goal with
    | |- context [?a <? ?b] => destruct (Z.ltb_spec a b)
    end; simpl; rewrite ?Hleap; simpl; lia.
Qed.

Lemma div_succ_step y k :
  0 < k -> (y - 1 + 1) / k = (y - 1) / k + (if y mod k =? 0 then 1 else 0).
Proof.
  intros Hk. replace (y - 1 + 1) with y by lia.
  destruct (Z.eqb_spec (y mod k) 0) as [E | E].
  - apply Z.mod_divide in E; [| lia]. destruct E as [q ->].
    rewrite Z.div_mul by lia.
    replace (q * k - 1) with ((k - 1) + (q - 1) * k) by lia.
    rewrite Z.div_add by lia. rewrite Z.div_small by lia. lia.
  - pose proof (Z.div_mod y k ltac:(lia)) as D.
    pose proof (Z.mod_pos_bound y k Hk) as B.
    rewrite Z.add_0_r.
    apply (Z.div_unique (y - 1) k (y / k) (y mod k - 1)); lia.
Qed.

Lemma days_before_year_succ y :
  days_before_year (y + 1) = days_before_year y + (if is_leap y then 366 else 365).
Proof.
  unfold days_before_year, is_leap.
  replace (y + 1 - 1) with (y - 1 + 1) by lia.
  rewrite !div_succ_step by lia.
  assert (y mod 400 = 0 -> y mod 100 = 0) as H400.
  { intros E. apply Z.mod_divide in E; [| lia]. destruct E as [q ->].
    replace (q * 400) with (q * 4 * 100) by lia. by rewrite Z_mod_mult. }
  assert (y mod 100 = 0 -> y mod 4 = 0) as H100.
  { intros E. apply Z.mod_divide in E; [| lia]. destruct E as [q ->].
    replace (q * 100) with (q * 25 * 4) by lia. by rewrite Z_mod_mult. }
  destruct (Z.eqb_spec (y mod 4) 0) as [E4 | E4];
    destruct (Z.eqb_spec (y mod 100) 0) as [E100 | E100];
    destruct (Z.eqb_spec (y mod 400) 0) as [E400 | E400]; simpl;
    first [lia | exfalso; auto].
Qed.

Lemma days_before_year_mono y k :
  0 <= k -> days_before_year y + 365 * k <= days_before_year (y + k).
Proof.
  intros Hk. pattern k. apply natlike_ind; [| | exact Hk]; cbv beta.
  - replace (y + 0) with y by lia. lia.
  - intros x Hx IH. replace (y + Z.succ x) with (y + x + 1) by lia.
    rewrite days_before_year_succ. destruct (is_leap (y + x)); lia.
Qed.

Lemma month_cases m :
  1 <= m <= 12 ->
  m = 1 \/ m = 2 \/ m = 3 \/ m = 4 \/ m = 5 \/ m = 6 \/ m = 7 \/ m = 8
  \/ m = 9 \/ m = 10 \/ m = 11 \/ m = 12.
Proof. lia. Qed.

Ltac each_month H :=
  apply month_cases in H;
  destruct H as [-> | [-> | [-> | [-> | [-> | [-> | [-> | [-> | [-> | [-> | [-> | ->]]]]]]]]]]].

Lemma day_of_year_bound y m d :
  1 <= m <= 12 -> 1 <= d <= days_in_month y m ->
  1 <= days_before_month y m + d <= (if is_leap y then 366 else 365).
Proof.
  intros Hm. unfold days_before_month, days_in_month.
  each_month Hm; destruct (is_leap y); simpl; lia.
Qed.

Lemma days_before_month_lt y m1 d1 m2 d2 :
  1 <= m1 <= 12 -> 1 <= m2 <= 12 ->
  1 <= d1 <= days_in_month y m1 -> 1 <= d2 <= days_in_month y m2 ->
  m1 < m2 ->
  days_before_month y m1 + d1 < days_before_month y m2 + d2.
Proof.
  intros Hm1 Hm2. unfold days_before_month, days_in_month.
  each_month Hm1; each_month Hm2; destruct (is_leap y); simpl; lia.
Qed.

Lemma ymd2ord_year_lt y1 m1 d1 y2 m2 d2 :
  valid_ymd y1 m1 d1 -> valid_ymd y2 m2 d2 -> y1 < y2 ->
  ymd2ord y1 m1 d1 < ymd2ord y2 m2 d2.
Proof.
  intros (Hy1 & Hm1 & Hd1) (Hy2 & Hm2 & Hd2) Hlt. unfold ymd2ord.
  pose proof (day_of_year_bound y1 m1 d1 Hm1 Hd1) as B1.
  pose proof (day_of_year_bound y2 m2 d2 Hm2 Hd2) as B2.
  pose proof (days_before_year_succ y1) as S1.
  pose proof (days_before_year_mono (y1 + 1) (y2 - (y1 + 1)) ltac:(lia)) as M.
  replace (y1 + 1 + (y2 - (y1 + 1))) with y2 in M by lia.
  destruct (is_leap y1); lia.
Qed.

Lemma ymd2ord_compare y1 m1 d1 y2 m2 d2 :
  valid_ymd y1 m1 d1 -> valid_ymd y2 m2 d2 ->
  ymd_compare (y1, m1, d1) (y2, m2, d2)
  = (ymd2ord y1 m1 d1 ?= ymd2ord y2 m2 d2).
Proof.
  intros V1 V2. simpl. symmetry.
  destruct (Z.compare_spec y1 y2) as [-> | Hy | Hy].
  - destruct V1 as (_ & Hm1 & Hd1), V2 as (_ & Hm2 & Hd2).
    destruct (Z.compare_spec m1 m2) as [-> | Hm | Hm].
    + unfold ymd2ord. destruct (Z.compare_spec d1 d2) as [-> | Hd | Hd].
      * apply Z.compare_refl.
      * apply Z.compare_lt_iff. lia.
      * apply Z.compare_gt_iff. lia.
    + apply Z.compare_lt_iff. unfold ymd2ord.
      pose proof (days_before_month_lt y2 m1 d1 m2 d2). lia.
    + apply Z.compare_gt_iff. unfold ymd2ord.
      pose proof (days_before_month_lt y2 m2 d2 m1 d1). lia.
  - apply Z.compare_lt_iff. by apply ymd2ord_year_lt.
  - apply Z.compare_gt_iff. by apply ymd2ord_year_lt.
Qed.

Lemma ord2ymd_compare a b :
  1 <= a -> 1 <= b -> ymd_compare (ord2ymd a) (ord2ymd b) = (a ?= b).
Proof.
  intros Ha Hb.
  pose proof (ord2ymd_spec a Ha) as Sa. pose proof (ord2ymd_spec b Hb) as Sb.
  destruct (ord2ymd a) as [[y1 m1] d1], (ord2ymd b) as [[y2 m2] d2].
  destruct Sa as [Va Ea], Sb as [Vb Eb].
  rewrite ymd2ord_compare by done. by rewrite Ea, Eb.
Qed.

Lemma ord2ymd_year_bound n y m d :
  1 <= n <= MAXORDINAL -> ord2ymd n = (y, m, d) -> valid_ymd y m d /\ y <= 9999.
Proof.
  intros [Hn Hmax] E. pose proof (ord2ymd_spec n Hn) as S. rewrite E in S.
  destruct S as [V Ho]. split; [done |].
  destruct (Z.le_gt_cases y 9999) as [? | Hbig]; [done | exfalso].
  assert (valid_ymd 9999 12 31) as V9.
  { unfold valid_ymd. vm_compute. intuition discriminate. }
  pose proof (ymd2ord_year_lt 9999 12 31 y m d V9 V ltac:(lia)) as Hlt.
  rewrite Ho in Hlt. change (ymd2ord 9999 12 31) with 3652059 in Hlt.
  unfold MAXORDINAL in Hmax. lia.
Qed.

Lemma digit_char_compare x y :
  0 <= x <= 9 -> 0 <= y <= 9 ->
  Ascii.compare (digit_char x) (digit_char y) = (x ?= y).
Proof.
  intros Hx Hy. unfold Ascii.compare, digit_char.
  rewrite !N_ascii_embedding by lia.
  destruct (Z.compare_spec x y) as [-> | Hlt | Hgt].
  - apply N.compare_refl.
  - apply N.compare_lt_iff. lia.
  - apply N.compare_gt_iff. lia.
Qed.

Lemma zero_pad_compare w a b s t :
  0 <= a < 10 ^ Z.of_nat w -> 0 <= b < 10 ^ Z.of_nat w ->
  String.compare (String.append (zero_pad w a) s) (String.append (zero_pad w b) t)
  = match a ?= b with Eq => String.compare s t | c => c end.
Proof.
  revert a b. induction w as [| w IH]; intros a b Ha Hb.
  - simpl in *. assert (a = 0) as -> by lia. assert (b = 0) as -> by lia. done.
  - rewrite Nat2Z.inj_succ, Z.pow_succ_r in Ha, Hb by lia.
    assert (0 < 10 ^ Z.of_nat w) as Hp by (apply Z.pow_pos_nonneg; lia).
    pose proof (Z.div_mod a (10 ^ Z.of_nat w) ltac:(lia)) as Da.
    pose proof (Z.div_mod b (10 ^ Z.of_nat w) ltac:(lia)) as Db.
    pose proof (Z.mod_pos_bound a (10 ^ Z.of_nat w) Hp) as Ba.
    pose proof (Z.mod_pos_bound b (10 ^ Z.of_nat w) Hp) as Bb.
    assert (0 <= a / 10 ^ Z.of_nat w <= 9) as Qa.
    { split; [apply Z.div_pos; lia |].
      assert (a / 10 ^ Z.of_nat w < 10); [| lia].
      apply Z.div_lt_upper_bound; lia. }
    assert (0 <= b / 10 ^ Z.of_nat w <= 9) as Qb.
    { split; [apply Z.div_pos; lia |].
      assert (b / 10 ^ Z.of_nat w < 10); [| lia].
      apply Z.div_lt_upper_bound; lia. }
    simpl zero_pad. simpl String.append. simpl String.compare.
    rewrite digit_char_compare by done. rewrite IH by done.
    set (p := 10 ^ Z.of_nat w) in *.
    set (qa := a / p) in *. set (qb := b / p) in *.
    set (ra := a mod p) in *. set (rb := b mod p) in *.
    clearbody p qa qb ra rb.
    destruct (Z.compare_spec qa qb) as [-> | Hq | Hq].
    + destruct (Z.compare_spec ra rb) as [-> | Hr | Hr].
      * subst. by rewrite Z.compare_refl.
      * assert ((a ?= b) = Lt) as -> by (apply Z.compare_lt_iff; lia). done.
      * assert ((a ?= b) = Gt) as -> by (apply Z.compare_gt_iff; lia). done.
    + assert ((a ?= b) = Lt) as -> by (apply Z.compare_lt_iff; nia). done.
    + assert ((a ?= b) = Gt) as -> by (apply Z.compare_gt_iff; nia). done.
Qed.

Lemma string_append_nil_r s : String.append s EmptyString = s.
Proof.
  induction s as [| c s IH]; [done |].
  change (String c (String.append s EmptyString) = String c s). by rewrite IH.
Qed.

Theorem date_isoformat_compare a b :
  1 <= a <= MAXORDINAL -> 1 <= b <= MAXORDINAL ->
  String.compare (date_isoformat a) (date_isoformat b) = (a ?= b).
Proof.
  intros Ha Hb. rewrite <- ord2ymd_compare by lia. unfold date_isoformat.
  destruct (ord2ymd a) as [[y1 m1] d1] eqn:Ea.
  destruct (ord2ymd b) as [[y2 m2] d2] eqn:Eb.
  destruct (ord2ymd_year_bound _ _ _ _ Ha Ea) as [(Hy1 & Hm1 & Hd1) Y1].
  destruct (ord2ymd_year_bound _ _ _ _ Hb Eb) as [(Hy2 & Hm2 & Hd2) Y2].
  assert (days_in_month y1 m1 <= 31) as L1.
  { unfold days_in_month. repeat case_match; lia. }
  assert (days_in_month y2 m2 <= 31) as L2.
  { unfold days_in_month. repeat case_match; lia. }
  rewrite zero_pad_compare by (simpl; lia).
  unfold ymd_compare. destruct (y1 ?= y2); [| done | done].
  change (String.compare (String "-" ?s) (String "-" ?t))
    with (String.compare s t).
  rewrite zero_pad_compare by (simpl; lia).
  destruct (m1 ?= m2); [| done | done].
  change (String.compare (String "-" ?s) (String "-" ?t))
    with (String.compare s t).
  rewrite <- (string_append_nil_r (zero_pad 2 d1)).
  rewrite <- (string_append_nil_r (zero_pad 2 d2)).
  rewrite zero_pad_compare by (simpl; lia).
  by destruct (d1 ?= d2).
Qed.

(** ** Writes to one visit *)

Lemma lookup_update_visits_where_id db visit_id set vid :
  visits (update_visits_where_id db visit_id set) !! vid
  = if decide (visit_id = vid) then set <$> visits db !! vid
    else visits db !! vid.
Proof.
  unfold update_visits_where_id, with_visits. simpl.
  destruct (decide (visit_id = vid)) as [-> | Hne].
  - apply lookup_alter_eq.
  - by apply lookup_alter_ne.
Qed.

Lemma update_visits_where_id_hit db visit_id set v :
  visits db !! visit_id = Some v →
  visits (update_visits_where_id db visit_id set) !! visit_id = Some (set v).
Proof.
  intros Hv. rewrite lookup_update_visits_where_id.
  rewrite decide_True by done. by rewrite Hv.
Qed.

(** Reads the row that [UPDATE ... WHERE id = ?] has just written. *)
Ltac read_updated_row H :=
  rewrite lookup_update_visits_where_id, decide_True by done; rewrite H; done.

Lemma string_eqb_false (s t : string) : s ≠ t → String.eqb s t = false.
Proof. intros Hne. by apply String.eqb_neq. Qed.

(** C1, as the code has it. For an existing visit,
    [update_pharmacy_status_and_timeout] with ["Completed"] assigns
    [pharmacy_status] and stamps [time_out] with the clock's ["%H:%M"] in
    both files; the file under [HospitalManagementSystem-Python] also sets
    [status] to ["Done"], while [src/HMS.py] leaves [status] as it was. Any
    other target status assigns [pharmacy_status] alone, in both files. *)
Theorem update_pharmacy_status_and_timeout_spec
    (now : datetime) (db : database) (visit_id : Z) (v : visit_row) :
  visits db !! visit_id = Some v →
  visits (Sub.update_pharmacy_status_and_timeout now db visit_id "Completed")
    !! visit_id
  = Some (set_time_out (Some (strftime_HM now))
            (set_status (Some "Done")
               (set_pharmacy_status (Some "Completed") v)))
  ∧ visits (Root.update_pharmacy_status_and_timeout now db visit_id "Completed")
      !! visit_id
    = Some (set_time_out (Some (strftime_HM now))
              (set_pharmacy_status (Some "Completed") v))
  ∧ ∀ new_status : string,
      new_status ≠ "Completed" →
      visits (Sub.update_pharmacy_status_and_timeout now db visit_id new_status)
        !! visit_id
      = Some (set_pharmacy_status (Some new_status) v)
      ∧ visits (Root.update_pharmacy_status_and_timeout now db visit_id new_status)
          !! visit_id
        = Some (set_pharmacy_status (Some new_status) v).
Proof.
  intros Hv. split; [| split; [| intros new_status Hne; split]].
  - unfold Sub.update_pharmacy_status_and_timeout.
    rewrite String.eqb_refl. read_updated_row Hv.
  - unfold Root.update_pharmacy_status_and_timeout.
    rewrite String.eqb_refl. read_updated_row Hv.
  - unfold Sub.update_pharmacy_status_and_timeout.
    rewrite string_eqb_false by done. read_updated_row Hv.
  - unfold Root.update_pharmacy_status_and_timeout.
    rewrite string_eqb_false by done. read_updated_row Hv.
Qed.

Lemma update_pharmacy_status_and_timeout_spec_witness :
  visits clinic !! 1 = Some visit_today
  ∧ v_status
      <$> visits (Sub.update_pharmacy_status_and_timeout clock clinic 1 "Completed")
            !! 1
      = Some (Some "Done")
  ∧ v_time_out
      <$> visits (Sub.update_pharmacy_status_and_timeout clock clinic 1 "Completed")
            !! 1
      = Some (Some "14:30").
Proof.
  assert (visits clinic !! 1 = Some visit_today) as Hv by reflexivity.
  destruct (update_pharmacy_status_and_timeout_spec clock clinic 1 visit_today Hv)
    as (Hsub & _ & _).
  split; [exact Hv |]. rewrite Hsub. split; reflexivity.
Defined.

(** C1 as stated fails on [src/HMS.py]: completing the dispensing of visit 1
    leaves its status ["Visit Pharmacy"]. *)
Lemma update_pharmacy_status_root_keeps_status :
  let db' := Root.update_pharmacy_status_and_timeout clock clinic 1 "Completed" in
  v_status <$> visits clinic !! 1 = Some (Some "Visit Pharmacy")
  ∧ v_pharmacy_status <$> visits db' !! 1 = Some (Some "Completed")
  ∧ v_time_out <$> visits db' !! 1 = Some (Some "14:30")
  ∧ v_status <$> visits db' !! 1 = Some (Some "Visit Pharmacy")
  ∧ v_status <$> visits db' !! 1 ≠ Some (Some "Done").
Proof. vm_compute. repeat split; congruence. Qed.

(** The other visits, the patients and the users are not written. *)
Lemma update_pharmacy_status_and_timeout_frame now db visit_id new_status vid :
  vid ≠ visit_id →
  visits (Sub.update_pharmacy_status_and_timeout now db visit_id new_status) !! vid
  = visits db !! vid
  ∧ visits (Root.update_pharmacy_status_and_timeout now db visit_id new_status) !! vid
    = visits db !! vid.
Proof.
  intros Hne.
  unfold Sub.update_pharmacy_status_and_timeout,
    Root.update_pharmacy_status_and_timeout.
  destruct (String.eqb new_status "Completed");
    rewrite !lookup_update_visits_where_id;
    by rewrite !decide_False by congruence.
Qed.

(** What the pharmacist reads back in the second file once a dispensing is
    completed: the visit is closed and carries the time of the call. *)
Lemma sub_completed_get_visit now db visit_id d :
  get_visit db visit_id = Some d →
  ∃ d', get_visit (Sub.update_pharmacy_status_and_timeout now db visit_id "Completed")
          visit_id = Some d'
        ∧ VisitDetail.status d' = Some "Done"
        ∧ VisitDetail.time_out d' = Some (strftime_HM now)
        ∧ VisitDetail.pharmacy_status d' = Some "Completed".
Proof.
  unfold get_visit. intros Hd.
  destruct (visits db !! visit_id) as [v |] eqn:Hv; [| done].
  unfold Sub.update_pharmacy_status_and_timeout. rewrite String.eqb_refl.
  rewrite lookup_update_visits_where_id, decide_True by done. rewrite Hv.
  simpl in *. destruct (patients db !! v_patient_id v) as [p |]; [| done].
  simpl. eauto.
Qed.

(** ** Creation *)

(** [add_visit] on ids that bind, a patient id and a date that are not
    [None]: the row it stores. *)
Lemma root_add_visit_ok db pid doc d tin tout svc st vit notes instr :
  int64 pid = true →
  binds doc = true →
  Root.add_visit db (Some pid) doc (Some d) tin tout svc st vit notes instr
  = Ok ({| users := users db; patients := patients db;
           visits :=
             <[next_rowid (visits_seq db) (visits db) :=
               {| v_patient_id := pid; v_assigned_doctor_id := doc;
                  v_date := d; v_time_in := tin; v_time_out := tout;
                  v_service := svc; v_status := st;
                  v_vitals_json := dumps_or_null vit;
                  v_doctor_notes := notes; v_pharmacy_instructions := instr;
                  v_pharmacy_status := Some "Pending" |}]> (visits db);
           patients_seq := patients_seq db;
           visits_seq := next_rowid (visits_seq db) (visits db) |},
        next_rowid (visits_seq db) (visits db)).
Proof. intros Hp Hd. unfold Root.add_visit. simpl. by rewrite Hp, Hd. Qed.

Lemma sub_add_visit_ok db pid doc d tin tout svc st vit notes instr :
  int64 pid = true →
  binds doc = true →
  Sub.add_visit db (Some pid) doc (Some d) tin tout svc st vit notes instr
  = Ok ({| users := users db; patients := patients db;
           visits :=
             <[next_rowid (visits_seq db) (visits db) :=
               {| v_patient_id := pid; v_assigned_doctor_id := doc;
                  v_date := d; v_time_in := tin; v_time_out := tout;
                  v_service := svc; v_status := st;
                  v_vitals_json := dumps_or_null vit;
                  v_doctor_notes := notes; v_pharmacy_instructions := instr;
                  v_pharmacy_status :=
                    Some (if bool_decide (st = Some "Visit Pharmacy")
                          then "Pending" else "Not Applicable") |}]>
               (visits db);
           patients_seq := patients_seq db;
           visits_seq := next_rowid (visits_seq db) (visits db) |},
        next_rowid (visits_seq db) (visits db)).
Proof. intros Hp Hd. unfold Sub.add_visit. simpl. by rewrite Hp, Hd. Qed.

(** A call of [add_visit] that returns had ids that bind, a patient id and
    a date. *)
Lemma root_add_visit_returns db patient_id doc visit_date tin tout svc st vit
    notes instr r :
  Root.add_visit db patient_id doc visit_date tin tout svc st vit notes instr
  = Ok r →
  ∃ pid d,
    patient_id = Some pid ∧ visit_date = Some d
    ∧ int64 pid = true ∧ binds doc = true.
Proof.
  unfold Root.add_visit.
  destruct (binds patient_id) eqn:Hp; [| done].
  destruct (binds doc) eqn:Hd; [| done]. simpl.
  destruct patient_id as [pid |]; [| done].
  destruct visit_date as [d |]; [| done]. intros _. by exists pid, d.
Qed.

(** C2, as the code has it. [add_visit] of the file under
    [HospitalManagementSystem-Python] stores [pharmacy_status] ["Pending"]
    when the status is ["Visit Pharmacy"] and ["Not Applicable"] otherwise;
    [add_visit] of [src/HMS.py] stores ["Pending"] whatever the status. Both
    store the row under a rowid that was free. The ids are integers of 64
    bits, the only ones the INSERT binds. *)
Theorem add_visit_pharmacy_status
    (db : database) (patient_id : Z) (assigned_doctor_id : option Z)
    (visit_date : string) (time_in time_out service status : option string)
    (vitals : vitals_dict) (doctor_notes pharmacy_instructions : option string) :
  int64 patient_id = true →
  binds assigned_doctor_id = true →
  (∃ db' vid,
      Sub.add_visit db (Some patient_id) assigned_doctor_id (Some visit_date)
        time_in time_out service status vitals doctor_notes pharmacy_instructions
      = Ok (db', vid)
      ∧ visits db !! vid = None
      ∧ v_status <$> visits db' !! vid = Some status
      ∧ v_pharmacy_status <$> visits db' !! vid
        = Some (Some (if bool_decide (status = Some "Visit Pharmacy")
                      then "Pending" else "Not Applicable")))
  ∧ (∃ db' vid,
      Root.add_visit db (Some patient_id) assigned_doctor_id (Some visit_date)
        time_in time_out service status vitals doctor_notes pharmacy_instructions
      = Ok (db', vid)
      ∧ visits db !! vid = None
      ∧ v_status <$> visits db' !! vid = Some status
      ∧ v_pharmacy_status <$> visits db' !! vid = Some (Some "Pending")).
Proof.
  intros Hpid Hdoc.
  split; eexists _, _;
    (split; [by (apply sub_add_visit_ok || apply root_add_visit_ok) |]); simpl;
    rewrite lookup_insert_eq; auto using next_rowid_fresh.
Qed.

Lemma add_visit_pharmacy_status_witness :
  ∃ db' vid,
    Sub.add_visit clinic (Some 1) (Some 3) (Some "2025-11-03") (Some "15:00")
      None (Some "General Consultation") (Some "Scheduled") ∅ None None
    = Ok (db', vid)
    ∧ v_pharmacy_status <$> visits db' !! vid = Some (Some "Not Applicable").
Proof.
  destruct (proj1 (add_visit_pharmacy_status clinic 1 (Some 3) "2025-11-03"
                     (Some "15:00") None (Some "General Consultation")
                     (Some "Scheduled") ∅ None None eq_refl eq_refl))
    as (db' & vid & Hadd & _ & _ & Hps).
  exists db', vid. split; [exact Hadd | exact Hps].
Defined.

(** C2 as stated fails on [src/HMS.py]: a visit created ["Scheduled"] gets
    the pharmacy status ["Pending"], not ["Not Applicable"]. *)
Lemma root_add_visit_scheduled_is_pending :
  ∃ db',
    Root.add_visit clinic (Some 1) (Some 3) (Some "2025-11-03") (Some "15:00")
      None (Some "General Consultation") (Some "Scheduled") ∅ None None
    = Ok (db', 43)
    ∧ v_pharmacy_status <$> visits db' !! 43 = Some (Some "Pending")
    ∧ v_pharmacy_status <$> visits db' !! 43 ≠ Some (Some "Not Applicable").
Proof. eexists. vm_compute. repeat split; congruence. Qed.

(** C5, as [src/HMS.py] has it, whose schema declares no foreign key.
    [add_visit] does not look [patient_id] up. Given a patient id and a
    doctor id that are integers of 64 bits (the doctor may be [None]) and a
    date, it stores the visit with that patient id under a rowid that was
    free and returns the rowid, whether or not a patient has that id; the
    patients and the other visits are as before. It raises
    [sqlite3.IntegrityError] when [patient_id] or the date is [None], and
    [OverflowError] when an id is beyond 64 bits. A call that raises
    returns no database: the store stays the one before the call. *)
Theorem add_visit_no_patient_check
    (db : database) (patient_id assigned_doctor_id : option Z)
    (visit_date time_in time_out service status : option string)
    (vitals : vitals_dict) (doctor_notes pharmacy_instructions : option string) :
  (∀ pid d,
      patient_id = Some pid →
      visit_date = Some d →
      int64 pid = true →
      binds assigned_doctor_id = true →
      ∃ db' vid v,
        Root.add_visit db patient_id assigned_doctor_id visit_date
          time_in time_out service status vitals doctor_notes
          pharmacy_instructions
        = Ok (db', vid)
        ∧ visits db !! vid = None
        ∧ visits db' !! vid = Some v
        ∧ v_patient_id v = pid
        ∧ patients db' = patients db
        ∧ ∀ vid', vid' ≠ vid → visits db' !! vid' = visits db !! vid')
  ∧ (binds patient_id = true →
     binds assigned_doctor_id = true →
     patient_id = None ∨ visit_date = None →
     Root.add_visit db patient_id assigned_doctor_id visit_date
       time_in time_out service status vitals doctor_notes pharmacy_instructions
     = Raise IntegrityError)
  ∧ (binds patient_id = false ∨ binds assigned_doctor_id = false →
     Root.add_visit db patient_id assigned_doctor_id visit_date
       time_in time_out service status vitals doctor_notes pharmacy_instructions
     = Raise OverflowError).
Proof.
  split; [| split].
  - intros pid d -> -> Hpid Hdoc. eexists _, _, _.
    split; [by apply root_add_visit_ok |]. simpl.
    split; [apply next_rowid_fresh |].
    split; [apply lookup_insert_eq |]. split; [done |]. split; [done |].
    intros vid' Hne. by apply lookup_insert_ne.
  - intros Hpid Hdoc Hnone. unfold Root.add_visit. rewrite Hpid, Hdoc. simpl.
    destruct patient_id, visit_date, Hnone; done.
  - intros Hover. unfold Root.add_visit.
    destruct Hover as [-> | ->]; [done |]. by rewrite andb_false_r.
Qed.

Lemma add_visit_no_patient_check_witness :
  patients clinic !! 99 = None
  ∧ ∃ db' vid v,
      Root.add_visit clinic (Some 99) (Some 3) (Some "2025-11-03")
        (Some "15:00") None (Some "General Consultation") (Some "Scheduled")
        ∅ None None
      = Ok (db', vid)
      ∧ visits db' !! vid = Some v
      ∧ v_patient_id v = 99
      ∧ patients db' = patients clinic.
Proof.
  split; [reflexivity |].
  destruct (proj1 (add_visit_no_patient_check clinic (Some 99) (Some 3)
                     (Some "2025-11-03") (Some "15:00") None
                     (Some "General Consultation") (Some "Scheduled") ∅
                     None None)
              99 "2025-11-03" eq_refl eq_refl eq_refl eq_refl)
    as (db' & vid & v & Hadd & _ & Hv & Hpid & Hpat & _).
  by exists db', vid, v.
Defined.

(** C5 as stated fails on [src/HMS.py]: no patient has id 99, and yet the
    call returns, and the visit is there with [patient_id] 99. *)
Lemma add_visit_for_unknown_patient :
  patients clinic !! 99 = None
  ∧ ∃ db',
      Root.add_visit clinic (Some 99) (Some 3) (Some "2025-11-03")
        (Some "15:00") None (Some "General Consultation") (Some "Scheduled")
        ∅ None None
      = Ok (db', 43)
      ∧ v_patient_id <$> visits db' !! 43 = Some 99.
Proof.
  split; [reflexivity |]. eexists. vm_compute. split; reflexivity.
Qed.

(** C6, as the code has it. [add_patient] accepts every name that is not
    [None], the empty text included, and stores the patient under a fresh
    rowid; [created_at] is the ISO text of the clock reading at the call, and
    no argument of the call supplies it. A name that is [None] raises
    [sqlite3.IntegrityError]. *)
Theorem add_patient_spec
    (now : datetime) (db : database) (address dob : option string) :
  (∀ full_name : string,
      ∃ db' pid,
        add_patient now db (Some full_name) address dob = Ok (db', pid)
        ∧ patients db !! pid = None
        ∧ patients db' !! pid
          = Some {| p_full_name := full_name;
                    p_address := address;
                    p_dob := Some (or_empty dob);
                    p_created_at := datetime_isoformat now |})
  ∧ add_patient now db None address dob = Raise IntegrityError.
Proof.
  split; [| done]. intros full_name. eexists _, _.
  split; [reflexivity |]. simpl. rewrite lookup_insert_eq.
  auto using next_rowid_fresh.
Qed.

(** C6 as stated fails in both files: the empty name is accepted and a
    patient row is created for it. *)
Lemma add_patient_empty_name :
  ∃ db',
    add_patient clock clinic (Some EmptyString) (Some "5 Hill Rd") None
    = Ok (db', 2)
    ∧ patients clinic !! 2 = None
    ∧ patients db' !! 2
      = Some {| p_full_name := EmptyString; p_address := Some "5 Hill Rd";
                p_dob := Some EmptyString;
                p_created_at := "2025-11-03T14:30:00" |}.
Proof. eexists. vm_compute. repeat split. Qed.

(** ** Updates of a visit *)

Lemma update_visit_status_keeps_pharmacy_status db visit_id new_status
    doctor_notes pharmacy_instructions vitals vid :
  v_pharmacy_status
    <$> visits (Sub.update_visit_status db visit_id new_status doctor_notes
                  pharmacy_instructions vitals) !! vid
  = v_pharmacy_status <$> visits db !! vid
  ∧ v_pharmacy_status
      <$> visits (Root.update_visit_status db visit_id new_status doctor_notes
                    pharmacy_instructions) !! vid
    = v_pharmacy_status <$> visits db !! vid.
Proof.
  unfold Sub.update_visit_status, Root.update_visit_status.
  destruct (str_truthy pharmacy_instructions);
    rewrite !lookup_update_visits_where_id;
    (destruct (decide (visit_id = vid)) as [-> | Hne]; [| done]);
    destruct (visits db !! vid) as [v |]; simpl; try done;
    destruct doctor_notes, pharmacy_instructions, vitals; done.
Qed.

(** C7. For an existing visit and a date that is not [None], [update_visit]
    (the same in both files) succeeds, assigns the columns it names, and
    leaves [pharmacy_status] of every visit as it was. [update_visit_status]
    of either file leaves it as it was, too: of the operations that update a
    visit, only [update_pharmacy_status_and_timeout] assigns it. *)
Theorem update_visit_keeps_pharmacy_status
    (db : database) (visit_id : Z) (v : visit_row)
    (assigned_doctor_id : option Z) (visit_date : string)
    (time_in time_out service status : option string) (vitals : vitals_dict)
    (doctor_notes pharmacy_instructions : option string) :
  visits db !! visit_id = Some v →
  ∃ db',
    update_visit db visit_id assigned_doctor_id (Some visit_date) time_in
      time_out service status vitals doctor_notes pharmacy_instructions
    = Ok db'
    ∧ visits db' !! visit_id
      = Some {| v_patient_id := v_patient_id v;
                v_assigned_doctor_id := assigned_doctor_id;
                v_date := visit_date;
                v_time_in := time_in;
                v_time_out := time_out;
                v_service := service;
                v_status := status;
                v_vitals_json := dumps_or_null vitals;
                v_doctor_notes := doctor_notes;
                v_pharmacy_instructions := pharmacy_instructions;
                v_pharmacy_status := v_pharmacy_status v |}
    ∧ (∀ vid, v_pharmacy_status <$> visits db' !! vid
              = v_pharmacy_status <$> visits db !! vid)
    ∧ (∀ new_status notes instructions new_vitals vid,
          v_pharmacy_status
            <$> visits (Sub.update_visit_status db visit_id new_status notes
                          instructions new_vitals) !! vid
          = v_pharmacy_status <$> visits db !! vid
          ∧ v_pharmacy_status
              <$> visits (Root.update_visit_status db visit_id new_status notes
                            instructions) !! vid
            = v_pharmacy_status <$> visits db !! vid).
Proof.
  intros Hv. unfold update_visit. rewrite Hv. eexists. split; [reflexivity |].
  simpl. split; [by rewrite lookup_insert_eq |]. split.
  - intros vid. destruct (decide (visit_id = vid)) as [<- | Hne].
    + by rewrite lookup_insert_eq, Hv.
    + by rewrite lookup_insert_ne.
  - intros. apply update_visit_status_keeps_pharmacy_status.
Qed.

Lemma update_visit_keeps_pharmacy_status_witness :
  visits clinic !! 1 = Some visit_today
  ∧ ∃ db',
      update_visit clinic 1 (Some 3) (Some "2025-11-04") (Some "09:45") None
        (Some "Follow-up") (Some "Done") ∅ None None
      = Ok db'
      ∧ v_status <$> visits db' !! 1 = Some (Some "Done")
      ∧ v_pharmacy_status <$> visits db' !! 1 = Some (Some "Pending").
Proof.
  assert (visits clinic !! 1 = Some visit_today) as Hv by reflexivity.
  split; [exact Hv |].
  destruct (update_visit_keeps_pharmacy_status clinic 1 visit_today (Some 3)
              "2025-11-04" (Some "09:45") None (Some "Follow-up") (Some "Done")
              ∅ None None Hv) as (db' & Hupd & Hrow & Hkeep & _).
  exists db'. split; [exact Hupd |]. split.
  - by rewrite Hrow.
  - by rewrite Hkeep, Hv.
Defined.

(** [update_visit] checks the NOT NULL on the date only when there is a row
    to update; without one it changes nothing. *)
Lemma update_visit_no_row db visit_id assigned_doctor_id visit_date time_in
    time_out service status vitals doctor_notes pharmacy_instructions :
  visits db !! visit_id = None →
  update_visit db visit_id assigned_doctor_id visit_date time_in time_out
    service status vitals doctor_notes pharmacy_instructions
  = Ok db.
Proof. intros Hv. unfold update_visit. by rewrite Hv. Qed.

(** C4, as the code has it. For an existing visit, [update_visit_status]
    always assigns [status]. In the file under
    [HospitalManagementSystem-Python] each of [doctor_notes],
    [pharmacy_instructions] and the vitals is assigned when it is given and
    keeps its stored value when it is [None]. In [src/HMS.py] there is no
    vitals argument and the stored vitals are kept; [pharmacy_instructions]
    is assigned when it is a non-empty text and kept otherwise; and
    [doctor_notes] is always assigned, to NULL when it is omitted. *)
Theorem update_visit_status_spec
    (db : database) (visit_id : Z) (v : visit_row) (new_status : string)
    (doctor_notes pharmacy_instructions : option string)
    (vitals : option vitals_dict) :
  visits db !! visit_id = Some v →
  visits (Sub.update_visit_status db visit_id new_status doctor_notes
            pharmacy_instructions vitals) !! visit_id
  = Some {| v_patient_id := v_patient_id v;
            v_assigned_doctor_id := v_assigned_doctor_id v;
            v_date := v_date v;
            v_time_in := v_time_in v;
            v_time_out := v_time_out v;
            v_service := v_service v;
            v_status := Some new_status;
            v_vitals_json :=
              if vitals is Some d then Some d else v_vitals_json v;
            v_doctor_notes :=
              if doctor_notes is Some t then Some t else v_doctor_notes v;
            v_pharmacy_instructions :=
              if pharmacy_instructions is Some t then Some t
              else v_pharmacy_instructions v;
            v_pharmacy_status := v_pharmacy_status v |}
  ∧ visits (Root.update_visit_status db visit_id new_status doctor_notes
              pharmacy_instructions) !! visit_id
    = Some {| v_patient_id := v_patient_id v;
              v_assigned_doctor_id := v_assigned_doctor_id v;
              v_date := v_date v;
              v_time_in := v_time_in v;
              v_time_out := v_time_out v;
              v_service := v_service v;
              v_status := Some new_status;
              v_vitals_json := v_vitals_json v;
              v_doctor_notes := doctor_notes;
              v_pharmacy_instructions :=
                if str_truthy pharmacy_instructions then pharmacy_instructions
                else v_pharmacy_instructions v;
              v_pharmacy_status := v_pharmacy_status v |}.
Proof.
  intros Hv. unfold Sub.update_visit_status, Root.update_visit_status. split.
  - rewrite lookup_update_visits_where_id, decide_True by done. rewrite Hv.
    by destruct doctor_notes, pharmacy_instructions, vitals.
  - destruct (str_truthy pharmacy_instructions);
      rewrite lookup_update_visits_where_id, decide_True by done;
      by rewrite Hv.
Qed.

Lemma update_visit_status_spec_witness :
  visits clinic !! 1 = Some visit_today
  ∧ v_doctor_notes
      <$> visits (Sub.update_visit_status clinic 1 "Done" None None None) !! 1
    = Some (Some "Needs medication review.")
  ∧ v_status
      <$> visits (Sub.update_visit_status clinic 1 "Done" None None None) !! 1
    = Some (Some "Done").
Proof.
  assert (visits clinic !! 1 = Some visit_today) as Hv by reflexivity.
  destruct (update_visit_status_spec clinic 1 visit_today "Done" None None None
              Hv) as [Hsub _].
  split; [exact Hv |]. rewrite Hsub. split; reflexivity.
Defined.

(** C4 as stated fails on [src/HMS.py]: a status update that leaves the
    notes out erases the notes stored for visit 1. *)
Lemma root_update_visit_status_erases_notes :
  v_doctor_notes <$> visits clinic !! 1 = Some (Some "Needs medication review.")
  ∧ v_doctor_notes
      <$> visits (Root.update_visit_status clinic 1 "Done" None None) !! 1
    = Some None.
Proof. split; reflexivity. Qed.

(** ** The joined selects *)

Lemma pharmacy_filter_spec v :
  pharmacy_filter v = true
  ↔ v_pharmacy_status v = Some "Pending" ∨ v_status v = Some "Visit Pharmacy".
Proof.
  unfold pharmacy_filter, sql_eq. rewrite orb_true_iff.
  destruct (v_pharmacy_status v) as [ps |], (v_status v) as [st |];
    rewrite ?String.eqb_eq; split; intros [E | E]; try discriminate E;
    first [left; congruence | right; congruence].
Qed.

Lemma elem_of_select_join_patients_left_users db cond (r : joined_row) :
  r ∈ select_join_patients_left_users db cond
  ↔ ∃ vid v p,
      r = (vid, v, p, snd <$> left_join_users db v)
      ∧ visits db !! vid = Some v
      ∧ patients db !! v_patient_id v = Some p
      ∧ cond vid v p = true.
Proof.
  unfold select_join_patients_left_users, scan_visits.
  rewrite list_elem_of_omap. split.
  - intros ([vid v] & Hin & Hsel). apply elem_of_map_to_list in Hin.
    simpl in Hsel. destruct (patients db !! v_patient_id v) as [p |] eqn:Hp;
      [| done].
    simpl in Hsel. destruct (cond vid v p) eqn:Hc; [| done].
    exists vid, v, p. by inversion Hsel.
  - intros (vid & v & p & -> & Hv & Hp & Hc). exists (vid, v).
    split; [by apply elem_of_map_to_list |]. simpl. rewrite Hp. simpl.
    by rewrite Hc.
Qed.

Lemma NoDup_select_join_patients_left_users db cond :
  NoDup ((λ r : joined_row, r.1.1.1)
           <$> select_join_patients_left_users db cond).
Proof.
  apply NoDup_omap_key; [| apply NoDup_fst_map_to_list].
  intros [vid v] r Hsel. simpl in *.
  destruct (patients db !! v_patient_id v) as [p |]; [| done]. simpl in Hsel.
  destruct (cond vid v p); [| done]. by inversion Hsel.
Qed.

Lemma elem_of_doctor_rows db doctor_id (r : Z * visit_row * patient_row) :
  r ∈ doctor_rows db doctor_id
  ↔ ∃ vid v p,
      r = (vid, v, p)
      ∧ visits db !! vid = Some v
      ∧ patients db !! v_patient_id v = Some p
      ∧ v_assigned_doctor_id v = Some doctor_id.
Proof.
  unfold doctor_rows, scan_visits. rewrite list_elem_of_omap. split.
  - intros ([vid v] & Hin & Hsel). apply elem_of_map_to_list in Hin.
    simpl in Hsel. destruct (patients db !! v_patient_id v) as [p |] eqn:Hp;
      [| done].
    simpl in Hsel. case_bool_decide; [| done]. exists vid, v, p.
    by inversion Hsel.
  - intros (vid & v & p & -> & Hv & Hp & Hd). exists (vid, v).
    split; [by apply elem_of_map_to_list |]. simpl. rewrite Hp. simpl.
    by rewrite bool_decide_true.
Qed.

Lemma visit_id_pharmacy_dict (r : joined_row) :
  PharmacyVisit.visit_id (pharmacy_dict r) = r.1.1.1.
Proof. by destruct r as [[[vid v] p] u]. Qed.

Lemma key_pharmacy_dict (r : joined_row) :
  (PharmacyVisit.date (pharmacy_dict r), PharmacyVisit.time_in (pharmacy_dict r))
  = joined_key r.
Proof. by destruct r as [[[vid v] p] u]. Qed.

(** The dictionaries of a sorted select: who is in it, once each, in order. *)
Lemma elem_of_sorted_dicts (rows : list joined_row) d :
  d ∈ pharmacy_dict <$> order_by_desc joined_key rows
  ↔ ∃ r, r ∈ rows ∧ d = pharmacy_dict r.
Proof.
  rewrite list_elem_of_fmap. setoid_rewrite elem_of_order_by_desc.
  split; intros (r & H1 & H2); eauto.
Qed.

Lemma NoDup_sorted_dicts (rows : list joined_row) :
  NoDup ((λ r : joined_row, r.1.1.1) <$> rows) →
  NoDup (PharmacyVisit.visit_id <$> (pharmacy_dict <$> order_by_desc joined_key rows)).
Proof.
  intros Hnd. rewrite <- list_fmap_compose.
  rewrite (order_by_desc_perm joined_key rows).
  erewrite list_fmap_ext; [exact Hnd |].
  intros i r _. apply visit_id_pharmacy_dict.
Qed.

(** ** The pharmacy queue *)

Lemma elem_of_get_visits_for_pharmacy db d :
  d ∈ get_visits_for_pharmacy db
  ↔ ∃ vid v p,
      visits db !! vid = Some v
      ∧ patients db !! v_patient_id v = Some p
      ∧ (v_pharmacy_status v = Some "Pending"
         ∨ v_status v = Some "Visit Pharmacy")
      ∧ d = pharmacy_dict (vid, v, p, snd <$> left_join_users db v).
Proof.
  unfold get_visits_for_pharmacy. rewrite elem_of_sorted_dicts. split.
  - intros (r & Hr & ->).
    apply elem_of_select_join_patients_left_users in Hr
      as (vid & v & p & -> & Hv & Hp & Hc).
    apply pharmacy_filter_spec in Hc. by exists vid, v, p.
  - intros (vid & v & p & Hv & Hp & Hc & ->). eexists. split; [| done].
    apply elem_of_select_join_patients_left_users. exists vid, v, p.
    by rewrite pharmacy_filter_spec.
Qed.

(** C3, as the code has it. [get_visits_for_pharmacy] (the same in both
    files) returns exactly the visits whose patient row exists and for which
    [pharmacy_status] is ["Pending"] or [status] is ["Visit Pharmacy"], each
    once, by date descending, then [time_in] descending. *)
Theorem get_visits_for_pharmacy_spec (db : database) :
  (∀ d,
      d ∈ get_visits_for_pharmacy db
      ↔ ∃ vid v p,
          visits db !! vid = Some v
          ∧ patients db !! v_patient_id v = Some p
          ∧ (v_pharmacy_status v = Some "Pending"
             ∨ v_status v = Some "Visit Pharmacy")
          ∧ d = pharmacy_dict (vid, v, p, snd <$> left_join_users db v))
  ∧ NoDup (PharmacyVisit.visit_id <$> get_visits_for_pharmacy db)
  ∧ sorted_desc (λ d, (PharmacyVisit.date d, PharmacyVisit.time_in d))
      (get_visits_for_pharmacy db).
Proof.
  split; [| split].
  - apply elem_of_get_visits_for_pharmacy.
  - apply NoDup_sorted_dicts, NoDup_select_join_patients_left_users.
  - apply sorted_desc_fmap, key_pharmacy_dict.
Qed.

(** When every visit has its patient row, the join drops nothing and the
    queue holds a dictionary for each visit that passes the filter. *)
Lemma pharmacy_queue_complete_when_patients_exist db vid v :
  (∀ vid' v', visits db !! vid' = Some v' →
              is_Some (patients db !! v_patient_id v')) →
  visits db !! vid = Some v →
  v_pharmacy_status v = Some "Pending" ∨ v_status v = Some "Visit Pharmacy" →
  ∃ d, d ∈ get_visits_for_pharmacy db ∧ PharmacyVisit.visit_id d = vid.
Proof.
  intros Hwf Hv Hc. destruct (Hwf vid v Hv) as [p Hp].
  exists (pharmacy_dict (vid, v, p, snd <$> left_join_users db v)).
  split; [| done]. apply elem_of_get_visits_for_pharmacy. by exists vid, v, p.
Qed.

(** C3 as stated fails in both files: visit 42 is ["Pending"] and
    ["Visit Pharmacy"], but its patient id 7 is no patient's, and the queue
    holds visit 1 only. *)
Lemma pharmacy_queue_misses_dangling_visit :
  visits clinic !! 42 = Some visit_dangling
  ∧ v_pharmacy_status visit_dangling = Some "Pending"
  ∧ v_status visit_dangling = Some "Visit Pharmacy"
  ∧ PharmacyVisit.visit_id <$> get_visits_for_pharmacy clinic = [1].
Proof. repeat split. Qed.

(** C10. A visit whose [patient_id] is no patient's id is not seen through
    the inner joins: [get_visit] returns [None] for it, and neither
    [get_visits_for_doctor], for any doctor, nor [get_visits_for_pharmacy]
    returns a dictionary for it. None of them raises. *)
Theorem dangling_visit_invisible (db : database) (visit_id : Z) (v : visit_row) :
  visits db !! visit_id = Some v →
  patients db !! v_patient_id v = None →
  get_visit db visit_id = None
  ∧ (∀ doctor_id d,
        d ∈ get_visits_for_doctor db doctor_id →
        DoctorVisit.visit_id d ≠ visit_id)
  ∧ (∀ d, d ∈ get_visits_for_pharmacy db → PharmacyVisit.visit_id d ≠ visit_id).
Proof.
  intros Hv Hp. split; [| split].
  - unfold get_visit. rewrite Hv. simpl. by rewrite Hp.
  - intros doctor_id d. unfold get_visits_for_doctor.
    rewrite list_elem_of_fmap. setoid_rewrite elem_of_order_by_desc.
    setoid_rewrite elem_of_doctor_rows.
    intros (r & -> & vid & v' & p & -> & Hv' & Hp' & _). simpl.
    intros ->. congruence.
  - intros d Hd. apply elem_of_get_visits_for_pharmacy in Hd
      as (vid & v' & p & Hv' & Hp' & _ & ->). simpl.
    intros ->. congruence.
Qed.

Lemma dangling_visit_invisible_witness :
  visits clinic !! 42 = Some visit_dangling
  ∧ patients clinic !! 7 = None
  ∧ get_visit clinic 42 = None.
Proof.
  assert (visits clinic !! 42 = Some visit_dangling) as Hv by reflexivity.
  assert (patients clinic !! v_patient_id visit_dangling = None) as Hp
    by reflexivity.
  split; [exact Hv |]. split; [exact Hp |].
  exact (proj1 (dangling_visit_invisible clinic 42 visit_dangling Hv Hp)).
Defined.

(** Such a visit is what [add_visit] of [src/HMS.py] stores for a patient
    id that is not in the table: the store reaches that state by itself. *)
Lemma dangling_visit_reachable db patient_id assigned_doctor_id visit_date
    time_in time_out service status vitals doctor_notes pharmacy_instructions :
  patients db !! patient_id = None →
  int64 patient_id = true →
  binds assigned_doctor_id = true →
  ∃ db' vid,
    Root.add_visit db (Some patient_id) assigned_doctor_id (Some visit_date)
      time_in time_out service status vitals doctor_notes pharmacy_instructions
    = Ok (db', vid)
    ∧ is_Some (visits db' !! vid)
    ∧ get_visit db' vid = None.
Proof.
  intros Hp Hpid Hdoc. eexists _, _. split; [by apply root_add_visit_ok |].
  unfold get_visit. simpl. rewrite lookup_insert_eq. simpl.
  split; [eauto |]. by rewrite Hp.
Qed.

(** ** The visit history of a patient *)

(** ISO dates are ordered as texts the way the days they name are. *)
Lemma date_isoformat_leb a b :
  1 <= a <= MAXORDINAL → 1 <= b <= MAXORDINAL →
  String.leb (date_isoformat a) (date_isoformat b) = (a <=? b).
Proof.
  intros Ha Hb. unfold String.leb. rewrite date_isoformat_compare by done.
  unfold Z.leb. by destruct (a ?= b).
Qed.

Lemma sql_between_isoformat d lo hi :
  1 <= d <= MAXORDINAL → 1 <= lo <= MAXORDINAL → 1 <= hi <= MAXORDINAL →
  sql_between (date_isoformat d) (date_isoformat lo) (date_isoformat hi) = true
  ↔ lo <= d <= hi.
Proof.
  intros Hd Hlo Hhi. unfold sql_between.
  rewrite !date_isoformat_leb by done. rewrite andb_true_iff, !Z.leb_le. done.
Qed.

Lemma elem_of_history_rows db patient_id start_date end_date
    (r : Z * visit_row * option (Z * user_row)) :
  r ∈ history_rows db patient_id start_date end_date
  ↔ ∃ vid v,
      r = (vid, v, left_join_users db v)
      ∧ visits db !! vid = Some v
      ∧ v_patient_id v = patient_id
      ∧ sql_between (v_date v) start_date end_date = true.
Proof.
  unfold history_rows, scan_visits. rewrite list_elem_of_omap. split.
  - intros ([vid v] & Hin & Hsel). apply elem_of_map_to_list in Hin.
    simpl in Hsel.
    destruct (v_patient_id v =? patient_id) eqn:Hpid; [| done].
    destruct (sql_between (v_date v) start_date end_date) eqn:Hb; [| done].
    apply Z.eqb_eq in Hpid. exists vid, v. by inversion Hsel.
  - intros (vid & v & -> & Hv & Hpid & Hb). exists (vid, v).
    split; [by apply elem_of_map_to_list |]. simpl.
    apply Z.eqb_eq in Hpid. by rewrite Hpid, Hb.
Qed.

Lemma NoDup_history_rows db patient_id start_date end_date :
  NoDup ((λ r : Z * visit_row * option (Z * user_row), r.1.1)
           <$> history_rows db patient_id start_date end_date).
Proof.
  apply NoDup_omap_key; [| apply NoDup_fst_map_to_list].
  intros [vid v] r Hsel. simpl in *.
  destruct ((v_patient_id v =? patient_id)
            && sql_between (v_date v) start_date end_date); [| done].
  by inversion Hsel.
Qed.

(** What [get_patient_visit_history] returns for a window of [days] days
    that starts inside the calendar. *)
Lemma get_patient_visit_history_spec now db patient_id days :
  1 <= today now - (days - 1) <= MAXORDINAL →
  ∃ l,
    get_patient_visit_history now db patient_id days = Ok l
    ∧ (∀ h,
          h ∈ l
          ↔ ∃ vid v,
              visits db !! vid = Some v
              ∧ v_patient_id v = patient_id
              ∧ sql_between (v_date v)
                  (date_isoformat (today now - (days - 1)))
                  (date_isoformat (today now)) = true
              ∧ h = history_dict (vid, v, left_join_users db v))
    ∧ NoDup (HistoryVisit.id <$> l)
    ∧ sorted_desc (λ h, (HistoryVisit.date h, HistoryVisit.time_in h)) l.
Proof.
  intros Hstart. unfold get_patient_visit_history, date_sub_days.
  assert ((0 <? today now - (days - 1))
          && (today now - (days - 1) <=? MAXORDINAL) = true) as ->.
  { apply andb_true_iff. split; [apply Z.ltb_lt | apply Z.leb_le]; lia. }
  eexists. split; [reflexivity |]. split; [| split].
  - intros h. rewrite list_elem_of_fmap.
    setoid_rewrite elem_of_order_by_desc. split.
    + intros (r & -> & Hr).
      apply elem_of_history_rows in Hr as (vid & v & -> & Hv & Hpid & Hb).
      by exists vid, v.
    + intros (vid & v & Hv & Hpid & Hb & ->). eexists. split; [done |].
      apply elem_of_history_rows. by exists vid, v.
  - rewrite <- list_fmap_compose. rewrite order_by_desc_perm.
    erewrite list_fmap_ext; [apply NoDup_history_rows |].
    by intros i [[vid v] u] _.
  - apply sorted_desc_fmap. by intros [[vid v] u].
Qed.

(** C9, as the code has it. The [date] column is free text and the window
    is a comparison of texts. With today of ordinal [D] (from day 5 of the
    calendar on), [get_patient_visit_history] with [days = 5] (the same in
    both files) returns the visits of the patient whose date text lies
    between the ISO texts of [D - 4] and [D], each once, by date
    descending, then [time_in] descending. Among the visits whose date is
    the ISO text of a day [d], as [date.isoformat()] writes it, these are
    exactly those with [D - 4 <= d <= D]: a visit dated today is in, a visit
    more than four days old is out. *)
Theorem get_patient_visit_history_window
    (now : datetime) (db : database) (patient_id : Z) :
  5 <= today now <= MAXORDINAL →
  ∃ l,
    get_patient_visit_history now db patient_id 5 = Ok l
    ∧ (∀ vid v d,
          visits db !! vid = Some v →
          v_patient_id v = patient_id →
          1 <= d <= MAXORDINAL →
          v_date v = date_isoformat d →
          (history_dict (vid, v, left_join_users db v) ∈ l
           ↔ today now - 4 <= d <= today now))
    ∧ (∀ h,
          h ∈ l
          ↔ ∃ vid v,
              visits db !! vid = Some v
              ∧ v_patient_id v = patient_id
              ∧ sql_between (v_date v)
                  (date_isoformat (today now - 4))
                  (date_isoformat (today now)) = true
              ∧ h = history_dict (vid, v, left_join_users db v))
    ∧ NoDup (HistoryVisit.id <$> l)
    ∧ sorted_desc (λ h, (HistoryVisit.date h, HistoryVisit.time_in h)) l.
Proof.
  intros HD.
  destruct (get_patient_visit_history_spec now db patient_id 5 ltac:(lia))
    as (l & Hl & Hin & Hnd & Hsorted).
  replace (today now - (5 - 1)) with (today now - 4) in Hin by lia.
  exists l. split; [done |]. split; [| split; [| done]].
  - intros vid v d Hv Hpid Hd Hdate. rewrite Hin. split.
    + intros (vid' & v' & Hv' & Hpid' & Hb & Heq).
      assert (v_date v' = v_date v) as Hsame.
      { by apply (f_equal HistoryVisit.date) in Heq. }
      rewrite Hsame, Hdate in Hb.
      apply sql_between_isoformat in Hb; [done | lia ..].
    + intros Hwin. exists vid, v. repeat (split; [done |]).
      split; [| done]. rewrite Hdate. apply sql_between_isoformat; lia.
  - exact Hin.
Qed.

Lemma get_patient_visit_history_window_witness :
  5 <= today clock <= MAXORDINAL
  ∧ ∃ l,
      get_patient_visit_history clock clinic 1 5 = Ok l
      ∧ (history_dict (1, visit_today, left_join_users clinic visit_today) ∈ l
         ↔ today clock - 4 <= 739558 <= today clock)
      ∧ (history_dict (3, visit_five_days_ago,
                       left_join_users clinic visit_five_days_ago) ∈ l
         ↔ today clock - 4 <= 739553 <= today clock).
Proof.
  assert (5 <= today clock <= MAXORDINAL) as HD by (vm_compute; split; discriminate).
  split; [exact HD |].
  destruct (get_patient_visit_history_window clock clinic 1 HD)
    as (l & Hl & Hwin & _).
  exists l. split; [exact Hl |]. split.
  - apply Hwin; [reflexivity | reflexivity | vm_compute; split; discriminate
                 | reflexivity].
  - apply Hwin; [reflexivity | reflexivity | vm_compute; split; discriminate
                 | reflexivity].
Defined.

(** C9 as stated fails on dates that are not written as ISO texts, which
    the store accepts: the forms for a visit pass the text of an entry field
    on. With today 2025-11-03, two visits are added for patient 1. The one
    dated ["2025-10-4"], thirty days ago, is returned, since that text lies
    between ["2025-10-30"] and ["2025-11-03"]; the one dated ["2025-11-3"],
    today, is not, since that text comes after ["2025-11-03"]. *)
Lemma history_window_of_free_text_dates :
  date_isoformat (today clock) = "2025-11-03"
  ∧ ymd2ord 2025 10 4 = today clock - 30
  ∧ ymd2ord 2025 11 3 = today clock
  ∧ (∀ d, today clock - 4 <= d <= today clock →
          date_isoformat d ≠ "2025-10-4")
  ∧ ∃ db1 db2 l,
      Root.add_visit clinic (Some 1) (Some 3) (Some "2025-10-4") (Some "09:00")
        None (Some "General Consultation") (Some "Scheduled") ∅ None None
      = Ok (db1, 43)
      ∧ Root.add_visit db1 (Some 1) (Some 3) (Some "2025-11-3") (Some "09:00")
          None (Some "General Consultation") (Some "Scheduled") ∅ None None
        = Ok (db2, 44)
      ∧ get_patient_visit_history clock db2 1 5 = Ok l
      ∧ HistoryVisit.id <$> l = [1; 43; 2]
      ∧ HistoryVisit.date <$> l = ["2025-11-03"; "2025-10-4"; "2025-10-30"].
Proof.
  split; [reflexivity |]. split; [reflexivity |]. split; [reflexivity |].
  split.
  - intros d Hd. change (today clock) with 739558 in Hd.
    assert (d = 739554 ∨ d = 739555 ∨ d = 739556 ∨ d = 739557 ∨ d = 739558)
      as [-> | [-> | [-> | [-> | ->]]]] by lia; vm_compute; discriminate.
  - eexists _, _, _. split; [reflexivity |]. split; [reflexivity |].
    split; [reflexivity |]. split; reflexivity.
Qed.

(** On the clinic: the visits of patient 1 dated today and four days ago are
    returned, newest first; the visit dated five days ago is not. *)
Example history_of_patient_1 :
  ∃ l, get_patient_visit_history clock clinic 1 5 = Ok l
       ∧ HistoryVisit.id <$> l = [1; 2].
Proof. eexists. split; reflexivity. Qed.

(** ** Search *)

Section search.
Context `{Builtins}.

Lemma elem_of_root_select db cond (r : joined_row) :
  r ∈ Root.select_join_patients_users db cond
  ↔ ∃ vid v p u,
      r = (vid, v, p, Some u.2)
      ∧ visits db !! vid = Some v
      ∧ patients db !! v_patient_id v = Some p
      ∧ left_join_users db v = Some u
      ∧ cond vid v p = true.
Proof.
  unfold Root.select_join_patients_users, scan_visits.
  rewrite list_elem_of_omap. split.
  - intros ([vid v] & Hin & Hsel). apply elem_of_map_to_list in Hin.
    simpl in Hsel.
    destruct (patients db !! v_patient_id v) as [p |] eqn:Hp; [| done].
    simpl in Hsel. destruct (left_join_users db v) as [u |] eqn:Hu; [| done].
    simpl in Hsel. destruct (cond vid v p) eqn:Hc; [| done].
    exists vid, v, p, u. by inversion Hsel.
  - intros (vid & v & p & u & -> & Hv & Hp & Hu & Hc). exists (vid, v).
    split; [by apply elem_of_map_to_list |]. simpl. rewrite Hp. simpl.
    rewrite Hu. simpl. by rewrite Hc.
Qed.

(** Who is in the result of [search_visits] of the second file. *)
Lemma elem_of_sub_search_visits db search_term role d :
  d ∈ Sub.search_visits db search_term role
  ↔ ∃ vid v p,
      visits db !! vid = Some v
      ∧ patients db !! v_patient_id v = Some p
      ∧ Sub.search_where search_term role vid v p = true
      ∧ d = pharmacy_dict (vid, v, p, snd <$> left_join_users db v).
Proof.
  unfold Sub.search_visits. rewrite elem_of_sorted_dicts. split.
  - intros (r & Hr & ->).
    apply elem_of_select_join_patients_left_users in Hr
      as (vid & v & p & -> & Hv & Hp & Hc).
    by exists vid, v, p.
  - intros (vid & v & p & Hv & Hp & Hc & ->). eexists. split; [| done].
    apply elem_of_select_join_patients_left_users. by exists vid, v, p.
Qed.

(** Who is in the result of [search_visits] of [src/HMS.py], once the
    term has been given to [int]. *)
Lemma elem_of_root_search_rows db search_id search_term role d :
  d ∈ pharmacy_dict
        <$> order_by_desc joined_key
              (Root.select_join_patients_users db
                 (Root.search_where search_id search_term role))
  ↔ ∃ vid v p u,
      visits db !! vid = Some v
      ∧ patients db !! v_patient_id v = Some p
      ∧ left_join_users db v = Some u
      ∧ Root.search_where search_id search_term role vid v p = true
      ∧ d = pharmacy_dict (vid, v, p, Some u.2).
Proof.
  rewrite elem_of_sorted_dicts. split.
  - intros (r & Hr & ->).
    apply elem_of_root_select in Hr as (vid & v & p & u & -> & Hv & Hp & Hu & Hc).
    by exists vid, v, p, u.
  - intros (vid & v & p & u & Hv & Hp & Hu & Hc & ->). eexists.
    split; [| done]. apply elem_of_root_select. by exists vid, v, p, u.
Qed.

(** [col = ?] with a text parameter holds when the text stands for the
    integer in the column. *)
Lemma sql_eq_integer_text_spec (col : Z) (param : string) :
  sql_eq_integer_text col param = true ↔ sql_integer_of_text param = Some col.
Proof.
  unfold sql_eq_integer_text. destruct (sql_integer_of_text param) as [n |].
  - rewrite Z.eqb_eq. split; [by intros -> | by intros [= ->]].
  - done.
Qed.

(** The WHERE clause of the second file for the role ["all"]. *)
Lemma sub_search_where_all search_term vid v p :
  Sub.search_where search_term "all" vid v p = true
  ↔ sql_integer_of_text (py_strip search_term) = Some vid
    ∨ sql_integer_of_text (py_strip search_term) = Some (v_patient_id v)
    ∨ sql_like (p_full_name p) (like_pattern search_term) = true.
Proof.
  unfold Sub.search_where. simpl.
  rewrite !orb_true_iff, !sql_eq_integer_text_spec. tauto.
Qed.

(** The four text columns [src/HMS.py] searches for the role ["all"]. *)
Lemma text_match_all_spec pattern v p :
  Root.text_match_all pattern v p = true
  ↔ sql_like (p_full_name p) pattern = true
    ∨ sql_like_col (v_service v) pattern = true
    ∨ sql_like_col (v_doctor_notes v) pattern = true
    ∨ sql_like_col (v_pharmacy_instructions v) pattern = true.
Proof. unfold Root.text_match_all. rewrite !orb_true_iff. tauto. Qed.

(** The WHERE clauses of [src/HMS.py] for the role ["all"], with and
    without [v.id = ?]. *)
Lemma root_search_where_all search_id search_term vid v p :
  Root.search_where search_id search_term "all" vid v p = true
  ↔ search_id = Some vid
    ∨ Root.text_match_all (like_pattern search_term) v p = true.
Proof.
  unfold Root.search_where. simpl. destruct search_id as [n |].
  - rewrite orb_true_iff, Z.eqb_eq. split.
    + intros [-> | ?]; auto.
    + intros [[= ->] | ?]; auto.
  - split; [auto | by intros [? | ?]].
Qed.

(** C8, as the code has it. Searching with role ["all"] returns visits
    whose patient row exists, and in [src/HMS.py] only those whose assigned
    doctor row exists too. Among these:
    - the file under [HospitalManagementSystem-Python] returns exactly the
      visits whose id, or whose patient id, is the integer the stripped
      term stands for, whatever the patient's name, and the visits whose
      patient's name is LIKE the pattern of the term; a term that stands for
      no integer matches no id, and the search goes on with the names;
    - [src/HMS.py], for a term [int] reads as a number of 64 bits, returns
      exactly the visit whose id is that number, whatever the patient's
      name, and the visits whose patient's name, service, doctor notes or
      pharmacy instructions are LIKE the pattern; for a term [int] rejects
      the search does not fail and returns exactly these text matches; for
      a number beyond 64 bits it raises [OverflowError]. *)
Theorem search_visits_by_id (db : database) (search_term : string) :
  (∀ d,
      d ∈ Sub.search_visits db search_term "all"
      ↔ ∃ vid v p,
          visits db !! vid = Some v
          ∧ patients db !! v_patient_id v = Some p
          ∧ (sql_integer_of_text (py_strip search_term) = Some vid
             ∨ sql_integer_of_text (py_strip search_term)
               = Some (v_patient_id v)
             ∨ sql_like (p_full_name p) (like_pattern search_term) = true)
          ∧ d = pharmacy_dict (vid, v, p, snd <$> left_join_users db v))
  ∧ (∀ n,
        py_int search_term = Some n →
        int64 n = true →
        ∃ l,
          Root.search_visits db search_term "all" = Ok l
          ∧ ∀ d,
              d ∈ l
              ↔ ∃ vid v p u,
                  visits db !! vid = Some v
                  ∧ patients db !! v_patient_id v = Some p
                  ∧ left_join_users db v = Some u
                  ∧ (vid = n
                     ∨ sql_like (p_full_name p) (like_pattern search_term)
                       = true
                     ∨ sql_like_col (v_service v) (like_pattern search_term)
                       = true
                     ∨ sql_like_col (v_doctor_notes v)
                         (like_pattern search_term) = true
                     ∨ sql_like_col (v_pharmacy_instructions v)
                         (like_pattern search_term) = true)
                  ∧ d = pharmacy_dict (vid, v, p, Some u.2))
  ∧ (∀ n,
        py_int search_term = Some n →
        int64 n = false →
        Root.search_visits db search_term "all" = Raise OverflowError)
  ∧ (py_int search_term = None →
     ∃ l,
       Root.search_visits db search_term "all" = Ok l
       ∧ ∀ d,
           d ∈ l
           ↔ ∃ vid v p u,
               visits db !! vid = Some v
               ∧ patients db !! v_patient_id v = Some p
               ∧ left_join_users db v = Some u
               ∧ (sql_like (p_full_name p) (like_pattern search_term) = true
                  ∨ sql_like_col (v_service v) (like_pattern search_term)
                    = true
                  ∨ sql_like_col (v_doctor_notes v) (like_pattern search_term)
                    = true
                  ∨ sql_like_col (v_pharmacy_instructions v)
                      (like_pattern search_term) = true)
               ∧ d = pharmacy_dict (vid, v, p, Some u.2)).
Proof.
  split; [| split; [| split]].
  - intros d. rewrite elem_of_sub_search_visits.
    split; intros (vid & v & p & Hv & Hp & Hc & ->); exists vid, v, p;
      (repeat (split; [done |])); (split; [| done]);
      by apply sub_search_where_all.
  - intros n Hn H64. unfold Root.search_visits. rewrite Hn, H64.
    eexists. split; [reflexivity |]. intros d.
    rewrite elem_of_root_search_rows.
    split; intros (vid & v & p & u & Hv & Hp & Hu & Hc & ->);
      exists vid, v, p, u; (repeat (split; [done |])); (split; [| done]).
    + apply root_search_where_all in Hc as [[= ->] | Hc]; [by left |].
      right. by apply text_match_all_spec.
    + apply root_search_where_all. destruct Hc as [-> | Hc]; [by left |].
      right. by apply text_match_all_spec.
  - intros n Hn H64. unfold Root.search_visits. by rewrite Hn, H64.
  - intros Hnone. unfold Root.search_visits. rewrite Hnone.
    eexists. split; [reflexivity |]. intros d.
    rewrite elem_of_root_search_rows.
    split; intros (vid & v & p & u & Hv & Hp & Hu & Hc & ->);
      exists vid, v, p, u; (repeat (split; [done |])); (split; [| done]).
    + apply root_search_where_all in Hc as [[=] | Hc].
      by apply text_match_all_spec.
    + apply root_search_where_all. right. by apply text_match_all_spec.
Qed.
End search.

Lemma search_visits_by_id_witness :
  visits clinic !! 1 = Some visit_today
  ∧ @py_int ascii_builtins "1" = Some 1
  ∧ ∃ l,
      @Root.search_visits ascii_builtins clinic "1" "all" = Ok l
      ∧ pharmacy_dict (1, visit_today,
                       {| p_full_name := "John Doe";
                          p_address := Some "123 Main St";
                          p_dob := Some "1990-01-01";
                          p_created_at := "2025-10-29T11:00:00" |},
                       snd <$> left_join_users clinic visit_today)
        ∈ l.
Proof.
  split; [reflexivity |]. split; [reflexivity |].
  destruct (proj1 (proj2 (@search_visits_by_id ascii_builtins clinic "1"))
              1 eq_refl eq_refl) as (l & Hl & Hin).
  exists l. split; [exact Hl |]. apply Hin.
  eexists 1, visit_today, _, _.
  split; [reflexivity |]. split; [reflexivity |]. split; [reflexivity |].
  split; [by left | reflexivity].
Defined.

(** C8 as stated fails. Visit 42 has the id the term ["42"] stands for, but
    its patient id is no patient's, and neither file returns it. Visit 5 has
    a patient but no doctor: the second file returns it for ["5"],
    [src/HMS.py] does not. Visit 3 has the service ["Follow-up"]:
    [src/HMS.py] returns it for ["follow"], the second file, which looks
    for the text in the patient's name only, does not. *)
Lemma search_misses_unjoined_visits :
  visits clinic !! 42 = Some visit_dangling
  ∧ @py_int ascii_builtins "42" = Some 42
  ∧ @sql_integer_of_text ascii_builtins (@py_strip ascii_builtins "42") = Some 42
  ∧ @Sub.search_visits ascii_builtins clinic "42" "all" = []
  ∧ @Root.search_visits ascii_builtins clinic "42" "all" = Ok []
  ∧ visits clinic !! 5 = Some visit_unassigned
  ∧ PharmacyVisit.visit_id <$> @Sub.search_visits ascii_builtins clinic "5" "all"
    = [5]
  ∧ @Root.search_visits ascii_builtins clinic "5" "all" = Ok []
  ∧ v_service <$> visits clinic !! 3 = Some (Some "Follow-up")
  ∧ @sql_like ascii_builtins "Follow-up" (like_pattern "follow") = true
  ∧ @Sub.search_visits ascii_builtins clinic "follow" "all" = [].
Proof. repeat split. Qed.

(** On the clinic, [src/HMS.py]: a term that is not a number is searched as
    text, here in the service of visit 3; a number of more than 64 bits is
    accepted by [int] and then refused when the statement is executed. *)
Example root_search_examples :
  (∃ l, @Root.search_visits ascii_builtins clinic "follow" "all" = Ok l
        ∧ PharmacyVisit.visit_id <$> l = [3])
  ∧ @Root.search_visits ascii_builtins clinic "99999999999999999999" "all"
    = Raise OverflowError.
Proof. split; [eexists; split; reflexivity | reflexivity]. Qed.

(** ** Staff *)

Section staff.
Context `{Sha256}.

(** X1. With mobiles unique among the users, as the schema requires,
    [authenticate_user] returns a dictionary exactly for the user with that
    mobile and only when the hash of the password is the stored one; it is
    the dictionary of that user, without the hash. An unknown mobile and a
    wrong password both give [None]. *)
Theorem authenticate_user_spec (db : database) (mobile password_plain : string)
    (d : UserDict.t) :
  (∀ i j ui uj, users db !! i = Some ui → users db !! j = Some uj →
                u_mobile ui = u_mobile uj → i = j) →
  authenticate_user db mobile password_plain = Some d
  ↔ ∃ uid u, users db !! uid = Some u
             ∧ u_mobile u = mobile
             ∧ sha256 password_plain = u_password_hash u
             ∧ d = {| UserDict.id := uid; UserDict.name := u_name u;
                      UserDict.mobile := mobile; UserDict.role := u_role u |}.
Proof.
  intros Huniq. unfold authenticate_user, scan_users.
  destruct (filter (λ r : Z * user_row, u_mobile r.2 = mobile)
              (map_to_list (users db))) as [| [uid u] rest] eqn:Hf.
  - split; [done |]. intros (uid & u & Hu & Hm & _).
    assert ((uid, u) ∈ filter (λ r : Z * user_row, u_mobile r.2 = mobile)
                         (map_to_list (users db))) as Hin.
    { apply list_elem_of_filter. split; [done |]. by apply elem_of_map_to_list. }
    rewrite Hf in Hin. by apply elem_of_nil in Hin.
  - assert ((uid, u) ∈ filter (λ r : Z * user_row, u_mobile r.2 = mobile)
                         (map_to_list (users db))) as Hin
      by (rewrite Hf; left).
    apply list_elem_of_filter in Hin as [Hm Hu]. simpl in Hm.
    apply elem_of_map_to_list in Hu.
    assert (∀ uid' u', users db !! uid' = Some u' → u_mobile u' = mobile →
                       uid' = uid ∧ u' = u) as Hsame.
    { intros uid' u' Hu' Hm'.
      assert (uid' = uid) as -> by (apply (Huniq _ _ u' u); congruence).
      split; congruence. }
    destruct (String.eqb_spec (sha256 password_plain) (u_password_hash u))
      as [Hh | Hh].
    + split.
      * intros [= <-]. exists uid, u. by rewrite Hm.
      * intros (uid' & u' & Hu' & Hm' & Hh' & ->).
        destruct (Hsame uid' u' Hu' Hm') as [-> ->]. by rewrite Hm.
    + split; [done |]. intros (uid' & u' & Hu' & Hm' & Hh' & _).
      destruct (Hsame uid' u' Hu' Hm') as [-> ->]. done.
Qed.
End staff.

Lemma authenticate_user_spec_witness :
  @authenticate_user (λ s, s) clinic "7681969865" "x"
  = Some {| UserDict.id := 3; UserDict.name := "Mohammed Aminu";
            UserDict.mobile := "7681969865"; UserDict.role := "doctor" |}.
Proof.
  apply (@authenticate_user_spec (λ s, s) clinic "7681969865" "x").
  - intros i j ui uj Hi Hj _. unfold clinic in Hi, Hj. simpl in Hi, Hj.
    apply lookup_singleton_Some in Hi as [<- _].
    by apply lookup_singleton_Some in Hj as [<- _].
  - exists 3. eexists. split; [reflexivity |]. repeat split.
Defined.

(** X2. [get_doctors] and [get_pharmacists] return exactly the users whose role
    is ['doctor'], respectively ['pharmacist'], each once, and no user is in
    both lists. *)
Theorem staff_lists_spec (db : database) :
  (∀ d, d ∈ get_doctors db
        ↔ ∃ uid u, users db !! uid = Some u
                   ∧ u_role u = "doctor"
                   ∧ d = staff_dict (uid, u))
  ∧ (∀ d, d ∈ get_pharmacists db
          ↔ ∃ uid u, users db !! uid = Some u
                     ∧ u_role u = "pharmacist"
                     ∧ d = staff_dict (uid, u))
  ∧ NoDup (StaffDict.id <$> get_doctors db)
  ∧ NoDup (StaffDict.id <$> get_pharmacists db)
  ∧ (∀ d1 d2, d1 ∈ get_doctors db → d2 ∈ get_pharmacists db →
              StaffDict.id d1 ≠ StaffDict.id d2).
Proof.
  assert (∀ role d,
            d ∈ staff_dict <$> filter (λ r : Z * user_row, u_role r.2 = role)
                                 (scan_users db)
            ↔ ∃ uid u, users db !! uid = Some u
                       ∧ u_role u = role
                       ∧ d = staff_dict (uid, u)) as Hin.
  { intros role d. rewrite list_elem_of_fmap. split.
    - intros ([uid u] & -> & Hr). apply list_elem_of_filter in Hr as [Hrole Hu].
      apply elem_of_map_to_list in Hu. by exists uid, u.
    - intros (uid & u & Hu & Hrole & ->). exists (uid, u).
      split; [done |]. apply list_elem_of_filter. split; [done |].
      by apply elem_of_map_to_list. }
  assert (∀ role,
            NoDup (StaffDict.id
                     <$> (staff_dict
                            <$> filter (λ r : Z * user_row, u_role r.2 = role)
                                  (scan_users db)))) as Hnd.
  { intros role. rewrite <- list_fmap_compose.
    apply (NoDup_fmap_2_strong _).
    - intros [i ui] [j uj] Hi Hj Heq. simpl in Heq. subst j.
      apply list_elem_of_filter in Hi as [_ Hi], Hj as [_ Hj].
      apply elem_of_map_to_list in Hi, Hj. congruence.
    - apply NoDup_filter, NoDup_map_to_list. }
  split; [apply Hin |]. split; [apply Hin |].
  split; [apply Hnd |]. split; [apply Hnd |].
  intros d1 d2 H1 H2 Heq.
  apply Hin in H1 as (i1 & u1 & Hu1 & Hr1 & ->), H2 as (i2 & u2 & Hu2 & Hr2 & ->).
  simpl in Heq. subst i2. congruence.
Qed.

(** ** Patients *)

(** X3. [update_patient] on a patient that exists replaces the three
    fields and keeps [created_at] and the id; every other patient and all
    visits and users are as before, and running the same update again
    changes nothing more. On an id that no patient has it returns normally
    and leaves the database as it was, even with the name [None]: there is
    no not-found outcome. *)
Theorem update_patient_spec (db : database) (patient_id : Z)
    (address dob : option string) :
  (∀ p full_name,
      patients db !! patient_id = Some p →
      ∃ db',
        update_patient db patient_id (Some full_name) address dob = Ok db'
        ∧ patients db' !! patient_id
          = Some {| p_full_name := full_name; p_address := address;
                    p_dob := Some (or_empty dob);
                    p_created_at := p_created_at p |}
        ∧ (∀ pid, pid ≠ patient_id → patients db' !! pid = patients db !! pid)
        ∧ visits db' = visits db
        ∧ users db' = users db
        ∧ update_patient db' patient_id (Some full_name) address dob = Ok db')
  ∧ (∀ full_name,
        patients db !! patient_id = None →
        update_patient db patient_id full_name address dob = Ok db).
Proof.
  split.
  - intros p full_name Hp. unfold update_patient at 1. rewrite Hp. eexists.
    split; [reflexivity |]. simpl.
    split; [by rewrite lookup_insert_eq |].
    split; [intros pid Hne; by rewrite lookup_insert_ne |].
    split; [done |]. split; [done |].
    unfold update_patient. simpl. rewrite lookup_insert_eq. simpl.
    by rewrite insert_insert_eq.
  - intros full_name Hp. unfold update_patient. by rewrite Hp.
Qed.

Lemma update_patient_spec_witness :
  (∃ db', update_patient clinic 1 (Some "John A. Doe") (Some "9 Oak Ave") None
          = Ok db'
          ∧ p_created_at <$> patients db' !! 1 = Some "2025-10-29T11:00:00"
          ∧ p_dob <$> patients db' !! 1 = Some (Some EmptyString))
  ∧ update_patient clinic 99 None (Some "9 Oak Ave") None = Ok clinic.
Proof.
  destruct (update_patient_spec clinic 1 (Some "9 Oak Ave") None) as [Hhit _].
  destruct (update_patient_spec clinic 99 (Some "9 Oak Ave") None) as [_ Hmiss].
  split.
  - destruct (Hhit _ "John A. Doe" eq_refl) as (db' & Hupd & Hrow & _).
    exists db'. split; [exact Hupd |]. rewrite Hrow. split; reflexivity.
  - apply Hmiss. reflexivity.
Defined.

(** *** The list of patients *)

Section by_id.
Context {A : Type}.

Let R : relation (Z * A) := λ x y, Is_true (y.1 <=? x.1).

#[local] Instance id_desc_total : Total R.
Proof.
  intros x y. unfold R. rewrite !Is_true_true, !Z.leb_le. lia.
Qed.

#[local] Instance id_desc_trans : Transitive R.
Proof.
  intros x y z. unfold R. rewrite !Is_true_true, !Z.leb_le. lia.
Qed.

Lemma order_by_id_desc_perm (l : list (Z * A)) : order_by_id_desc l ≡ₚ l.
Proof. apply merge_sort_Permutation. Qed.

Lemma order_by_id_desc_sorted (l : list (Z * A)) :
  NoDup l.*1 → StronglySorted (λ x y, y.1 < x.1) (order_by_id_desc l).
Proof.
  intros Hnd.
  assert (StronglySorted R (order_by_id_desc l)) as Hs
    by apply (StronglySorted_merge_sort R).
  assert (NoDup (order_by_id_desc l).*1) as Hnd'
    by (by rewrite order_by_id_desc_perm).
  induction Hs as [| x l' Hs IH Hall]; [constructor |].
  simpl in Hnd'. apply NoDup_cons in Hnd' as [Hx Hnd'].
  constructor; [by apply IH |].
  apply Forall_forall. intros y Hy.
  rewrite Forall_forall in Hall. specialize (Hall y Hy). unfold R in Hall.
  apply Is_true_true, Z.leb_le in Hall.
  assert (y.1 ≠ x.1); [| lia].
  intros Heq. apply Hx. rewrite <- Heq. by apply list_elem_of_fmap_2.
Qed.

(** Two lists of rows with distinct ids, sorted by id descending, with the
    same rows are the same list. *)
Lemma sorted_by_id_unique (l1 l2 : list (Z * A)) :
  NoDup l1.*1 →
  StronglySorted (λ x y : Z * A, y.1 < x.1) l1 →
  StronglySorted (λ x y : Z * A, y.1 < x.1) l2 →
  l1 ≡ₚ l2 → l1 = l2.
Proof.
  intros Hnd Hs1 Hs2 Hp.
  apply (StronglySorted_unique_strong (λ x y : Z * A, y.1 < x.1)); try done.
  intros x1 x2 _ _ Hlt1 Hlt2. lia.
Qed.
End by_id.

Lemma id_patient_dict r : PatientDict.id (patient_dict r) = r.1.
Proof. done. Qed.

(** X4. [list_patients] returns every patient, and nothing else, with ids
    strictly descending (so each patient once, the latest registered
    first). *)
Theorem list_patients_spec (db : database) :
  (∀ d, d ∈ list_patients db
        ↔ ∃ pid p, patients db !! pid = Some p ∧ d = patient_dict (pid, p))
  ∧ StronglySorted (λ d1 d2, PatientDict.id d2 < PatientDict.id d1)
      (list_patients db).
Proof.
  unfold list_patients, scan_patients. split.
  - intros d. rewrite list_elem_of_fmap.
    setoid_rewrite (order_by_id_desc_perm (map_to_list (patients db))). split.
    + intros ([pid p] & -> & Hin). apply elem_of_map_to_list in Hin.
      by exists pid, p.
    + intros (pid & p & Hp & ->). exists (pid, p). split; [done |].
      by apply elem_of_map_to_list.
  - apply (StronglySorted_fmap patient_dict (λ x y, y.1 < x.1)); [done |].
    apply order_by_id_desc_sorted, NoDup_fst_map_to_list.
Qed.

(** X5. A patient just added is listed first, in front of the list as it was;
    the patients, visits and users that were there are not touched. *)
Theorem add_patient_listed_first (now : datetime) (db db' : database)
    (full_name address dob : option string) (pid : Z) :
  add_patient now db full_name address dob = Ok (db', pid) →
  (∃ p, patients db' !! pid = Some p
        ∧ list_patients db' = patient_dict (pid, p) :: list_patients db)
  ∧ (∀ pid' p', patients db !! pid' = Some p' →
                pid' < pid ∧ patients db' !! pid' = Some p')
  ∧ visits db' = visits db
  ∧ users db' = users db.
Proof.
  unfold add_patient. destruct full_name as [name |]; [| done].
  intros [= <- <-]. simpl.
  set (pid := next_rowid (patients_seq db) (patients db)).
  set (p := {| p_full_name := name; p_address := address;
               p_dob := Some (or_empty dob);
               p_created_at := datetime_isoformat now |}).
  assert (patients db !! pid = None) as Hfresh by apply next_rowid_fresh.
  assert (∀ pid' p', patients db !! pid' = Some p' → pid' < pid) as Habove.
  { intros pid' p' Hp'. apply next_rowid_above. eauto. }
  split; [| split; [| done]].
  - exists p. split; [by rewrite lookup_insert_eq |].
    unfold list_patients, scan_patients. simpl.
    rewrite <- (fmap_cons patient_dict).
    f_equal. apply sorted_by_id_unique.
    + rewrite order_by_id_desc_perm. apply NoDup_fst_map_to_list.
    + apply order_by_id_desc_sorted, NoDup_fst_map_to_list.
    + constructor.
      * apply order_by_id_desc_sorted, NoDup_fst_map_to_list.
      * apply Forall_forall. intros [pid' p'] Hin.
        rewrite order_by_id_desc_perm in Hin.
        apply elem_of_map_to_list in Hin. simpl. by eapply Habove.
    + rewrite !order_by_id_desc_perm. by apply map_to_list_insert.
  - intros pid' p' Hp'. split; [by eapply Habove |].
    rewrite lookup_insert_ne; [done |]. intros <-. congruence.
Qed.

Lemma add_patient_listed_first_witness :
  ∃ db', add_patient clock clinic (Some "Jane Smith") None None = Ok (db', 2)
         ∧ PatientDict.id <$> list_patients db' = [2; 1].
Proof.
  eexists. split; [reflexivity |].
  destruct (add_patient_listed_first clock clinic _ (Some "Jane Smith") None None
              2 eq_refl) as ((p & _ & ->) & _).
  reflexivity.
Defined.

(** *** The search for patients *)

Lemma filter_all {A : Type} (P : A → Prop) `{∀ x, Decision (P x)} (l : list A) :
  (∀ x, x ∈ l → P x) → filter P l = l.
Proof.
  induction l as [| x l IH]; intros Hall; [done |].
  rewrite filter_cons_True by (apply Hall; left).
  f_equal. apply IH. intros y Hy. apply Hall. by right.
Qed.

(** The patients a filtered, sorted select returns. *)
Lemma elem_of_selected_patients (P : Z * patient_row → Prop)
    `{∀ r, Decision (P r)} db d :
  d ∈ patient_dict <$> order_by_id_desc (filter P (scan_patients db))
  ↔ ∃ pid p, patients db !! pid = Some p ∧ P (pid, p) ∧ d = patient_dict (pid, p).
Proof.
  rewrite list_elem_of_fmap. setoid_rewrite order_by_id_desc_perm.
  unfold scan_patients. split.
  - intros ([pid p] & -> & Hin). apply list_elem_of_filter in Hin as [HP Hin].
    apply elem_of_map_to_list in Hin. by exists pid, p.
  - intros (pid & p & Hp & HP & ->). exists (pid, p). split; [done |].
    apply list_elem_of_filter. split; [done |]. by apply elem_of_map_to_list.
Qed.

Lemma sorted_selected_patients (P : Z * patient_row → Prop)
    `{∀ r, Decision (P r)} db :
  StronglySorted (λ d1 d2, PatientDict.id d2 < PatientDict.id d1)
    (patient_dict <$> order_by_id_desc (filter P (scan_patients db))).
Proof.
  apply (StronglySorted_fmap patient_dict (λ x y, y.1 < x.1)); [done |].
  apply order_by_id_desc_sorted. unfold scan_patients.
  assert (filter P (map_to_list (patients db)) `sublist_of`
            map_to_list (patients db)) as Hsub by apply sublist_filter.
  apply (sublist_NoDup _ (map_to_list (patients db)).*1);
    [apply NoDup_fst_map_to_list | by apply fmap_sublist].
Qed.

Section search_patients.
Context `{Builtins}.

(** X6. [search_patients] of [src/HMS.py]. When [int] accepts the term (a value
    of 64 bits), the result is exactly the patients whose id is that integer
    or one of whose name, address and date of birth is LIKE the pattern.
    When [int] rejects the term the search does not fail: the result is
    exactly the text matches. An integer of more than 64 bits raises
    [OverflowError]. The result is by id descending. *)
Theorem root_search_patients_spec (db : database) (search_term : string) :
  (∀ n, py_int search_term = Some n → int64 n = true →
        ∃ l, RootExtra.search_patients db search_term = Ok l
             ∧ (∀ d, d ∈ l
                     ↔ ∃ pid p,
                         patients db !! pid = Some p
                         ∧ (pid = n
                            ∨ RootExtra.patient_text_match
                                (like_pattern search_term) p = true)
                         ∧ d = patient_dict (pid, p))
             ∧ StronglySorted
                 (λ d1 d2, PatientDict.id d2 < PatientDict.id d1) l)
  ∧ (py_int search_term = None →
     ∃ l, RootExtra.search_patients db search_term = Ok l
          ∧ (∀ d, d ∈ l
                  ↔ ∃ pid p,
                      patients db !! pid = Some p
                      ∧ RootExtra.patient_text_match
                          (like_pattern search_term) p = true
                      ∧ d = patient_dict (pid, p))
          ∧ StronglySorted
              (λ d1 d2, PatientDict.id d2 < PatientDict.id d1) l)
  ∧ (∀ n, py_int search_term = Some n → int64 n = false →
          RootExtra.search_patients db search_term = Raise OverflowError).
Proof.
  unfold RootExtra.search_patients. split; [| split].
  - intros n -> ->. eexists. split; [reflexivity |].
    split; [| apply sorted_selected_patients].
    intros d. rewrite elem_of_selected_patients. simpl.
    split; intros (pid & p & Hp & Hm & ->); exists pid, p;
      (split; [done |]); (split; [| done]).
    + apply Is_true_true, orb_true_iff in Hm as [Hid | Ht]; [left | by right].
      by apply Z.eqb_eq.
    + apply Is_true_true, orb_true_iff.
      destruct Hm as [-> | Ht]; [left; apply Z.eqb_refl | by right].
  - intros ->. eexists. split; [reflexivity |].
    split; [| apply sorted_selected_patients].
    intros d. rewrite elem_of_selected_patients. simpl.
    split; intros (pid & p & Hp & Hm & ->); exists pid, p;
      (split; [done |]); (split; [| done]); by apply Is_true_true.
  - by intros n -> ->.
Qed.

(** X7. [search_patients] of the second file returns exactly the patients one
    of whose name, address and date of birth is LIKE the pattern, or whose
    id is the integer the stripped term stands for, by id descending. *)
Theorem sub_search_patients_spec (db : database) (search_term : string) :
  (∀ d, d ∈ SubExtra.search_patients db search_term
        ↔ ∃ pid p,
            patients db !! pid = Some p
            ∧ (sql_like (p_full_name p) (like_pattern search_term) = true
               ∨ sql_like_col (p_address p) (like_pattern search_term) = true
               ∨ sql_like_col (p_dob p) (like_pattern search_term) = true
               ∨ sql_integer_of_text (py_strip search_term) = Some pid)
            ∧ d = patient_dict (pid, p))
  ∧ StronglySorted (λ d1 d2, PatientDict.id d2 < PatientDict.id d1)
      (SubExtra.search_patients db search_term).
Proof.
  unfold SubExtra.search_patients. split; [| apply sorted_selected_patients].
  intros d. rewrite elem_of_selected_patients. simpl.
  unfold sql_eq_integer_text.
  split; intros (pid & p & Hp & Hm & ->); exists pid, p;
    (split; [done |]); (split; [| done]).
  - apply Is_true_true in Hm. rewrite !orb_true_iff in Hm.
    destruct Hm as [[[Hm | Hm] | Hm] | Hm]; auto.
    destruct (sql_integer_of_text (py_strip search_term)) as [n |]; [| done].
    apply Z.eqb_eq in Hm. subst. auto.
  - apply Is_true_true. rewrite !orb_true_iff.
    destruct Hm as [Hm | [Hm | [Hm | Hm]]]; auto.
    right. rewrite Hm. apply Z.eqb_refl.
Qed.

(** X8. With the empty term the pattern is ['%%'], which every text is LIKE:
    when [int] rejects the empty text, as Python's does, both searches
    return the whole list of patients, as [list_patients] does. *)
Theorem search_patients_empty_term (db : database) :
  py_int EmptyString = None →
  (∀ s, sql_like s "%%" = true) →
  RootExtra.search_patients db EmptyString = Ok (list_patients db)
  ∧ SubExtra.search_patients db EmptyString = list_patients db.
Proof.
  intros Hint Hlike.
  unfold RootExtra.search_patients, SubExtra.search_patients, list_patients.
  rewrite Hint. change (like_pattern EmptyString) with "%%".
  split.
  - do 3 f_equal. apply filter_all. intros [pid p] _. simpl.
    unfold RootExtra.patient_text_match. by rewrite Hlike.
  - do 2 f_equal. apply filter_all. intros [pid p] _. simpl.
    by rewrite Hlike.
Qed.
End search_patients.

Lemma root_search_patients_spec_witness :
  ∃ l, @RootExtra.search_patients ascii_builtins clinic "1" = Ok l
       ∧ PatientDict.id <$> l = [1].
Proof.
  destruct (proj1 (@root_search_patients_spec ascii_builtins clinic "1") 1
              eq_refl eq_refl) as (l & Hl & _).
  exists l. split; [exact Hl |].
  vm_compute in Hl. injection Hl as <-. reflexivity.
Defined.

Lemma like_match_percent s : like_match "%" s = true.
Proof. induction s as [| c s IH]; [done |]. simpl in *. by rewrite IH. Qed.

Lemma like_match_everything s : like_match "%%" s = true.
Proof.
  pose proof (like_match_percent s) as Hs. destruct s; simpl in *; [done |].
  by rewrite Hs.
Qed.

Lemma search_patients_empty_term_witness :
  @RootExtra.search_patients ascii_builtins clinic EmptyString
  = Ok (list_patients clinic).
Proof.
  apply (@search_patients_empty_term ascii_builtins clinic).
  - reflexivity.
  - intros s. apply like_match_everything.
Defined.

(** ** More on the visit lists *)

(** X9. [get_visits_for_doctor] returns exactly the visits assigned to that
    doctor whose patient row exists, each once, by date descending, then
    [time_in] descending. A visit without a doctor is on no doctor's list. *)
Theorem get_visits_for_doctor_spec (db : database) (doctor_id : Z) :
  (∀ d, d ∈ get_visits_for_doctor db doctor_id
        ↔ ∃ vid v p,
            visits db !! vid = Some v
            ∧ patients db !! v_patient_id v = Some p
            ∧ v_assigned_doctor_id v = Some doctor_id
            ∧ d = doctor_dict (vid, v, p))
  ∧ NoDup (DoctorVisit.visit_id <$> get_visits_for_doctor db doctor_id)
  ∧ sorted_desc (λ d, (DoctorVisit.date d, DoctorVisit.time_in d))
      (get_visits_for_doctor db doctor_id).
Proof.
  unfold get_visits_for_doctor. split; [| split].
  - intros d. rewrite list_elem_of_fmap. setoid_rewrite elem_of_order_by_desc.
    split.
    + intros (r & -> & Hr).
      apply elem_of_doctor_rows in Hr as (vid & v & p & -> & Hv & Hp & Hd).
      by exists vid, v, p.
    + intros (vid & v & p & Hv & Hp & Hd & ->). eexists. split; [done |].
      apply elem_of_doctor_rows. by exists vid, v, p.
  - rewrite <- list_fmap_compose. rewrite order_by_desc_perm.
    erewrite list_fmap_ext.
    + apply (NoDup_omap_key _ (λ r : Z * visit_row * patient_row, r.1.1));
        [| apply NoDup_fst_map_to_list].
      intros [vid v] r Hsel. simpl in *.
      destruct (patients db !! v_patient_id v) as [p |]; [| done].
      simpl in Hsel. case_bool_decide; [| done]. by inversion Hsel.
    + by intros i [[vid v] p] _.
  - apply sorted_desc_fmap. by intros [[vid v] p].
Qed.

Lemma elem_of_patient_rows db patient_id
    (r : Z * visit_row * option (Z * user_row)) :
  r ∈ patient_rows db patient_id
  ↔ ∃ vid v,
      r = (vid, v, left_join_users db v)
      ∧ visits db !! vid = Some v
      ∧ v_patient_id v = patient_id.
Proof.
  unfold patient_rows, scan_visits. rewrite list_elem_of_omap. split.
  - intros ([vid v] & Hin & Hsel). apply elem_of_map_to_list in Hin.
    simpl in Hsel.
    destruct (v_patient_id v =? patient_id) eqn:Hpid; [| done].
    apply Z.eqb_eq in Hpid. exists vid, v. by inversion Hsel.
  - intros (vid & v & -> & Hv & Hpid). exists (vid, v).
    split; [by apply elem_of_map_to_list |]. simpl.
    apply Z.eqb_eq in Hpid. by rewrite Hpid.
Qed.

Lemma elem_of_get_visits_for_patient db patient_id h :
  h ∈ get_visits_for_patient db patient_id
  ↔ ∃ vid v,
      visits db !! vid = Some v
      ∧ v_patient_id v = patient_id
      ∧ h = history_dict (vid, v, left_join_users db v).
Proof.
  unfold get_visits_for_patient. rewrite list_elem_of_fmap.
  setoid_rewrite elem_of_order_by_desc. split.
  - intros (r & -> & Hr).
    apply elem_of_patient_rows in Hr as (vid & v & -> & Hv & Hpid).
    by exists vid, v.
  - intros (vid & v & Hv & Hpid & ->). eexists. split; [done |].
    apply elem_of_patient_rows. by exists vid, v.
Qed.

(** X10. [get_visits_for_patient] returns exactly the visits with that patient
    id, whether or not a patient has it, each once, by date descending, then
    [time_in] descending; every dictionary of [get_patient_visit_history] is
    one of them. *)
Theorem get_visits_for_patient_spec (now : datetime) (db : database)
    (patient_id : Z) :
  (∀ h, h ∈ get_visits_for_patient db patient_id
        ↔ ∃ vid v,
            visits db !! vid = Some v
            ∧ v_patient_id v = patient_id
            ∧ h = history_dict (vid, v, left_join_users db v))
  ∧ NoDup (HistoryVisit.id <$> get_visits_for_patient db patient_id)
  ∧ sorted_desc (λ h, (HistoryVisit.date h, HistoryVisit.time_in h))
      (get_visits_for_patient db patient_id)
  ∧ (∀ days l h,
        get_patient_visit_history now db patient_id days = Ok l →
        h ∈ l → h ∈ get_visits_for_patient db patient_id).
Proof.
  split; [apply elem_of_get_visits_for_patient |]. split; [| split].
  - unfold get_visits_for_patient.
    rewrite <- list_fmap_compose. rewrite order_by_desc_perm.
    erewrite list_fmap_ext.
    + apply (NoDup_omap_key _
               (λ r : Z * visit_row * option (Z * user_row), r.1.1));
        [| apply NoDup_fst_map_to_list].
      intros [vid v] r Hsel. simpl in *.
      destruct (v_patient_id v =? patient_id); [| done]. by inversion Hsel.
    + by intros i [[vid v] u] _.
  - unfold get_visits_for_patient. apply sorted_desc_fmap.
    by intros [[vid v] u].
  - intros days l h. unfold get_patient_visit_history.
    destruct (date_sub_days (today now) (days - 1)) as [start | e]; [| done].
    intros [= <-]. rewrite list_elem_of_fmap.
    setoid_rewrite elem_of_order_by_desc.
    intros (r & -> & Hr).
    apply elem_of_history_rows in Hr as (vid & v & -> & Hv & Hpid & _).
    apply elem_of_get_visits_for_patient. by exists vid, v.
Qed.

(** X11. The edges of the history window. With [days <= 0] the window starts
    after today and the result is empty; when the start of the window falls
    outside the calendar, before day 1 or after day [MAXORDINAL], the call
    raises [OverflowError]. *)
Theorem get_patient_visit_history_edges (now : datetime) (db : database)
    (patient_id days : Z) :
  1 <= today now <= MAXORDINAL →
  (days <= 0 → today now - (days - 1) <= MAXORDINAL →
   get_patient_visit_history now db patient_id days = Ok [])
  ∧ (today now - (days - 1) < 1 ∨ MAXORDINAL < today now - (days - 1) →
     get_patient_visit_history now db patient_id days = Raise OverflowError).
Proof.
  intros Htoday. split.
  - intros Hdays Hmax.
    destruct (get_patient_visit_history_spec now db patient_id days
                ltac:(lia)) as (l & -> & Hin & _).
    f_equal. apply elem_of_nil_inv. intros h Hh.
    apply Hin in Hh as (vid & v & _ & _ & Hb & _).
    unfold sql_between in Hb. apply andb_true_iff in Hb as [Hlo Hhi].
    assert (String.le (date_isoformat (today now - (days - 1)))
                      (date_isoformat (today now))) as Hle.
    { etrans; apply Is_true_true; eassumption. }
    apply Is_true_true in Hle. rewrite date_isoformat_leb in Hle by lia.
    apply Z.leb_le in Hle. lia.
  - intros Hout. unfold get_patient_visit_history, date_sub_days.
    assert ((0 <? today now - (days - 1))
            && (today now - (days - 1) <=? MAXORDINAL) = false) as ->; [| done].
    apply andb_false_iff. rewrite Z.ltb_ge, Z.leb_gt. lia.
Qed.

Lemma get_patient_visit_history_edges_witness :
  get_patient_visit_history clock clinic 1 0 = Ok []
  ∧ get_patient_visit_history clock clinic 1 739560 = Raise OverflowError.
Proof.
  assert (1 <= today clock <= MAXORDINAL) as Htoday
    by (vm_compute; split; discriminate).
  destruct (get_patient_visit_history_edges clock clinic 1 0 Htoday)
    as [Hempty _].
  destruct (get_patient_visit_history_edges clock clinic 1 739560 Htoday)
    as [_ Hraise].
  split.
  - apply Hempty; vm_compute; discriminate.
  - apply Hraise. left. vm_compute. reflexivity.
Defined.

(** ** How the operations on visits combine *)

Lemma visit_in_queue db vid v p :
  visits db !! vid = Some v →
  patients db !! v_patient_id v = Some p →
  v_pharmacy_status v = Some "Pending" ∨ v_status v = Some "Visit Pharmacy" →
  pharmacy_dict (vid, v, p, snd <$> left_join_users db v)
  ∈ get_visits_for_pharmacy db.
Proof.
  intros Hv Hp Hc. apply elem_of_get_visits_for_pharmacy. by exists vid, v, p.
Qed.

Lemma visit_not_in_queue db vid v :
  visits db !! vid = Some v →
  v_pharmacy_status v ≠ Some "Pending" →
  v_status v ≠ Some "Visit Pharmacy" →
  ∀ d, d ∈ get_visits_for_pharmacy db → PharmacyVisit.visit_id d ≠ vid.
Proof.
  intros Hv Hps Hst d Hd.
  apply elem_of_get_visits_for_pharmacy in Hd
    as (vid' & v' & p & Hv' & _ & Hc & ->).
  simpl. intros ->. assert (v' = v) as -> by congruence. by destruct Hc.
Qed.

(** X12. Completing a dispensing and the pharmacy queue. In the second file the
    completed visit leaves the queue. In [src/HMS.py] a visit whose status is
    ["Visit Pharmacy"] stays in the queue after it is completed, now with
    pharmacy status ["Completed"], because its status is not changed. *)
Theorem completed_visit_and_queue (now : datetime) (db : database)
    (visit_id : Z) (v : visit_row) :
  visits db !! visit_id = Some v →
  (∀ d, d ∈ get_visits_for_pharmacy
              (Sub.update_pharmacy_status_and_timeout now db visit_id "Completed") →
        PharmacyVisit.visit_id d ≠ visit_id)
  ∧ (∀ p, patients db !! v_patient_id v = Some p →
          v_status v = Some "Visit Pharmacy" →
          ∃ d, d ∈ get_visits_for_pharmacy
                     (Root.update_pharmacy_status_and_timeout now db visit_id
                        "Completed")
               ∧ PharmacyVisit.visit_id d = visit_id
               ∧ PharmacyVisit.pharmacy_status d = Some "Completed"
               ∧ PharmacyVisit.time_out d = Some (strftime_HM now)).
Proof.
  intros Hv. split.
  - apply (visit_not_in_queue _ _
             (set_time_out (Some (strftime_HM now))
                (set_status (Some "Done")
                   (set_pharmacy_status (Some "Completed") v)))); [| done ..].
    unfold Sub.update_pharmacy_status_and_timeout. rewrite String.eqb_refl.
    read_updated_row Hv.
  - intros p Hp Hst.
    set (db' := Root.update_pharmacy_status_and_timeout now db visit_id
                  "Completed").
    set (v' := set_time_out (Some (strftime_HM now))
                 (set_pharmacy_status (Some "Completed") v)).
    assert (visits db' !! visit_id = Some v') as Hv'.
    { unfold db', Root.update_pharmacy_status_and_timeout.
      rewrite String.eqb_refl. read_updated_row Hv. }
    exists (pharmacy_dict (visit_id, v', p, snd <$> left_join_users db' v')).
    split; [| done]. apply visit_in_queue; [done | done | by right].
Qed.

Lemma completed_visit_and_queue_witness :
  visits clinic !! 1 = Some visit_today
  ∧ PharmacyVisit.visit_id
      <$> get_visits_for_pharmacy
            (Sub.update_pharmacy_status_and_timeout clock clinic 1 "Completed")
    = []
  ∧ ∃ d, d ∈ get_visits_for_pharmacy
               (Root.update_pharmacy_status_and_timeout clock clinic 1
                  "Completed")
         ∧ PharmacyVisit.visit_id d = 1.
Proof.
  assert (visits clinic !! 1 = Some visit_today) as Hv by reflexivity.
  split; [exact Hv |]. split; [reflexivity |].
  destruct (proj2 (completed_visit_and_queue clock clinic 1 visit_today Hv)
              _ eq_refl eq_refl) as (d & Hd & Hid & _).
  by exists d.
Defined.

(** X13. A new visit and the pharmacy queue. For a patient who exists, a visit
    created by [add_visit] of [src/HMS.py] is in the pharmacy queue at once,
    whatever its status, since it is created ["Pending"]; a visit created by
    [add_visit] of the second file is in the queue exactly when it is
    created with the status ["Visit Pharmacy"]. The ids are integers of 64
    bits, as every id the store hands out is. *)
Theorem new_visit_and_queue (db : database) (patient_id : Z) (p : patient_row)
    (assigned_doctor_id : option Z) (visit_date : string)
    (time_in time_out service status : option string) (vitals : vitals_dict)
    (doctor_notes pharmacy_instructions : option string) :
  patients db !! patient_id = Some p →
  int64 patient_id = true →
  binds assigned_doctor_id = true →
  (∃ db' vid,
      Root.add_visit db (Some patient_id) assigned_doctor_id (Some visit_date)
        time_in time_out service status vitals doctor_notes pharmacy_instructions
      = Ok (db', vid)
      ∧ ∃ d, d ∈ get_visits_for_pharmacy db' ∧ PharmacyVisit.visit_id d = vid)
  ∧ (∃ db' vid,
        Sub.add_visit db (Some patient_id) assigned_doctor_id (Some visit_date)
          time_in time_out service status vitals doctor_notes
          pharmacy_instructions
        = Ok (db', vid)
        ∧ ((∃ d, d ∈ get_visits_for_pharmacy db' ∧ PharmacyVisit.visit_id d = vid)
           ↔ status = Some "Visit Pharmacy")).
Proof.
  intros Hp Hpid Hdoc. split.
  - eexists _, _. split; [by apply root_add_visit_ok |]. eexists. split.
    + apply visit_in_queue; [apply lookup_insert_eq | exact Hp | by left].
    + done.
  - eexists _, _. split; [by apply sub_add_visit_ok |].
    set (vid := next_rowid (visits_seq db) (visits db)).
    match goal with
    | |- context [<[vid := ?row]> (visits db)] => set (v := row)
    end.
    set (db' := {| users := users db; patients := patients db;
                   visits := <[vid := v]> (visits db);
                   patients_seq := patients_seq db; visits_seq := vid |}).
    assert (visits db' !! vid = Some v) as Hv by apply lookup_insert_eq.
    split.
    + intros (d & Hd & Hid).
      destruct (decide (status = Some "Visit Pharmacy")) as [| Hne]; [done |].
      exfalso. revert Hid. apply (visit_not_in_queue db' vid v); try done.
      simpl. by rewrite bool_decide_false.
    + intros ->. eexists. split.
      * apply (visit_in_queue db' vid v p); [done | exact Hp | by right].
      * done.
Qed.

Lemma new_visit_and_queue_witness :
  ∃ db' vid,
    Root.add_visit clinic (Some 1) (Some 3) (Some "2025-11-03") (Some "15:00")
      None (Some "Vaccination") (Some "Scheduled") ∅ None None
    = Ok (db', vid)
    ∧ ∃ d, d ∈ get_visits_for_pharmacy db' ∧ PharmacyVisit.visit_id d = vid.
Proof.
  exact (proj1 (new_visit_and_queue clinic 1 _ (Some 3) "2025-11-03"
                  (Some "15:00") None (Some "Vaccination") (Some "Scheduled")
                  ∅ None None eq_refl eq_refl eq_refl)).
Defined.

(** X14. [add_visit] then [get_visit]. For a patient who exists, the visit just
    created is read back with the values given, the name of the patient and
    the name of the doctor if one is assigned and exists; its id is larger
    than the id of every visit that was there, and every other visit is read
    back as before. In both files, each with its own pharmacy status. The
    ids are integers of 64 bits, as every id the store hands out is. *)
Theorem add_visit_get_visit (db : database) (patient_id : Z) (p : patient_row)
    (assigned_doctor_id : option Z) (visit_date : string)
    (time_in time_out service status : option string) (vitals : vitals_dict)
    (doctor_notes pharmacy_instructions : option string) :
  patients db !! patient_id = Some p →
  int64 patient_id = true →
  binds assigned_doctor_id = true →
  let read_back (vid : Z) (pharmacy_status : string) :=
    {| VisitDetail.visit_id := vid;
       VisitDetail.patient_id := patient_id;
       VisitDetail.patient_name := p_full_name p;
       VisitDetail.assigned_doctor_id := assigned_doctor_id;
       VisitDetail.doctor_name :=
         u_name <$> (assigned_doctor_id ≫= (users db !!.));
       VisitDetail.date := visit_date;
       VisitDetail.time_in := time_in;
       VisitDetail.time_out := time_out;
       VisitDetail.service := service;
       VisitDetail.status := status;
       VisitDetail.vitals := vitals;
       VisitDetail.notes := doctor_notes;
       VisitDetail.pharmacy_instructions := pharmacy_instructions;
       VisitDetail.pharmacy_status := Some pharmacy_status |} in
  (∃ db' vid,
      Root.add_visit db (Some patient_id) assigned_doctor_id (Some visit_date)
        time_in time_out service status vitals doctor_notes pharmacy_instructions
      = Ok (db', vid)
      ∧ get_visit db' vid = Some (read_back vid "Pending")
      ∧ (∀ vid', is_Some (visits db !! vid') →
                 vid' < vid ∧ get_visit db' vid' = get_visit db vid'))
  ∧ (∃ db' vid,
        Sub.add_visit db (Some patient_id) assigned_doctor_id (Some visit_date)
          time_in time_out service status vitals doctor_notes
          pharmacy_instructions
        = Ok (db', vid)
        ∧ get_visit db' vid
          = Some (read_back vid
                    (if bool_decide (status = Some "Visit Pharmacy")
                     then "Pending" else "Not Applicable"))
        ∧ (∀ vid', is_Some (visits db !! vid') →
                   vid' < vid ∧ get_visit db' vid' = get_visit db vid')).
Proof.
  intros Hp Hpid Hdoc read_back.
  assert (loads_or_empty (dumps_or_null vitals) = vitals) as Hvit.
  { unfold dumps_or_null, dict_truthy, loads_or_empty.
    destruct (map_to_list vitals) eqn:E; [| done].
    by apply map_to_list_empty_iff in E. }
  assert (∀ vid', is_Some (visits db !! vid') →
                  vid' < next_rowid (visits_seq db) (visits db)) as Habove
    by (intros; by apply next_rowid_above).
  split;
    (eexists _, _;
     split; [by (apply root_add_visit_ok || apply sub_add_visit_ok) |]; split;
     [ unfold get_visit, read_back; simpl; rewrite lookup_insert_eq; simpl;
       rewrite Hp; simpl; rewrite Hvit; unfold left_join_users; simpl;
       destruct assigned_doctor_id as [did |]; simpl; [| done];
       by destruct (users db !! did)
     | intros vid' Hvid'; split; [by apply Habove |];
       unfold get_visit; simpl; rewrite lookup_insert_ne; [done |];
       intros <-; specialize (Habove _ Hvid'); lia ]).
Qed.

Lemma add_visit_get_visit_witness :
  ∃ db' vid,
    Sub.add_visit clinic (Some 1) (Some 3) (Some "2025-11-03") (Some "15:00")
      None (Some "Vaccination") (Some "Scheduled") ∅ None None
    = Ok (db', vid)
    ∧ VisitDetail.patient_name <$> get_visit db' vid = Some "John Doe"
    ∧ VisitDetail.pharmacy_status <$> get_visit db' vid
      = Some (Some "Not Applicable").
Proof.
  destruct (proj2 (add_visit_get_visit clinic 1 _ (Some 3) "2025-11-03"
                     (Some "15:00") None (Some "Vaccination") (Some "Scheduled")
                     ∅ None None eq_refl eq_refl eq_refl))
    as (db' & vid & Hadd & Hget & _).
  exists db', vid. split; [exact Hadd |]. rewrite Hget. split; reflexivity.
Defined.

Lemma keeps_visit_identity_update db visit_id (set : visit_row → visit_row) :
  (∀ v, v_patient_id (set v) = v_patient_id v) →
  keeps_visit_identity db (update_visits_where_id db visit_id set).
Proof.
  intros Hset. split; [done |]. split; [done |]. intros vid.
  rewrite lookup_update_visits_where_id.
  destruct (decide (visit_id = vid)) as [-> | Hne]; [| done].
  destruct (visits db !! vid) as [v |]; simpl; [| done]. by rewrite Hset.
Qed.

(** X15. No update of a visit creates or deletes a visit, moves a visit to
    another patient, or writes the patients or the users: this holds for
    [update_visit] when it succeeds, and for [update_visit_status] and
    [update_pharmacy_status_and_timeout] of both files. *)
Theorem updates_keep_visit_identity (now : datetime) (db : database)
    (visit_id : Z) :
  (∀ assigned_doctor_id visit_date time_in time_out service status vitals
     doctor_notes pharmacy_instructions db',
      update_visit db visit_id assigned_doctor_id visit_date time_in time_out
        service status vitals doctor_notes pharmacy_instructions
      = Ok db' →
      keeps_visit_identity db db')
  ∧ (∀ new_status doctor_notes pharmacy_instructions vitals,
        keeps_visit_identity db
          (Sub.update_visit_status db visit_id new_status doctor_notes
             pharmacy_instructions vitals)
        ∧ keeps_visit_identity db
            (Root.update_visit_status db visit_id new_status doctor_notes
               pharmacy_instructions))
  ∧ (∀ new_status,
        keeps_visit_identity db
          (Sub.update_pharmacy_status_and_timeout now db visit_id new_status)
        ∧ keeps_visit_identity db
            (Root.update_pharmacy_status_and_timeout now db visit_id new_status)).
Proof.
  split; [| split].
  - intros doc d tin tout svc st vit notes instr db'. unfold update_visit.
    destruct (visits db !! visit_id) as [v |] eqn:Hv.
    + destruct d as [d |]; [| done]. intros [= <-].
      split; [done |]. split; [done |]. intros vid. simpl.
      destruct (decide (visit_id = vid)) as [<- | Hne].
      * by rewrite lookup_insert_eq, Hv.
      * by rewrite lookup_insert_ne.
    + intros [= <-]. by split; [| split].
  - intros st notes instr vit. split.
    + apply keeps_visit_identity_update. intros v.
      by destruct notes, instr, vit.
    + unfold Root.update_visit_status. destruct (str_truthy instr);
        by apply keeps_visit_identity_update.
  - intros st. unfold Sub.update_pharmacy_status_and_timeout,
      Root.update_pharmacy_status_and_timeout.
    destruct (String.eqb st "Completed"); split;
      by apply keeps_visit_identity_update.
Qed.

(** X16. Sending a visit to the pharmacy, as the doctor's screen of the second
    file does it: [update_visit_status] to ["Visit Pharmacy"] with the notes,
    the instructions and the vitals, then
    [update_pharmacy_status_and_timeout] to ["Pending"]. For a visit whose
    patient exists, the visit is then read back with that status, pharmacy
    status ["Pending"], the notes and instructions given and its [time_out]
    untouched, and it is in the pharmacy queue. *)
Theorem send_to_pharmacy (now : datetime) (db : database) (visit_id : Z)
    (v : visit_row) (p : patient_row) (notes pharma_inst : string)
    (vitals : vitals_dict) :
  visits db !! visit_id = Some v →
  patients db !! v_patient_id v = Some p →
  let db1 := Sub.update_visit_status db visit_id "Visit Pharmacy" (Some notes)
               (Some pharma_inst) (Some vitals) in
  let db2 := Sub.update_pharmacy_status_and_timeout now db1 visit_id "Pending" in
  (∃ d, get_visit db2 visit_id = Some d
        ∧ VisitDetail.status d = Some "Visit Pharmacy"
        ∧ VisitDetail.pharmacy_status d = Some "Pending"
        ∧ VisitDetail.notes d = Some notes
        ∧ VisitDetail.pharmacy_instructions d = Some pharma_inst
        ∧ VisitDetail.vitals d = vitals
        ∧ VisitDetail.time_out d = v_time_out v)
  ∧ (∃ q, q ∈ get_visits_for_pharmacy db2
          ∧ PharmacyVisit.visit_id q = visit_id
          ∧ PharmacyVisit.pharmacy_status q = Some "Pending").
Proof.
  intros Hv Hp db1 db2.
  set (v2 := set_pharmacy_status (Some "Pending")
               (set_vitals_json (Some vitals)
                  (set_pharmacy_instructions (Some pharma_inst)
                     (set_doctor_notes (Some notes)
                        (set_status (Some "Visit Pharmacy") v))))).
  assert (visits db2 !! visit_id = Some v2) as Hv2.
  { unfold db2, Sub.update_pharmacy_status_and_timeout.
    change (String.eqb "Pending" "Completed") with false. cbv iota.
    rewrite lookup_update_visits_where_id, decide_True by done.
    unfold db1, Sub.update_visit_status.
    rewrite lookup_update_visits_where_id, decide_True by done.
    by rewrite Hv. }
  assert (patients db2 = patients db) as Hpat by done.
  split.
  - unfold get_visit. rewrite Hv2. simpl. rewrite Hp. simpl.
    eexists. split; [reflexivity |]. done.
  - exists (pharmacy_dict (visit_id, v2, p, snd <$> left_join_users db2 v2)).
    split; [| done]. apply visit_in_queue; [done | | by left].
    by rewrite Hpat.
Qed.

Lemma send_to_pharmacy_witness :
  visits clinic !! 2 = Some visit_four_days_ago
  ∧ ∃ q, q ∈ get_visits_for_pharmacy
               (Sub.update_pharmacy_status_and_timeout clock
                  (Sub.update_visit_status clinic 2 "Visit Pharmacy"
                     (Some "Fever") (Some "Dispense paracetamol") (Some ∅))
                  2 "Pending")
         ∧ PharmacyVisit.visit_id q = 2
         ∧ PharmacyVisit.pharmacy_status q = Some "Pending".
Proof.
  split; [reflexivity |].
  exact (proj2 (send_to_pharmacy clock clinic 2 visit_four_days_ago _ "Fever"
                  "Dispense paracetamol" ∅ eq_refl eq_refl)).
Defined.

Lemma add_patient_stores now db name address dob db1 pid :
  add_patient now db (Some name) address dob = Ok (db1, pid) →
  patients db1 !! pid
  = Some {| p_full_name := name; p_address := address;
            p_dob := Some (or_empty dob);
            p_created_at := datetime_isoformat now |}
  ∧ visits db1 = visits db.
Proof. intros [= <- <-]. simpl. by rewrite lookup_insert_eq. Qed.

Lemma root_add_visit_stores db pid doc d tin tout svc st vit notes instr db' vid :
  Root.add_visit db (Some pid) doc (Some d) tin tout svc st vit notes instr
  = Ok (db', vid) →
  visits db' !! vid
  = Some {| v_patient_id := pid; v_assigned_doctor_id := doc; v_date := d;
            v_time_in := tin; v_time_out := tout; v_service := svc;
            v_status := st; v_vitals_json := dumps_or_null vit;
            v_doctor_notes := notes; v_pharmacy_instructions := instr;
            v_pharmacy_status := Some "Pending" |}
  ∧ patients db' = patients db.
Proof.
  intros Hadd.
  destruct (root_add_visit_returns _ _ _ _ _ _ _ _ _ _ _ _ Hadd)
    as (? & ? & [= <-] & [= <-] & Hpid & Hdoc).
  rewrite root_add_visit_ok in Hadd by done. injection Hadd as <- <-.
  simpl. by rewrite lookup_insert_eq.
Qed.

(** X17. Registering a patient, as the receptionist's form of [src/HMS.py] does
    it: [add_patient], then [add_visit] for the new id, dated today, with
    status ["Scheduled"]. The visit is never left without its patient: it is
    read back with the name just registered and pharmacy status
    ["Pending"], and it is in the patient's five-day history. The rowid of
    the new patient and the id of the doctor are integers of 64 bits. *)
Theorem register_patient_and_visit (now : datetime) (db : database)
    (full_name address dob service : string) (assigned_doc_id : option Z) :
  5 <= today now <= MAXORDINAL →
  int64 (next_rowid (patients_seq db) (patients db)) = true →
  binds assigned_doc_id = true →
  ∃ db1 pid db2 vid d l,
    add_patient now db (Some full_name) (Some address) (Some dob) = Ok (db1, pid)
    ∧ Root.add_visit db1 (Some pid) assigned_doc_id
        (Some (date_isoformat (today now))) (Some (strftime_HM now)) None
        (Some service) (Some "Scheduled") ∅ None None
      = Ok (db2, vid)
    ∧ get_visit db2 vid = Some d
    ∧ VisitDetail.patient_id d = pid
    ∧ VisitDetail.patient_name d = full_name
    ∧ VisitDetail.status d = Some "Scheduled"
    ∧ VisitDetail.pharmacy_status d = Some "Pending"
    ∧ get_patient_visit_history now db2 pid 5 = Ok l
    ∧ ∃ h, h ∈ l ∧ HistoryVisit.id h = vid.
Proof.
  intros Htoday Hrowid Hdoc.
  assert (∃ db1 pid,
            add_patient now db (Some full_name) (Some address) (Some dob)
            = Ok (db1, pid)
            ∧ int64 pid = true) as (db1 & pid & H1 & Hpid) by (by eexists _, _).
  assert (∃ db2 vid,
            Root.add_visit db1 (Some pid) assigned_doc_id
              (Some (date_isoformat (today now))) (Some (strftime_HM now)) None
              (Some service) (Some "Scheduled") ∅ None None
            = Ok (db2, vid)) as (db2 & vid & H2)
    by (eexists _, _; by apply root_add_visit_ok).
  destruct (add_patient_stores _ _ _ _ _ _ _ H1) as [Hp1 _].
  destruct (root_add_visit_stores _ _ _ _ _ _ _ _ _ _ _ _ _ H2) as [Hv2 Hp2].
  destruct (get_patient_visit_history_spec now db2 pid 5 ltac:(lia))
    as (l & Hl & Hin & _).
  eexists db1, pid, db2, vid, _, l.
  split; [exact H1 |]. split; [exact H2 |]. split.
  { unfold get_visit. rewrite Hv2. simpl. rewrite Hp2, Hp1. reflexivity. }
  do 4 (split; [reflexivity |]). split; [exact Hl |].
  eexists. split.
  - apply Hin. eexists vid, _. split; [exact Hv2 |]. split; [done |].
    split; [| reflexivity]. simpl. apply sql_between_isoformat; lia.
  - reflexivity.
Qed.

Lemma register_patient_and_visit_witness :
  ∃ db1 db2 d,
    add_patient clock clinic (Some "Jane Smith") (Some "456 Oak Ave")
      (Some "1985-03-15") = Ok (db1, 2)
    ∧ Root.add_visit db1 (Some 2) (Some 3) (Some "2025-11-03") (Some "14:30")
        None (Some "General Consultation") (Some "Scheduled") ∅ None None
      = Ok (db2, 43)
    ∧ get_visit db2 43 = Some d
    ∧ VisitDetail.patient_name d = "Jane Smith".
Proof.
  assert (5 <= today clock <= MAXORDINAL) as Htoday
    by (vm_compute; split; discriminate).
  destruct (register_patient_and_visit clock clinic "Jane Smith" "456 Oak Ave"
              "1985-03-15" "General Consultation" (Some 3) Htoday
              eq_refl eq_refl)
    as (db1 & pid & db2 & vid & d & l & H1 & H2 & H3 & _ & H5 & _).
  vm_compute in H1. injection H1 as <- <-.
  vm_compute in H2. injection H2 as <- <-.
  eexists _, _, d. split; [reflexivity |]. split; [reflexivity |].
  split; [exact H3 | exact H5].
Defined.

(** ** More on the search for visits *)

Section search_more.
Context `{Builtins}.

(** X18. A search with role ["pharmacy"] returns only dictionaries of the
    pharmacy queue, in both files. *)
Theorem pharmacy_search_within_queue (db : database) (search_term : string) :
  (∀ d, d ∈ Sub.search_visits db search_term "pharmacy" →
        d ∈ get_visits_for_pharmacy db)
  ∧ (∀ l d, Root.search_visits db search_term "pharmacy" = Ok l →
            d ∈ l → d ∈ get_visits_for_pharmacy db).
Proof.
  split.
  - intros d Hd.
    apply elem_of_sub_search_visits in Hd as (vid & v & p & Hv & Hp & Hc & ->).
    unfold Sub.search_where in Hc. simpl in Hc.
    apply andb_true_iff in Hc as [_ Hc]. apply pharmacy_filter_spec in Hc.
    by apply visit_in_queue.
  - intros l d Hl Hd.
    assert (∃ search_id,
              d ∈ pharmacy_dict
                    <$> order_by_desc joined_key
                          (Root.select_join_patients_users db
                             (Root.search_where search_id search_term
                                "pharmacy"))) as [search_id Hd'].
    { unfold Root.search_visits in Hl.
      destruct (py_int search_term) as [n |].
      - destruct (int64 n); [| done]. injection Hl as <-. by exists (Some n).
      - injection Hl as <-. by exists None. }
    apply elem_of_root_search_rows in Hd'
      as (vid & v & p & u & Hv & Hp & Hu & Hc & ->).
    assert (pharmacy_filter v = true) as Hf.
    { unfold Root.search_where in Hc. simpl in Hc.
      destruct search_id; by apply andb_true_iff in Hc as [_ Hc]. }
    apply pharmacy_filter_spec in Hf.
    replace (Some u.2) with (snd <$> left_join_users db v) by (by rewrite Hu).
    by apply visit_in_queue.
Qed.

(** X19. Searching with the empty term and role ["all"], which is how the
    screens of [src/HMS.py] list all visits. The pattern is ['%%'], which
    every text is LIKE, and [int] rejects the empty text: the second file
    returns every visit whose patient row exists; [src/HMS.py] returns every
    visit whose patient row and assigned doctor row both exist, and so
    leaves out the visits without a doctor. *)
Theorem search_visits_empty_term (db : database) :
  py_int EmptyString = None →
  (∀ s, sql_like s "%%" = true) →
  (∀ d, d ∈ Sub.search_visits db EmptyString "all"
        ↔ ∃ vid v p,
            visits db !! vid = Some v
            ∧ patients db !! v_patient_id v = Some p
            ∧ d = pharmacy_dict (vid, v, p, snd <$> left_join_users db v))
  ∧ ∃ l, Root.search_visits db EmptyString "all" = Ok l
         ∧ ∀ d, d ∈ l
                ↔ ∃ vid v p u,
                    visits db !! vid = Some v
                    ∧ patients db !! v_patient_id v = Some p
                    ∧ left_join_users db v = Some u
                    ∧ d = pharmacy_dict (vid, v, p, Some u.2).
Proof.
  intros Hint Hlike. split.
  - intros d. rewrite elem_of_sub_search_visits.
    split.
    + intros (vid & v & p & Hv & Hp & _ & ->). by exists vid, v, p.
    + intros (vid & v & p & Hv & Hp & ->). exists vid, v, p.
      repeat (split; [done |]). split; [| done].
      unfold Sub.search_where. change (like_pattern EmptyString) with "%%".
      simpl. by rewrite Hlike.
  - unfold Root.search_visits. rewrite Hint. eexists. split; [reflexivity |].
    intros d. rewrite elem_of_root_search_rows. split.
    + intros (vid & v & p & u & Hv & Hp & Hu & _ & ->). by exists vid, v, p, u.
    + intros (vid & v & p & u & Hv & Hp & Hu & ->). exists vid, v, p, u.
      repeat (split; [done |]). split; [| done].
      unfold Root.search_where, Root.text_match_all.
      change (like_pattern EmptyString) with "%%". simpl. by rewrite Hlike.
Qed.
End search_more.

Lemma pharmacy_search_within_queue_witness :
  ∃ l, @Root.search_visits ascii_builtins clinic "john" "pharmacy" = Ok l
       ∧ ∀ d, d ∈ l → d ∈ get_visits_for_pharmacy clinic.
Proof.
  eexists. split; [reflexivity |]. intros d.
  by apply (proj2 (@pharmacy_search_within_queue ascii_builtins clinic "john")).
Defined.

Lemma search_visits_empty_term_witness :
  ∃ l, @Root.search_visits ascii_builtins clinic EmptyString "all" = Ok l
       ∧ PharmacyVisit.visit_id <$> l = [1; 2; 3].
Proof.
  destruct (proj2 (@search_visits_empty_term ascii_builtins clinic eq_refl
                     like_match_everything)) as (l & Hl & _).
  exists l. split; [exact Hl |].
  vm_compute in Hl. injection Hl as <-. reflexivity.
Defined.

(** ** The dashboard counters *)

Section counting.
Context {A : Type} (P : Z * A → Prop) `{∀ r, Decision (P r)}.

Lemma count_insert_fresh (m : gmap Z A) k x :
  m !! k = None →
  length (filter P (map_to_list (<[k := x]> m)))
  = ((if decide (P (k, x)) then 1 else 0)
     + length (filter P (map_to_list m)))%nat.
Proof.
  intros Hk. rewrite (map_to_list_insert m k x Hk).
  rewrite filter_cons. by destruct (decide (P (k, x))).
Qed.

Lemma count_alter (m : gmap Z A) (f : A → A) k x :
  m !! k = Some x →
  (length (filter P (map_to_list (alter f k m)))
   + (if decide (P (k, x)) then 1 else 0)
   = length (filter P (map_to_list m))
     + (if decide (P (k, f x)) then 1 else 0))%nat.
Proof.
  intros Hk.
  assert (alter f k m = <[k := f x]> (delete k m)) as ->.
  { apply map_eq. intros i. destruct (decide (i = k)) as [-> | Hne].
    - by rewrite lookup_alter_eq, lookup_insert_eq, Hk.
    - by rewrite lookup_alter_ne, lookup_insert_ne, lookup_delete_ne. }
  rewrite count_insert_fresh by apply lookup_delete_eq.
  rewrite <- (insert_id m k x Hk) at 2. rewrite <- insert_delete_eq.
  rewrite count_insert_fresh by apply lookup_delete_eq.
  lia.
Qed.
End counting.

(** X20. The counters of the dashboard follow the store. [add_patient] raises
    the number of patients by one. [add_visit] of [src/HMS.py] raises the
    number of pending pharmacy orders by one whatever the status of the
    visit, and the number of today's visits by one when the visit is dated
    today and not otherwise. *)
Theorem counters_after_creation (now : datetime) (db : database) :
  (∀ full_name address dob db' pid,
      add_patient now db full_name address dob = Ok (db', pid) →
      RootExtra.get_total_patients_count db'
      = RootExtra.get_total_patients_count db + 1)
  ∧ (∀ patient_id assigned_doctor_id visit_date time_in time_out service status
       vitals doctor_notes pharmacy_instructions db' vid,
        Root.add_visit db patient_id assigned_doctor_id visit_date time_in
          time_out service status vitals doctor_notes pharmacy_instructions
        = Ok (db', vid) →
        RootExtra.get_pending_pharmacy_count db'
        = RootExtra.get_pending_pharmacy_count db + 1
        ∧ RootExtra.get_todays_visits_count now db'
          = RootExtra.get_todays_visits_count now db
            + (if decide (visit_date = Some (date_isoformat (today now)))
               then 1 else 0)).
Proof.
  split.
  - intros full_name address dob db' pid. unfold add_patient.
    destruct full_name as [name |]; [| done]. intros [= <- <-].
    unfold RootExtra.get_total_patients_count, scan_patients. simpl.
    rewrite map_to_list_insert by apply next_rowid_fresh. simpl. lia.
  - intros pid doc d tin tout svc st vit notes instr db' vid Hadd.
    destruct (root_add_visit_returns _ _ _ _ _ _ _ _ _ _ _ _ Hadd)
      as (pid' & d' & -> & -> & Hpid & Hdoc).
    rewrite root_add_visit_ok in Hadd by done. injection Hadd as <- <-.
    unfold RootExtra.get_pending_pharmacy_count,
      RootExtra.get_todays_visits_count, scan_visits. simpl.
    rewrite !count_insert_fresh by apply next_rowid_fresh.
    cbn [snd v_pharmacy_status v_date]. split.
    + rewrite decide_True by done. lia.
    + destruct (decide (d' = date_isoformat (today now))) as [-> | Hne].
      * rewrite !decide_True by done. lia.
      * rewrite (decide_False (P := Some d' = Some _)) by congruence. lia.
Qed.

Lemma counters_after_creation_witness :
  ∃ db',
    add_patient clock clinic (Some "Jane Smith") None None = Ok (db', 2)
    ∧ RootExtra.get_total_patients_count db' = 2.
Proof.
  eexists. split; [reflexivity |].
  rewrite (proj1 (counters_after_creation clock clinic) (Some "Jane Smith")
             None None _ 2 eq_refl).
  reflexivity.
Defined.

(** X21. The number of pending pharmacy orders goes down by one when
    [update_pharmacy_status_and_timeout] of [src/HMS.py] moves a
    ["Pending"] visit to any other pharmacy status, and stays when the
    visit was not ["Pending"] and is not made so. *)
Theorem pending_count_after_update (now : datetime) (db : database)
    (visit_id : Z) (v : visit_row) (new_status : string) :
  visits db !! visit_id = Some v →
  new_status ≠ "Pending" →
  RootExtra.get_pending_pharmacy_count
    (Root.update_pharmacy_status_and_timeout now db visit_id new_status)
  = RootExtra.get_pending_pharmacy_count db
    - (if decide (v_pharmacy_status v = Some "Pending") then 1 else 0).
Proof.
  intros Hv Hne.
  unfold RootExtra.get_pending_pharmacy_count, scan_visits,
    Root.update_pharmacy_status_and_timeout.
  destruct (String.eqb new_status "Completed");
    unfold update_visits_where_id, with_visits; simpl;
    match goal with
    | |- context [alter ?f visit_id (visits db)] =>
        pose proof (count_alter
                      (λ r : Z * visit_row, v_pharmacy_status r.2 = Some "Pending")
                      (visits db) f visit_id v Hv) as Hc
    end;
    simpl in Hc; rewrite (decide_False (P := Some new_status = Some "Pending"))
      in Hc by congruence;
    destruct (decide (v_pharmacy_status v = Some "Pending")); lia.
Qed.

Lemma pending_count_after_update_witness :
  RootExtra.get_pending_pharmacy_count clinic = 2
  ∧ RootExtra.get_pending_pharmacy_count
      (Root.update_pharmacy_status_and_timeout clock clinic 1 "Completed")
    = 1.
Proof.
  split; [reflexivity |].
  rewrite (pending_count_after_update clock clinic 1 visit_today "Completed"
             eq_refl ltac:(discriminate)).
  reflexivity.
Defined.

Lemma length_filter_omap_le {A B : Type} (f : A → option B)
    (P : A → Prop) (Q : B → Prop)
    `{∀ x, Decision (P x)} `{∀ y, Decision (Q y)} (l : list A) :
  (∀ x y, f x = Some y → Q y → P x) →
  (length (filter Q (omap f l)) <= length (filter P l))%nat.
Proof.
  intros Hf. induction l as [| x l IH]; [done |]. csimpl.
  rewrite (filter_cons P). destruct (f x) as [y |] eqn:E.
  - rewrite (filter_cons Q). destruct (decide (Q y)) as [HQ | HQ].
    + rewrite decide_True by (by eapply Hf). simpl. lia.
    + destruct (decide (P x)); simpl; lia.
  - destruct (decide (P x)); simpl; lia.
Qed.

(** X22. The number of pending pharmacy orders is counted over the visits alone:
    it is never below the number of ["Pending"] dictionaries of the pharmacy
    queue, and above it when a ["Pending"] visit has no patient row. *)
Theorem pending_count_covers_queue (db : database) :
  Z.of_nat
    (length (filter (λ d, PharmacyVisit.pharmacy_status d = Some "Pending")
               (get_visits_for_pharmacy db)))
  <= RootExtra.get_pending_pharmacy_count db.
Proof.
  unfold RootExtra.get_pending_pharmacy_count, get_visits_for_pharmacy,
    select_join_patients_left_users.
  apply inj_le.
  assert (∀ rows : list joined_row,
            length (filter (λ d, PharmacyVisit.pharmacy_status d = Some "Pending")
                      (pharmacy_dict <$> rows))
            = length (filter (λ r : joined_row,
                                v_pharmacy_status r.1.1.2 = Some "Pending")
                        rows)) as Hdict.
  { induction rows as [| [[[vid v] p] u] rows IH]; [done |].
    rewrite fmap_cons, !filter_cons. simpl.
    destruct (decide (v_pharmacy_status v = Some "Pending")); simpl;
      by rewrite IH. }
  rewrite Hdict. rewrite (order_by_desc_perm joined_key).
  apply length_filter_omap_le. intros [vid v] r Hsel HQ. simpl in *.
  destruct (patients db !! v_patient_id v) as [p |]; [| done]. simpl in Hsel.
  destruct (pharmacy_filter v); [| done]. by inversion Hsel; subst.
Qed.

(** On the clinic the two differ: visits 1 and 42 are ["Pending"], and the
    queue holds visit 1 only. *)
Example pending_count_above_queue :
  RootExtra.get_pending_pharmacy_count clinic = 2
  ∧ length (get_visits_for_pharmacy clinic) = 1%nat.
Proof. split; reflexivity. Qed.

(** X23. [visits_on_date] returns the id and status of exactly the visits
    with that date text, each visit once, joined or not; for today's ISO
    date there are as many rows as [get_todays_visits_count] counts. *)
Theorem visits_on_date_spec (now : datetime) (db : database) (date_str : string) :
  (∀ vid status,
      (vid, status) ∈ RootExtra.visits_on_date db date_str
      ↔ ∃ v, visits db !! vid = Some v
             ∧ v_date v = date_str
             ∧ status = v_status v)
  ∧ NoDup (RootExtra.visits_on_date db date_str).*1
  ∧ Z.of_nat (length (RootExtra.visits_on_date db (date_isoformat (today now))))
    = RootExtra.get_todays_visits_count now db.
Proof.
  unfold RootExtra.visits_on_date, RootExtra.get_todays_visits_count, scan_visits.
  split; [| split].
  - intros vid status. rewrite list_elem_of_fmap. split.
    + intros ([vid' v] & [= -> ->] & Hin).
      apply list_elem_of_filter in Hin as [Hd Hin].
      apply elem_of_map_to_list in Hin. by exists v.
    + intros (v & Hv & Hd & ->). exists (vid, v). split; [done |].
      apply list_elem_of_filter. split; [done |]. by apply elem_of_map_to_list.
  - rewrite <- list_fmap_compose.
    apply (sublist_NoDup _ (map_to_list (visits db)).*1);
      [apply NoDup_fst_map_to_list |].
    apply (fmap_sublist fst), sublist_filter.
  - by rewrite length_fmap.
Qed.
